(** * QuotaWatch: the polling-and-notification core, embedded in Rocq

    A shallow embedding of the backend's balance adapters
    ([app/services/adapters]), adapter factory, encryption service
    ([app/core/security.py]), key registration ([app/api/routers/keys.py])
    and the Arq worker ([app/worker.py]), followed by the properties the
    specification states about them.

    Conventions.
    - A Python [float] is a primitive IEEE-754 binary64 [float].
    - A Python [str] that is only used as an identifier or a dictionary key
      is a [string]; the text handled by the encryption service (secrets and
      tokens) is a [pystr], a list of Unicode code points, so that
      [str.encode()] and [bytes.decode()] are the UTF-8 codec.
    - [bytes] is a list of integers, each a byte when well formed.
    - Exceptions are values of [exn]; a call returns a [result].
    - Everything outside the process (HTTP endpoints, the database's commit,
      Redis, the clock, the Fernet library) is a field of [env]; what the
      process does to the outside is recorded in [world]. *)

From Stdlib Require Import ZArith List Lia Bool String Floats.
From stdpp Require Import base option list gmap strings sorting.

Local Open Scope Z_scope.
Local Set Warnings "-register-all".

(** ** Python values and exceptions *)

Definition pystr := list Z.
Definition bytes := list Z.

Inductive transport_error :=
| TimeoutException
| ConnectError
| ReadError
| ProtocolError.   (* also a request the transport refuses to write *)

Inductive exn :=
| ValueError
| TypeError
| AttributeError
| OverflowError
| UnicodeEncodeError
| UnicodeDecodeError
| JSONDecodeError
| InvalidToken                          (* cryptography.fernet.InvalidToken *)
| HTTPStatusError (status : Z)          (* httpx: raise_for_status *)
| TransportError (t : transport_error)  (* httpx: no response was received *)
| HTTPException (status : Z)            (* fastapi *)
| SQLAlchemyError
| RedisError.

Inductive result (A : Type) :=
| Ok (a : A)
| Raise (e : exn).
Arguments Ok {A} a.
Arguments Raise {A} e.

(** JSON documents and the values of a metadata dictionary. *)
Inductive pyval :=
| PNone
| PBool (b : bool)
| PInt (z : Z)
| PFloat (f : float)
| PStr (s : string)
| PList (l : list pyval)
| PDict (d : gmap string pyval).

(** [float(z)] for a Python [int]: the nearest binary64, ties to even. *)
Definition float_of_Z (z : Z) : float :=
  SF2Prim (binary_normalize prec emax z 0 false).

(** [float(v)]. The parser of numeric strings is Python's own and is taken
    as the parameter [float_of_str]. *)
Definition py_float (float_of_str : string -> option float) (v : pyval)
  : result float :=
  match v with
  | PFloat f => Ok f
  | PInt z =>
      let f := float_of_Z z in
      if PrimFloat.is_infinity f then Raise OverflowError else Ok f
  | PBool b => Ok (if b then 1%float else 0%float)
  | PStr s =>
      match float_of_str s with
      | Some f => Ok f
      | None => Raise ValueError
      end
  | PNone | PList _ | PDict _ => Raise TypeError
  end.

(** [d.get(key, default)]; only a [dict] has the method. *)
Definition py_get (d : pyval) (key : string) (default : pyval) : result pyval :=
  match d with
  | PDict m => Ok (from_option id default (m !! key))
  | _ => Raise AttributeError
  end.

(** [max(0, x)]: the built-in keeps its first argument unless a later one
    compares greater; the integer [0] becomes [0.0] in the [float] field. *)
Definition py_max0 (x : float) : float :=
  if PrimFloat.ltb 0%float x then x else 0%float.

(** ** The UTF-8 codec: [str.encode()] and [bytes.decode()] *)

Module Utf8.

Definition is_cont (b : Z) : bool := (0x80 <=? b) && (b <=? 0xBF).
Definition is_surrogate (c : Z) : bool := (0xD800 <=? c) && (c <=? 0xDFFF).

Definition encode_cp (c : Z) : option bytes :=
  if c <? 0 then None
  else if c <? 0x80 then Some [c]
  else if c <? 0x800 then Some [0xC0 + c / 64; 0x80 + c mod 64]
  else if c <? 0x10000 then
    if is_surrogate c then None
    else Some [0xE0 + c / 4096; 0x80 + (c / 64) mod 64; 0x80 + c mod 64]
  else if c <? 0x110000 then
    Some [0xF0 + c / 262144; 0x80 + (c / 4096) mod 64;
          0x80 + (c / 64) mod 64; 0x80 + c mod 64]
  else None.

Fixpoint encode (s : pystr) : option bytes :=
  match s with
  | [] => Some []
  | c :: s' =>
      match encode_cp c, encode s' with
      | Some b, Some bs => Some (b ++ bs)
      | _, _ => None
      end
  end.

(** The strict decoder: no overlong forms, no surrogates, nothing above
    U+10FFFF, no stray or missing continuation byte. *)
Fixpoint decode (bs : bytes) : option pystr :=
  match bs with
  | [] => Some []
  | b0 :: r0 =>
      if (0 <=? b0) && (b0 <? 0x80) then cons b0 <$> decode r0
      else if (0xC2 <=? b0) && (b0 <=? 0xDF) then
        match r0 with
        | b1 :: r1 =>
            if is_cont b1
            then cons ((b0 - 0xC0) * 64 + (b1 - 0x80)) <$> decode r1
            else None
        | _ => None
        end
      else if (0xE0 <=? b0) && (b0 <=? 0xEF) then
        match r0 with
        | b1 :: b2 :: r2 =>
            let c := (b0 - 0xE0) * 4096 + (b1 - 0x80) * 64 + (b2 - 0x80) in
            if is_cont b1 && is_cont b2 && (0x800 <=? c) && negb (is_surrogate c)
            then cons c <$> decode r2
            else None
        | _ => None
        end
      else if (0xF0 <=? b0) && (b0 <=? 0xF4) then
        match r0 with
        | b1 :: b2 :: b3 :: r3 =>
            let c := (b0 - 0xF0) * 262144 + (b1 - 0x80) * 4096
                     + (b2 - 0x80) * 64 + (b3 - 0x80) in
            if is_cont b1 && is_cont b2 && is_cont b3
               && (0x10000 <=? c) && (c <=? 0x10FFFF)
            then cons c <$> decode r3
            else None
        | _ => None
        end
      else None
  end.

(** A code point a [str] holding text is made of. *)
Definition is_scalar (c : Z) : Prop :=
  0 <= c < 0x110000 /\ ~ (0xD800 <= c <= 0xDFFF).

Definition is_byte (b : Z) : Prop := 0 <= b < 256.
Definition is_ascii (b : Z) : Prop := 0 <= b < 128.

End Utf8.

Definition str_encode (s : pystr) : result bytes :=
  match Utf8.encode s with
  | Some b => Ok b
  | None => Raise UnicodeEncodeError
  end.

(** [s.encode("ascii")]: the text itself when every character is below
    128. *)
Definition ascii_encode (s : pystr) : result bytes :=
  if forallb (fun c => (0 <=? c) && (c <? 128)) s then Ok s
  else Raise UnicodeEncodeError.

Definition bytes_decode (b : bytes) : result pystr :=
  match Utf8.decode b with
  | Some s => Ok s
  | None => Raise UnicodeDecodeError
  end.

(** ** app/models.py: the tables

    A stored row carries the primary key the database gave it.  An object
    that was constructed but not yet inserted has [id = None] in Python; it
    is written here as a function of the key it will receive. *)

Definition datetime := Z.

Module User.
Record t := mk {
  id : Z;
  email : string;
  hashed_password : string;
  is_active : bool;
  created_at : datetime;
}.
End User.

Module PlatformProvider.
Record t := mk {
  id : Z;
  name : string;
  slug : string;
  adapter_identifier : string;
  created_at : datetime;
}.
End PlatformProvider.

Module ManagedApiKey.
Record t := mk {
  id : Z;
  name : string;
  api_key_encrypted : pystr;
  metadata : gmap string pyval;
  last_known_balance : option float;
  last_checked : option datetime;
  user_id : Z;
  platform_id : Z;
  created_at : datetime;
  updated_at : datetime;
}.

Definition set_last_known_balance (v : option float) (k : t) : t :=
  mk (id k) (name k) (api_key_encrypted k) (metadata k) v (last_checked k)
     (user_id k) (platform_id k) (created_at k) (updated_at k).

Definition set_last_checked (v : option datetime) (k : t) : t :=
  mk (id k) (name k) (api_key_encrypted k) (metadata k) (last_known_balance k) v
     (user_id k) (platform_id k) (created_at k) (updated_at k).
End ManagedApiKey.

Module BalanceLog.
Record t := mk {
  id : Z;
  timestamp : datetime;
  balance : float;
  key_id : Z;
}.
End BalanceLog.

Module NotificationRule.
Record t := mk {
  id : Z;
  threshold_amount : float;
  notification_channel : string;
  channel_address : string;
  key_id : Z;
  created_at : datetime;
}.
End NotificationRule.

Record database := mk_database {
  users : list User.t;
  platforms : list PlatformProvider.t;
  api_keys : list ManagedApiKey.t;
  balance_logs : list BalanceLog.t;
  notification_rules : list NotificationRule.t;
}.

(** What a session has been told to write and has not committed yet.
    [UpdateKeyBalance k] is the loaded row [k] whose [last_known_balance] and
    [last_checked] attributes were assigned: the flush writes these two
    columns of the row with the primary key of [k]. *)
Inductive pending_op :=
| UpdateKeyBalance (k : ManagedApiKey.t)
| InsertKey (new_key : Z -> ManagedApiKey.t)
| InsertLog (new_log : Z -> BalanceLog.t).

(** The next value of an auto-increment primary key. *)
Definition next_id (ids : list Z) : Z := 1 + foldr Z.max 0 ids.

Definition apply_op (d : database) (op : pending_op) : database :=
  match op with
  | UpdateKeyBalance k =>
      mk_database (users d) (platforms d)
        (map (fun k0 =>
                if ManagedApiKey.id k0 =? ManagedApiKey.id k
                then ManagedApiKey.set_last_checked (ManagedApiKey.last_checked k)
                       (ManagedApiKey.set_last_known_balance
                          (ManagedApiKey.last_known_balance k) k0)
                else k0)
             (api_keys d))
        (balance_logs d) (notification_rules d)
  | InsertKey new_key =>
      mk_database (users d) (platforms d)
        (api_keys d ++ [new_key (next_id (map ManagedApiKey.id (api_keys d)))])
        (balance_logs d) (notification_rules d)
  | InsertLog new_log =>
      mk_database (users d) (platforms d) (api_keys d)
        (balance_logs d ++ [new_log (next_id (map BalanceLog.id (balance_logs d)))])
        (notification_rules d)
  end.

Definition apply_ops (d : database) (ops : list pending_op) : database :=
  fold_left apply_op ops d.

(** ** The job queue and HTTP *)

(** A job is a task name with its keyword arguments. *)
Inductive job :=
| check_single_key_job (key_id : Z)
| send_notification_job (key_id : Z) (balance threshold : float)
                        (channel address : string).

(** What the worker hands to a job as its first argument, [ctx].  arq
    passes a [dict], which holds the pool under ["redis"] and has no
    attribute [enqueue_job]; the other case is an object that has the
    pool's method. *)
Inductive job_ctx :=
| arq_ctx
| queue_ctx.

Record Request := mk_request {
  url : string;
  authorization : pystr;     (* the token after "Bearer " *)
  timeout : float;
}.

Record Response := mk_response {
  status_code : Z;
  body_json : option pyval;  (* [None]: the body is not a JSON document *)
}.

Inductive net_outcome :=
| Responded (r : Response)
| Failed (t : transport_error).

(** ** cryptography.fernet

    [Fernet(key)] is an object with two methods.  [encrypt] draws the
    current time and a fresh IV, the [nonce]; [decrypt] returns the
    plaintext or raises [InvalidToken], written [None]. *)

Definition nonce : Type := Z * bytes.

Record Fernet := mk_Fernet {
  Fernet_encrypt : nonce -> bytes -> bytes;
  Fernet_decrypt : bytes -> option bytes;
}.

(** ** The outside of the process *)

Record env := mk_env {
  float_of_str : string -> option float;           (* Python's float(str) *)
  Fernet_new : bytes -> Fernet;                    (* Fernet(key) *)
  MASTER_ENCRYPTION_KEY : bytes;                   (* already .encode()d *)
  fernet_nonce : nat -> nonce;                     (* n-th draw of time and IV *)
  utcnow_at : nat -> datetime;                     (* n-th reading of the clock *)
  network : Request -> net_outcome;                (* the HTTP endpoints *)
  commit_error : database -> list pending_op -> option exn;
  create_pool_error : option exn;                  (* connecting to Redis *)
  enqueue_error : list job -> job -> option exn;   (* what an enqueue_job call
                                                      raises, if anything, given
                                                      the earlier calls *)
  ctx : job_ctx;                                   (* what the worker passes to
                                                      its jobs *)
}.

Record world := mk_world {
  db : database;                 (* what is committed *)
  pending : list pending_op;     (* the open session's unit of work *)
  http_log : list Request;       (* requests handed to the transport *)
  enqueue_calls : list job;      (* every enqueue_job call made *)
  queue : list job;              (* jobs Redis accepted *)
  clock_reads : nat;
  nonces_drawn : nat;
}.

(** ** Computations: read [env], change [world], return or raise *)

Definition M (A : Type) : Type := env -> world -> world * result A.

Definition ret {A} (a : A) : M A := fun _ w => (w, Ok a).
Definition raise {A} (e : exn) : M A := fun _ w => (w, Raise e).
Definition bind {A B} (m : M A) (k : A -> M B) : M B :=
  fun E w =>
    match m E w with
    | (w', Ok a) => k a E w'
    | (w', Raise e) => (w', Raise e)
    end.
Definition lift {A} (r : result A) : M A := fun _ w => (w, r).

Declare Scope py_scope.
Delimit Scope py_scope with py.
Notation "x <~ m ;; k" := (bind m (fun x => k))
  (at level 100, m at next level, k at level 200, right associativity,
   format "'[v' x  <~  m  ;; '/' k ']'") : py_scope.
Local Open Scope py_scope.

(** [try: body except <matching>: handler]. The world keeps what the body
    did before it raised. *)
Definition try_except {A} (body : M A) (matching : exn -> bool)
    (handler : exn -> M A) : M A :=
  fun E w =>
    match body E w with
    | (w', Raise e) => if matching e then handler e E w' else (w', Raise e)
    | done => done
    end.

Definition except_Exception (e : exn) : bool := true.
Definition except_HTTPStatusError (e : exn) : bool :=
  match e with HTTPStatusError _ => true | _ => false end.

Definition set_db (d : database) (w : world) : world :=
  mk_world d (pending w) (http_log w) (enqueue_calls w) (queue w)
           (clock_reads w) (nonces_drawn w).
Definition set_pending (p : list pending_op) (w : world) : world :=
  mk_world (db w) p (http_log w) (enqueue_calls w) (queue w)
           (clock_reads w) (nonces_drawn w).

(** [datetime.utcnow()] *)
Definition utcnow : M datetime :=
  fun E w =>
    (mk_world (db w) (pending w) (http_log w) (enqueue_calls w) (queue w)
              (S (clock_reads w)) (nonces_drawn w),
     Ok (utcnow_at E (clock_reads w))).

Definition draw_nonce : M nonce :=
  fun E w =>
    (mk_world (db w) (pending w) (http_log w) (enqueue_calls w) (queue w)
              (clock_reads w) (S (nonces_drawn w)),
     Ok (fernet_nonce E (nonces_drawn w))).

(** [await client.get(url, headers=..., timeout=...)].  httpx builds the
    request first and encodes the value of every header as ASCII: a token
    that is not ASCII text raises [UnicodeEncodeError] there, and nothing is
    sent (["Bearer "] and the other header are ASCII).  What the transport
    does with the request it is handed, a refusal to write it included, is
    the outcome [network] gives. *)
Definition client_get (req : Request) : M Response :=
  fun E w =>
    match ascii_encode (authorization req) with
    | Raise e => (w, Raise e)
    | Ok _ =>
        (mk_world (db w) (pending w) (http_log w ++ [req]) (enqueue_calls w) (queue w)
                  (clock_reads w) (nonces_drawn w),
         match network E req with
         | Responded r => Ok r
         | Failed t => Raise (TransportError t)
         end)
    end.

(** [response.raise_for_status()]: any status outside 2xx raises. *)
Definition raise_for_status (r : Response) : result unit :=
  if (200 <=? status_code r) && (status_code r <? 300) then Ok tt
  else Raise (HTTPStatusError (status_code r)).

(** [response.json()] *)
Definition response_json (r : Response) : result pyval :=
  match body_json r with
  | Some v => Ok v
  | None => Raise JSONDecodeError
  end.

(** The session: [with Session(engine) as session], [session.exec(select
    ...)], [session.add], [session.commit], [session.rollback].  A commit
    writes the whole unit of work in one transaction or nothing. *)
Definition with_Session {A} (body : M A) : M A :=
  fun E w =>
    match body E (set_pending [] w) with
    | (w', r) => (set_pending [] w', r)
    end.

Definition session_query {A} (q : database -> A) : M A :=
  fun _ w => (w, Ok (q (db w))).

Definition session_add (op : pending_op) : M unit :=
  fun _ w => (set_pending (pending w ++ [op]) w, Ok tt).

Definition session_commit : M unit :=
  fun E w =>
    match commit_error E (db w) (pending w) with
    | Some e => (w, Raise e)
    | None => (set_pending [] (set_db (apply_ops (db w) (pending w)) w), Ok tt)
    end.

Definition session_rollback : M unit :=
  fun _ w => (set_pending [] w, Ok tt).

(** [await redis_pool.enqueue_job(name, **kwargs)] *)
Definition enqueue_job (j : job) : M unit :=
  fun E w =>
    let w' q := mk_world (db w) (pending w) (http_log w) (enqueue_calls w ++ [j]) q
                         (clock_reads w) (nonces_drawn w) in
    match enqueue_error E (enqueue_calls w) j with
    | Some e => (w' (queue w), Raise e)
    | None => (w' (queue w ++ [j]), Ok tt)
    end.

(** [await ctx.enqueue_job(name, **kwargs)]: the attribute is looked up on
    [ctx] first.  On arq's [dict] the lookup raises [AttributeError] and no
    call is made. *)
Definition ctx_enqueue_job (j : job) : M unit :=
  fun E w =>
    match ctx E with
    | arq_ctx => (w, Raise AttributeError)
    | queue_ctx => enqueue_job j E w
    end.

Definition create_pool : M unit :=
  fun E w =>
    match create_pool_error E with
    | Some e => (w, Raise e)
    | None => (w, Ok tt)
    end.

Definition ask : M env := fun E w => (w, Ok E).

(** [float(v)] inside a computation. *)
Definition float_ (v : pyval) : M float :=
  fun E w => (w, py_float (float_of_str E) v).

(** [for x in l: body(x)] *)
Fixpoint for_each {A} (l : list A) (body : A -> M unit) : M unit :=
  match l with
  | [] => ret tt
  | x :: l' => _ <~ body x ;; for_each l' body
  end.

(** ** app/core/security.py: EncryptionService *)

Module EncryptionService.

Record t := mk { fernet : Fernet }.

(** [self.fernet.encrypt(data.encode()).decode()] *)
Definition encrypt (self : t) (data : pystr) : M pystr :=
  plain <~ lift (str_encode data) ;;
  n <~ draw_nonce ;;
  lift (bytes_decode (Fernet_encrypt (fernet self) n plain)).

(** [self.fernet.decrypt(token.encode()).decode()] *)
Definition decrypt (self : t) (token : pystr) : M pystr :=
  tok <~ lift (str_encode token) ;;
  match Fernet_decrypt (fernet self) tok with
  | None => raise InvalidToken
  | Some plain => lift (bytes_decode plain)
  end.

End EncryptionService.

(** [encryption_service = EncryptionService(MASTER_ENCRYPTION_KEY.encode())] *)
Definition encryption_service (E : env) : EncryptionService.t :=
  EncryptionService.mk (Fernet_new E (MASTER_ENCRYPTION_KEY E)).

(** ** app/services/adapters *)

Module BalanceFetchResult.
Record t := mk {
  balance : float;
  is_estimate : bool;
}.
End BalanceFetchResult.

(** The closed set of subclasses of [BalanceAdapter]. *)
Inductive adapter_class :=
| OpenRouterAdapter
| OpenAIUsageAdapter.

Module BalanceAdapter.
Record t := mk {
  cls : adapter_class;
  api_key : pystr;
  metadata : gmap string pyval;
}.

(** [self.metadata = metadata or {}] *)
Definition init (c : adapter_class) (api_key : pystr)
    (metadata : option (gmap string pyval)) : t :=
  mk c api_key (from_option id ∅ metadata).
End BalanceAdapter.

(** [d.get(key)] on a dictionary: [None] when the key is absent. *)
Definition dict_get (d : gmap string pyval) (key : string) : pyval :=
  from_option id PNone (d !! key).

Module OpenRouter.

Definition fetch_balance (self : BalanceAdapter.t) : M BalanceFetchResult.t :=
  response <~ client_get
    (mk_request "https://openrouter.ai/api/v1/credits"
                (BalanceAdapter.api_key self) 30%float) ;;
  _ <~ lift (raise_for_status response) ;;
  data <~ lift (response_json response) ;;
  credits <~ lift (py_get data "credits" (PInt 0)) ;;
  balance <~ float_ credits ;;
  ret (BalanceFetchResult.mk balance false).

End OpenRouter.

Module OpenAI.

Definition fetch_balance (self : BalanceAdapter.t) : M BalanceFetchResult.t :=
  match dict_get (BalanceAdapter.metadata self) "total_grant" with
  | PNone => raise ValueError
  | total_grant =>
      total_grant <~ float_ total_grant ;;
      try_except
        (response <~ client_get
           (mk_request "https://api.openai.com/v1/usage"
                       (BalanceAdapter.api_key self) 30%float) ;;
         if status_code response =? 404
         then ret (BalanceFetchResult.mk total_grant true)
         else
           _ <~ lift (raise_for_status response) ;;
           data <~ lift (response_json response) ;;
           total_usage <~ lift (py_get data "total_usage" (PInt 0)) ;;
           total_usage <~ float_ total_usage ;;
           let used_amount := PrimFloat.div total_usage 100%float in
           let remaining := PrimFloat.sub total_grant used_amount in
           ret (BalanceFetchResult.mk (py_max0 remaining) true))
        except_HTTPStatusError
        (fun _ => ret (BalanceFetchResult.mk total_grant true))
  end.

End OpenAI.

(** [adapter.fetch_balance()]: dispatch on the class of the instance. *)
Definition fetch_balance (adapter : BalanceAdapter.t) : M BalanceFetchResult.t :=
  match BalanceAdapter.cls adapter with
  | OpenRouterAdapter => OpenRouter.fetch_balance adapter
  | OpenAIUsageAdapter => OpenAI.fetch_balance adapter
  end.

(** ** app/services/adapter_factory.py *)

Module AdapterFactory.

Definition _adapters : gmap string adapter_class :=
  <["openrouter" := OpenRouterAdapter]> (<["openai" := OpenAIUsageAdapter]> ∅).

Definition create_adapter (adapter_identifier : string) (api_key : pystr)
    (metadata : option (gmap string pyval)) : result BalanceAdapter.t :=
  match _adapters !! adapter_identifier with
  | None => Raise ValueError
  | Some adapter_class =>
      Ok (BalanceAdapter.init adapter_class api_key
            (Some (from_option id ∅ metadata)))
  end.

End AdapterFactory.

(** ** app/worker.py *)

Definition select_key (key_id : Z) (d : database) : option ManagedApiKey.t :=
  find (fun k => ManagedApiKey.id k =? key_id) (api_keys d).

Definition select_platform (platform_id : Z) (d : database)
  : option PlatformProvider.t :=
  find (fun p => PlatformProvider.id p =? platform_id) (platforms d).

Definition select_rule (key_id : Z) (d : database) : option NotificationRule.t :=
  find (fun r => NotificationRule.key_id r =? key_id) (notification_rules d).

(** [check_single_key] is written in four pieces, in the order of the
    source: the three stretches of the body of [try], then the function.
    The [print] calls are left out.  Its first argument, [ctx], is what the
    worker passes to every job it runs: it is read from the environment.

    First stretch: decrypt the stored secret, build the adapter, fetch. *)
Definition decrypt_and_fetch (api_key_record : ManagedApiKey.t)
    (platform : PlatformProvider.t) : M BalanceFetchResult.t :=
  E <~ ask ;;
  decrypted_key <~ EncryptionService.decrypt (encryption_service E)
    (ManagedApiKey.api_key_encrypted api_key_record) ;;
  adapter <~ lift (AdapterFactory.create_adapter
    (PlatformProvider.adapter_identifier platform) decrypted_key
    (Some (ManagedApiKey.metadata api_key_record))) ;;
  fetch_balance adapter.

(** Second stretch: assign the balance and the time of the check, stage the
    credential and a new history record, commit. *)
Definition persist_balance (key_id : Z) (api_key_record : ManagedApiKey.t)
    (result : BalanceFetchResult.t) : M unit :=
  let api_key_record := ManagedApiKey.set_last_known_balance
    (Some (BalanceFetchResult.balance result)) api_key_record in
  now <~ utcnow ;;
  let api_key_record := ManagedApiKey.set_last_checked (Some now) api_key_record in
  _ <~ session_add (UpdateKeyBalance api_key_record) ;;
  now <~ utcnow ;;
  let balance_log := fun pk =>
    BalanceLog.mk pk now (BalanceFetchResult.balance result) key_id in
  _ <~ session_add (InsertLog balance_log) ;;
  session_commit.

(** Third stretch: look the rule up and enqueue the notification when the
    balance just fetched is at or below the threshold. *)
Definition notify_if_low (key_id : Z) (result : BalanceFetchResult.t) : M unit :=
  notification_rule <~ session_query (select_rule key_id) ;;
  match notification_rule with
  | Some notification_rule =>
      if PrimFloat.leb (BalanceFetchResult.balance result)
                       (NotificationRule.threshold_amount notification_rule)
      then ctx_enqueue_job (send_notification_job key_id
             (BalanceFetchResult.balance result)
             (NotificationRule.threshold_amount notification_rule)
             (NotificationRule.notification_channel notification_rule)
             (NotificationRule.channel_address notification_rule))
      else ret tt
  | None => ret tt
  end.

Definition check_single_key (key_id : Z) : M unit :=
  with_Session
    (api_key_record <~ session_query (select_key key_id) ;;
     match api_key_record with
     | None => ret tt
     | Some api_key_record =>
         platform <~ session_query
           (select_platform (ManagedApiKey.platform_id api_key_record)) ;;
         match platform with
         | None => ret tt
         | Some platform =>
             try_except
               (result <~ decrypt_and_fetch api_key_record platform ;;
                _ <~ persist_balance key_id api_key_record result ;;
                notify_if_low key_id result)
               except_Exception
               (fun e => _ <~ session_rollback ;; raise e)
         end
     end).

(** [redis_pool.close()] and the closing [print] follow the loop; they touch
    nothing the model records. *)
Definition schedule_all_key_checks : M unit :=
  with_Session
    (all_keys <~ session_query api_keys ;;
     _ <~ create_pool ;;
     _ <~ for_each all_keys
            (fun key => enqueue_job (check_single_key_job (ManagedApiKey.id key))) ;;
     ret tt).

(** ** app/api/routers/keys.py: create_key *)

Module ApiKeyCreate.
Record t := mk {
  name : string;
  api_key : pystr;
  platform_id : Z;
  metadata : option (gmap string pyval);
}.
End ApiKeyCreate.

(** [session.refresh(new_key)]: read the inserted row back. *)
Definition session_refresh_new_key : M ManagedApiKey.t :=
  fun _ w =>
    (w, match last (api_keys (db w)) with
        | Some k => Ok k
        | None => Raise SQLAlchemyError
        end).

Definition create_key (key_data : ApiKeyCreate.t) (current_user : User.t)
  : M ManagedApiKey.t :=
  with_Session
    (platform <~ session_query (select_platform (ApiKeyCreate.platform_id key_data)) ;;
     match platform with
     | None => raise (HTTPException 404)
     | Some _ =>
         E <~ ask ;;
         encrypted_key <~ EncryptionService.encrypt (encryption_service E)
           (ApiKeyCreate.api_key key_data) ;;
         created_at <~ utcnow ;;
         updated_at <~ utcnow ;;
         let new_key := fun pk =>
           ManagedApiKey.mk pk (ApiKeyCreate.name key_data) encrypted_key
             (from_option id ∅ (ApiKeyCreate.metadata key_data))
             None None (User.id current_user)
             (ApiKeyCreate.platform_id key_data) created_at updated_at in
         _ <~ session_add (InsertKey new_key) ;;
         _ <~ session_commit ;;
         session_refresh_new_key
     end).

(** ** Vocabulary of the statements *)

(** The one request each adapter sends. *)
Definition credits_request (self : BalanceAdapter.t) : Request :=
  mk_request "https://openrouter.ai/api/v1/credits"
             (BalanceAdapter.api_key self) 30%float.

Definition usage_request (self : BalanceAdapter.t) : Request :=
  mk_request "https://api.openai.com/v1/usage"
             (BalanceAdapter.api_key self) 30%float.

(** The world after one more request went out. *)
Definition sent (req : Request) (w : world) : world :=
  mk_world (db w) (pending w) (http_log w ++ [req]) (enqueue_calls w) (queue w)
           (clock_reads w) (nonces_drawn w).

Definition is_2xx (status : Z) : Prop := 200 <= status < 300.

(** The grant of an estimate adapter is present and [float()] accepts it. *)
Definition grant_is (E : env) (self : BalanceAdapter.t) (g : float) : Prop :=
  dict_get (BalanceAdapter.metadata self) "total_grant" <> PNone /\
  py_float (float_of_str E) (dict_get (BalanceAdapter.metadata self) "total_grant")
    = Ok g.

(** What the library guarantees of a [Fernet] object on the tokens it
    issues: decryption inverts encryption, and a token is URL-safe base64
    text.  What it guarantees of the tokens it is given is
    [FernetAuthentic], below. *)
Record FernetContract (f : Fernet) : Prop := {
  decrypt_encrypt : forall n b,
    Forall Utf8.is_byte b -> Fernet_decrypt f (Fernet_encrypt f n b) = Some b;
  token_is_ascii : forall n b,
    Forall Utf8.is_byte b -> Forall Utf8.is_ascii (Fernet_encrypt f n b);
}.



(** A token is longer than its plaintext: it holds the padded ciphertext
    next to a version, a time, an IV and a MAC. *)
Record FernetExpands (f : Fernet) : Prop := {
  token_longer : forall n b, (length b < length (Fernet_encrypt f n b))%nat;
}.


(** Steps 2 to 4 of the check job: decrypt, fetch, persist. *)
Definition fetch_and_persist (key_id : Z) (api_key_record : ManagedApiKey.t)
    (platform : PlatformProvider.t) : M BalanceFetchResult.t :=
  result <~ decrypt_and_fetch api_key_record platform ;;
  _ <~ persist_balance key_id api_key_record result ;;
  ret result.

(** The database after a check committed: the credential [key_id] carries
    the balance [b] and the time [t1], and one history record was added. *)
Definition persisted (d : database) (key_id : Z) (b : float) (t1 t2 : datetime)
  : database :=
  mk_database (users d) (platforms d)
    (map (fun k0 =>
            if ManagedApiKey.id k0 =? key_id
            then ManagedApiKey.set_last_checked (Some t1)
                   (ManagedApiKey.set_last_known_balance (Some b) k0)
            else k0)
         (api_keys d))
    (balance_logs d
       ++ [BalanceLog.mk (next_id (map BalanceLog.id (balance_logs d))) t2 b key_id])
    (notification_rules d).

(** The notification a check enqueues for [rule]. *)
Definition notification (key_id : Z) (b : float) (rule : NotificationRule.t) : job :=
  send_notification_job key_id b
    (NotificationRule.threshold_amount rule)
    (NotificationRule.notification_channel rule)
    (NotificationRule.channel_address rule).

(** The notifications due after fetching [b]: one when a rule exists and
    [b <= threshold], none otherwise. *)
Definition notifications_due (d : database) (key_id : Z) (b : float) : list job :=
  match select_rule key_id d with
  | Some rule =>
      if PrimFloat.leb b (NotificationRule.threshold_amount rule)
      then [notification key_id b rule]
      else []
  | None => []
  end.

(** The world after an [enqueue_job] call that Redis accepted, and after
    one it refused. *)
Definition accepted (j : job) (w : world) : world :=
  mk_world (db w) (pending w) (http_log w) (enqueue_calls w ++ [j]) (queue w ++ [j])
           (clock_reads w) (nonces_drawn w).

Definition refused (j : job) (w : world) : world :=
  mk_world (db w) (pending w) (http_log w) (enqueue_calls w ++ [j]) (queue w)
           (clock_reads w) (nonces_drawn w).

(** What [ctx.enqueue_job] raises, if anything: [AttributeError] on arq's
    context, and on a queue handle what the call on the pool raises. *)
Definition ctx_enqueue_error (E : env) (before : list job) (j : job) : option exn :=
  match ctx E with
  | arq_ctx => Some AttributeError
  | queue_ctx => enqueue_error E before j
  end.

(** The body of the scheduler's loop. *)
Definition enqueue_check (key : ManagedApiKey.t) : M unit :=
  enqueue_job (check_single_key_job (ManagedApiKey.id key)).

(** The check jobs of the credentials [keys], in enumeration order. *)
Definition check_jobs (keys : list ManagedApiKey.t) : list job :=
  map (fun key => check_single_key_job (ManagedApiKey.id key)) keys.

(** Redis accepts each job of [js] when they are enqueued in order after
    the calls [before]. *)
Fixpoint all_accepted (E : env) (before js : list job) : Prop :=
  match js with
  | [] => True
  | j :: js' => enqueue_error E before j = None /\ all_accepted E (before ++ [j]) js'
  end.

(** The secret-bearing column. *)
Definition secret_fields (d : database) : list pystr :=
  map ManagedApiKey.api_key_encrypted (api_keys d).

(** The database after a registration committed: one more credential, made
    of the submitted name, metadata and platform, the owner, two clock
    readings, and [c] in the secret-bearing field. *)
Definition registered (d : database) (name : string)
    (metadata : option (gmap string pyval)) (platform_id user_id : Z)
    (c : pystr) (t1 t2 : datetime) : database :=
  mk_database (users d) (platforms d)
    (api_keys d
       ++ [ManagedApiKey.mk (next_id (map ManagedApiKey.id (api_keys d)))
             name c (from_option id ∅ metadata) None None user_id platform_id t1 t2])
    (balance_logs d) (notification_rules d).

(** [c] is the text of a token that Fernet issued under the master key
    for the UTF-8 bytes of the text [s]; [c] is such a token for some
    text. *)
Definition is_ciphertext_of (E : env) (s c : pystr) : Prop :=
  exists n plain,
    Utf8.encode s = Some plain /\
    Utf8.encode c
      = Some (Fernet_encrypt (EncryptionService.fernet (encryption_service E)) n plain).

Definition is_ciphertext (E : env) (c : pystr) : Prop :=
  exists s, is_ciphertext_of E s c.

(** The stored field [c] is a token of the master key, and it is not the
    text it stands for: whatever [decrypt] returns for it differs from
    it. *)
Definition hides_its_plaintext (E : env) (c : pystr) : Prop :=
  is_ciphertext E c /\
  forall s E' w',
    (EncryptionService.decrypt (encryption_service E) c E' w').2 = Ok s -> c <> s.

(** The operations that write credentials, and a history of them. *)
Inductive store_op :=
| CreateKey (key_data : ApiKeyCreate.t) (current_user : User.t)
| CheckSingleKey (key_id : Z).

Definition run_store_op (E : env) (w : world) (o : store_op) : world :=
  match o with
  | CreateKey key_data current_user => (create_key key_data current_user E w).1
  | CheckSingleKey key_id => (check_single_key key_id E w).1
  end.

Definition run_store_ops (E : env) (ops : list store_op) (w : world) : world :=
  fold_left (run_store_op E) ops w.

(** A projection of the world that a computation leaves as it found it. *)
Definition keeps {A B} (f : world -> B) (m : M A) : Prop :=
  forall E w, f (m E w).1 = f w.

(** A projection that does not read the log of requests. *)
Definition blind_to_http {B} (f : world -> B) : Prop :=
  forall req w, f (sent req w) = f w.

(** ** Fixtures: a small cipher, database and environments to run the
    model on *)

Module Demo.

(** A keyed toy cipher with the shape of Fernet tokens: the key and the
    plaintext in a 16-letter alphabet, separated by a dot. *)
Definition hex (b : bytes) : bytes :=
  flat_map (fun x => [97 + x / 16; 97 + x mod 16]) b.

Fixpoint unhex (t : bytes) : option bytes :=
  match t with
  | [] => Some []
  | h :: l :: r =>
      if (97 <=? h) && (h <? 113) && (97 <=? l) && (l <? 113)
      then cons ((h - 97) * 16 + (l - 97)) <$> unhex r
      else None
  | _ => None
  end.

Fixpoint strip_prefix (p t : bytes) : option bytes :=
  match p, t with
  | [], _ => Some t
  | x :: p', y :: t' => if x =? y then strip_prefix p' t' else None
  | _ :: _, [] => None
  end.

Definition toy_Fernet (key : bytes) : Fernet :=
  mk_Fernet (fun _ b => hex key ++ 46 :: hex b)
            (fun t => match strip_prefix (hex key ++ [46]) t with
                      | Some r => unhex r
                      | None => None
                      end).

Definition ascii_str (s : string) : pystr :=
  map (fun a => Z.of_N (Ascii.N_of_ascii a)) (list_ascii_of_string s).

Definition key_A : bytes := [1; 2; 3].
Definition key_B : bytes := [9; 9].

Definition env_with (key : bytes) (net : Request -> net_outcome)
    (commit_err : option exn) (redis_err : list job -> job -> option exn) : env :=
  mk_env (fun _ => None) toy_Fernet key (fun n => (Z.of_nat n, []))
         (fun n => 1000 + Z.of_nat n) net (fun _ _ => commit_err) None redis_err
         queue_ctx.

(** The same outside, with the context arq passes to a job. *)
Definition under_arq (E : env) : env :=
  mk_env (float_of_str E) (Fernet_new E) (MASTER_ENCRYPTION_KEY E) (fernet_nonce E)
         (utcnow_at E) (network E) (commit_error E) (create_pool_error E)
         (enqueue_error E) arq_ctx.

Definition no_enqueue_error : list job -> job -> option exn := fun _ _ => None.

(** The usage endpoint answers 200 with [{"total_usage": usage}]. *)
Definition net_usage (usage : Z) : Request -> net_outcome :=
  fun _ => Responded (mk_response 200 (Some (PDict {[ "total_usage" := PInt usage ]}))).

Definition net_status (status : Z) : Request -> net_outcome :=
  fun _ => Responded (mk_response status None).

Definition net_json (v : pyval) : Request -> net_outcome :=
  fun _ => Responded (mk_response 200 (Some v)).

Definition net_down (t : transport_error) : Request -> net_outcome :=
  fun _ => Failed t.

Definition secret : pystr := ascii_str "sk-demo".

(** [secret] as [toy_Fernet key_A] encrypts it. *)
Definition token_A : pystr := hex key_A ++ 46 :: hex secret.


Definition user1 : User.t := User.mk 1 "a@example.org" "hash" true 10.

Definition platform_openrouter : PlatformProvider.t :=
  PlatformProvider.mk 1 "OpenRouter" "openrouter" "openrouter" 1.
Definition platform_openai : PlatformProvider.t :=
  PlatformProvider.mk 2 "OpenAI" "openai" "openai" 1.

Definition grant100 : gmap string pyval := {[ "total_grant" := PInt 100 ]}.

Definition key7 : ManagedApiKey.t :=
  ManagedApiKey.mk 7 "prod" token_A grant100 None None 1 2 20 20.
Definition key8 : ManagedApiKey.t :=
  ManagedApiKey.mk 8 "staging" token_A grant100 None None 1 2 21 21.
Definition key9 : ManagedApiKey.t :=
  ManagedApiKey.mk 9 "dev" token_A ∅ None None 1 1 22 22.

Definition rule7 : NotificationRule.t :=
  NotificationRule.mk 1 80%float "webhook" "https://hooks.example.org/q" 7 30.

Definition db0 : database :=
  mk_database [user1] [platform_openrouter; platform_openai]
              [key7; key8; key9] [] [rule7].

Definition world0 : world := mk_world db0 [] [] [] [] 0 0.

Definition openai_adapter : BalanceAdapter.t :=
  BalanceAdapter.mk OpenAIUsageAdapter secret grant100.
Definition openai_adapter_no_grant : BalanceAdapter.t :=
  BalanceAdapter.mk OpenAIUsageAdapter secret ∅.
Definition openai_adapter_bad_grant : BalanceAdapter.t :=
  BalanceAdapter.mk OpenAIUsageAdapter secret {[ "total_grant" := PList [] ]}.
Definition openrouter_adapter : BalanceAdapter.t :=
  BalanceAdapter.mk OpenRouterAdapter secret ∅.



(** Environments: the master key is [key_A] unless the name says otherwise,
    the database commits and Redis accepts unless the name says otherwise;
    the context of a job is a queue handle unless [under_arq] is applied. *)
Definition env_usage_3000 : env := env_with key_A (net_usage 3000) None no_enqueue_error.
Definition env_usage_2000 : env := env_with key_A (net_usage 2000) None no_enqueue_error.
Definition env_usage_1000 : env := env_with key_A (net_usage 1000) None no_enqueue_error.
Definition env_not_found : env := env_with key_A (net_status 404) None no_enqueue_error.
Definition env_not_json : env := env_with key_A (net_status 200) None no_enqueue_error.
Definition env_json_list : env :=
  env_with key_A (net_json (PList [])) None no_enqueue_error.
Definition env_credits_null : env :=
  env_with key_A (net_json (PDict {[ "credits" := PNone ]})) None no_enqueue_error.
Definition env_server_error : env := env_with key_A (net_status 500) None no_enqueue_error.
Definition env_timeout : env :=
  env_with key_A (net_down TimeoutException) None no_enqueue_error.
Definition env_empty_object : env :=
  env_with key_A (net_json (PDict ∅)) None no_enqueue_error.
Definition env_commit_fails : env :=
  env_with key_A (net_usage 3000) (Some SQLAlchemyError) no_enqueue_error.
Definition env_redis_down : env :=
  env_with key_A (net_usage 3000) None (fun _ _ => Some RedisError).
Definition env_other_key : env := env_with key_B (net_usage 3000) None no_enqueue_error.

(** Redis refuses the check job of credential 7 and accepts every other. *)
Definition env_redis_refuses_7 : env :=
  env_with key_A (net_usage 3000) None
    (fun _ j => match j with
                | check_single_key_job 7 => Some RedisError
                | _ => None
                end).

(** Redis refuses the check job of credential 8, the second of three. *)
Definition env_redis_refuses_8 : env :=
  env_with key_A (net_usage 3000) None
    (fun _ j => match j with
                | check_single_key_job 8 => Some RedisError
                | _ => None
                end).

(** Redis refuses the check job of credential 9, the last one. *)
Definition env_redis_refuses_9 : env :=
  env_with key_A (net_usage 3000) None
    (fun _ j => match j with
                | check_single_key_job 9 => Some RedisError
                | _ => None
                end).

Definition body_usage_3000 : Response :=
  mk_response 200 (Some (PDict {[ "total_usage" := PInt 3000 ]})).

Definition new_key_request : ApiKeyCreate.t :=
  ApiKeyCreate.mk "fresh" secret 1 None.

End Demo.

(** * The rest of the code *)

(** ** app/api/routers/keys.py: the other endpoints

    Each endpoint receives its session from [get_session], which is
    [with Session(engine) as session: yield session], and its user from
    [get_current_user]. *)

Module ApiKeyTestRequest.
Record t := mk {
  platform_id : Z;
  api_key : pystr;
  metadata : option (gmap string pyval);
}.
End ApiKeyTestRequest.

Definition list_platforms : M (list PlatformProvider.t) :=
  with_Session (session_query platforms).

(** [select(ManagedApiKey).where(user_id == current_user.id)].  The
    statement has no [ORDER BY]: the order of the rows returned is the
    database's choice, of which nothing is claimed; the table's order
    stands in for it. *)
Definition select_keys_of (user_id : Z) (d : database) : list ManagedApiKey.t :=
  List.filter (fun k => ManagedApiKey.user_id k =? user_id) (api_keys d).

Definition list_keys (current_user : User.t) : M (list ManagedApiKey.t) :=
  with_Session (session_query (select_keys_of (User.id current_user))).

(** [select(ManagedApiKey).where(id == key_id, user_id == current_user.id)] *)
Definition select_owned_key (key_id user_id : Z) (d : database)
  : option ManagedApiKey.t :=
  find (fun k => (ManagedApiKey.id k =? key_id) && (ManagedApiKey.user_id k =? user_id))
       (api_keys d).

(** Every failure inside [try] becomes the 400 answer; its text is the
    detail, which is not kept. *)
Definition test_key (test_data : ApiKeyTestRequest.t) (current_user : User.t)
  : M BalanceFetchResult.t :=
  with_Session
    (platform <~ session_query
       (select_platform (ApiKeyTestRequest.platform_id test_data)) ;;
     match platform with
     | None => raise (HTTPException 404)
     | Some platform =>
         try_except
           (adapter <~ lift (AdapterFactory.create_adapter
              (PlatformProvider.adapter_identifier platform)
              (ApiKeyTestRequest.api_key test_data)
              (Some (from_option id ∅ (ApiKeyTestRequest.metadata test_data)))) ;;
            result <~ fetch_balance adapter ;;
            ret result)
           except_Exception
           (fun e => raise (HTTPException 400))
     end).

(** The answer is [{"message": ..., "key_id": key_id}]; the key id is what
    is kept of it.  [redis_pool.close()], between the enqueue and the
    answer, is taken to succeed: were it to raise, the job would be queued
    and the answer would be the 500 of the handler. *)
Definition trigger_check (key_id : Z) (current_user : User.t) : M Z :=
  with_Session
    (api_key <~ session_query (select_owned_key key_id (User.id current_user)) ;;
     match api_key with
     | None => raise (HTTPException 404)
     | Some _ =>
         try_except
           (_ <~ create_pool ;;
            _ <~ enqueue_job (check_single_key_job key_id) ;;
            ret key_id)
           except_Exception
           (fun e => raise (HTTPException 500))
     end).

(** [order_by(BalanceLog.timestamp.desc())]: the later record first.  The
    database is free in how it orders records of one timestamp; the sort
    used here is one such order. *)
Definition later_first (a b : BalanceLog.t) : Prop :=
  BalanceLog.timestamp b <= BalanceLog.timestamp a.

#[global] Instance later_first_dec : RelDecision later_first.
Proof. intros a b. unfold later_first. apply Z_le_dec. Defined.

Definition select_history (key_id : Z) (d : database) : list BalanceLog.t :=
  merge_sort later_first
    (List.filter (fun l => BalanceLog.key_id l =? key_id) (balance_logs d)).

Definition get_balance_history (key_id : Z) (current_user : User.t)
  : M (list BalanceLog.t) :=
  with_Session
    (api_key <~ session_query (select_owned_key key_id (User.id current_user)) ;;
     match api_key with
     | None => raise (HTTPException 404)
     | Some _ => session_query (select_history key_id)
     end).

(** ** app/worker.py: send_notification

    The job reads one row and then talks to a mail server or to a webhook.
    What it sends is recorded as a list of [delivery] steps; the mail server
    and the webhook endpoint answer through [channels].  Text that is only
    passed on (names, addresses, the message) is a [string] of its UTF-8
    bytes. *)

Module EmailMessage.
Record t := mk {
  From : string;
  To : string;
  Subject : string;
  body : string;       (* the one text/plain part *)
}.
End EmailMessage.

(** The calls made on [smtplib.SMTP]: the constructor, which connects when
    the host is not the empty text (with an empty one the later commands
    find no connection, and that they fail is for [smtp_error] to say), the
    three methods the job uses, and the [QUIT] sent when the [with] block
    is left; a server that is gone by then is no error. *)
Inductive smtp_command :=
| SMTP_connect (host : string) (port : Z)
| SMTP_starttls
| SMTP_login (user password : string)
| SMTP_send_message (msg : EmailMessage.t)
| SMTP_quit.

Record WebhookPost := mk_post {
  post_url : string;
  post_json : gmap string pyval;
  post_timeout : float;
}.

Inductive delivery :=
| Smtp (c : smtp_command)
| Post (p : WebhookPost).

(** What a delivery can raise: an exception of [exn], or one of smtplib. *)
Inductive delivery_error :=
| PyError (e : exn)
| SMTPException (code : Z).

Inductive delivered (A : Type) :=
| Done (a : A)
| Failed_with (e : delivery_error).
Arguments Done {A} a.
Arguments Failed_with {A} e.

Record channels := mk_channels {
  getenv : string -> option string;        (* os.getenv(name) *)
  int_of_str : string -> option Z;         (* int(str) *)
  format_2f : float -> string;             (* format(x, ".2f") *)
  smtp_error : list delivery -> smtp_command -> option delivery_error;
                                           (* what the command raises, if
                                              anything, after the steps so far *)
  json_error : gmap string pyval -> option exn;
                                           (* what serialising the body
                                              raises, if anything *)
  webhook : WebhookPost -> net_outcome;    (* the endpoint behind a URL *)
}.

(** Delivery computations: read [channels], extend the list of steps. *)
Definition D (A : Type) : Type :=
  channels -> list delivery -> list delivery * delivered A.

Definition D_ret {A} (a : A) : D A := fun _ t => (t, Done a).
Definition D_raise {A} (e : delivery_error) : D A := fun _ t => (t, Failed_with e).
Definition D_bind {A B} (m : D A) (k : A -> D B) : D B :=
  fun C t =>
    match m C t with
    | (t', Done a) => k a C t'
    | (t', Failed_with e) => (t', Failed_with e)
    end.

Notation "x <- m ;;; k" := (D_bind m (fun x => k))
  (at level 100, m at next level, k at level 200, right associativity,
   format "'[v' x  <-  m  ;;; '/' k ']'") : py_scope.

Definition D_ask : D channels := fun C t => (t, Done C).

(** One call on the SMTP object. *)
Definition smtp (c : smtp_command) : D unit :=
  fun C t =>
    (t ++ [Smtp c],
     match smtp_error C t c with
     | Some e => Failed_with e
     | None => Done tt
     end).

(** [with smtplib.SMTP(host, port) as server: body]: the constructor
    connects; leaving the block, normally or not, sends [QUIT]; a failure of
    [QUIT] is what is raised, otherwise the outcome of the body. *)
Definition with_SMTP {A} (host : string) (port : Z) (body : D A) : D A :=
  fun C t =>
    match smtp (SMTP_connect host port) C t with
    | (t1, Failed_with e) => (t1, Failed_with e)
    | (t1, Done _) =>
        match body C t1 with
        | (t2, r) =>
            match smtp SMTP_quit C t2 with
            | (t3, Failed_with e) => (t3, Failed_with e)
            | (t3, Done _) => (t3, r)
            end
        end
    end.

(** [await client.post(address, json=..., timeout=30.0)]: the body is
    serialised when the request is built, before anything is sent. *)
Definition client_post (p : WebhookPost) : D Response :=
  fun C t =>
    match json_error C (post_json p) with
    | Some e => (t, Failed_with (PyError e))
    | None =>
        (t ++ [Post p],
         match webhook C p with
         | Responded r => Done r
         | Failed e => Failed_with (PyError (TransportError e))
         end)
    end.

Definition D_lift {A} (r : result A) : D A :=
  fun _ t => (t, match r with Ok a => Done a | Raise e => Failed_with (PyError e) end).

(** [os.getenv(name, default)] *)
Definition getenv_or (name default : string) : D string :=
  fun C t => (t, Done (from_option id default (getenv C name))).

(** [int(os.getenv("SMTP_PORT", "587"))] *)
Definition smtp_port_setting : D Z :=
  fun C t =>
    (t,
     match getenv C "SMTP_PORT" with
     | None => Done 587
     | Some text =>
         match int_of_str C text with
         | Some port => Done port
         | None => Failed_with (PyError ValueError)
         end
     end).

Definition newline : string := String (Ascii.ascii_of_nat 10) EmptyString.

(** The f-string of the alert, line by line; every line of the source is
    indented by eight spaces. *)
Definition alert_message (C : channels) (name : string) (balance threshold : float)
  : string :=
  String.concat newline
    [ "";
      "        警报: API 密钥余额过低";
      "        ";
      String.append "        密钥名称: " name;
      String.append "        当前余额: $" (format_2f C balance);
      String.append "        阈值: $" (format_2f C threshold);
      "        ";
      "        请及时充值。";
      "        " ].

(** A text is true when it is not empty. *)
Definition truthy (s : string) : bool :=
  match s with EmptyString => false | _ => true end.

(** [except Exception as e: print(...); raise] hands on what it caught, so
    the two [try] blocks are their bodies. *)
Definition send_notification (d : database) (key_id : Z)
    (balance threshold : float) (channel address : string) : D unit :=
  match select_key key_id d with
  | None => D_ret tt
  | Some api_key_record =>
      C <- D_ask ;;;
      let message :=
        alert_message C (ManagedApiKey.name api_key_record) balance threshold in
      if String.eqb channel "email" then
        smtp_server <- getenv_or "SMTP_SERVER" "smtp.gmail.com" ;;;
        smtp_port <- smtp_port_setting ;;;
        smtp_user <- getenv_or "SMTP_USER" "" ;;;
        smtp_password <- getenv_or "SMTP_PASSWORD" "" ;;;
        from_email <- getenv_or "SMTP_FROM" smtp_user ;;;
        let msg := EmailMessage.mk from_email address
                     "QuotaWatch: API 密钥余额过低" message in
        with_SMTP smtp_server smtp_port
          (_ <- smtp SMTP_starttls ;;;
           _ <- (if truthy smtp_user && truthy smtp_password
                 then smtp (SMTP_login smtp_user smtp_password)
                 else D_ret tt) ;;;
           smtp (SMTP_send_message msg))
      else if String.eqb channel "webhook" then
        response <- client_post
          (mk_post address
             (<["key_id" := PInt key_id]>
              (<["key_name" := PStr (ManagedApiKey.name api_key_record)]>
               (<["balance" := PFloat balance]>
                (<["threshold" := PFloat threshold]>
                 (<["message" := PStr message]> ∅)))))
             30%float) ;;;
        D_lift (raise_for_status response)
      else D_ret tt
  end.

(** ** Vocabulary of the further statements *)

(** The request an adapter sends, by its class. *)
Definition request_of (adapter : BalanceAdapter.t) : Request :=
  match BalanceAdapter.cls adapter with
  | OpenRouterAdapter => credits_request adapter
  | OpenAIUsageAdapter => usage_request adapter
  end.

(** The [is_estimate] flag each class puts on its results. *)
Definition estimate_of (c : adapter_class) : bool :=
  match c with
  | OpenRouterAdapter => false
  | OpenAIUsageAdapter => true
  end.

(** The columns of a credential that are set at registration. *)
Definition fixed_part (k : ManagedApiKey.t) : Z * string * pystr * Z * Z :=
  (ManagedApiKey.id k, ManagedApiKey.name k, ManagedApiKey.api_key_encrypted k,
   ManagedApiKey.user_id k, ManagedApiKey.platform_id k).

(** The request the webhook channel posts for the credential [rec]. *)
Definition webhook_post (C : channels) (rec : ManagedApiKey.t) (key_id : Z)
    (balance threshold : float) (address : string) : WebhookPost :=
  mk_post address
    (<["key_id" := PInt key_id]>
     (<["key_name" := PStr (ManagedApiKey.name rec)]>
      (<["balance" := PFloat balance]>
       (<["threshold" := PFloat threshold]>
        (<["message" := PStr (alert_message C (ManagedApiKey.name rec)
                                balance threshold)]> ∅)))))
    30%float.

(** ** Further fixtures *)

Module Demo2.

Definition user2 : User.t := User.mk 2 "b@example.org" "hash" true 11.

Definition log1 : BalanceLog.t := BalanceLog.mk 1 50 70%float 7.
Definition log2 : BalanceLog.t := BalanceLog.mk 2 60 65%float 8.
Definition log3 : BalanceLog.t := BalanceLog.mk 3 90 40%float 7.

(** [Demo.db0] with a second user and some history. *)
Definition db1 : database :=
  mk_database [Demo.user1; user2]
              [Demo.platform_openrouter; Demo.platform_openai]
              [Demo.key7; Demo.key8; Demo.key9] [log1; log2; log3] [Demo.rule7].

Definition world1 : world := mk_world db1 [] [] [] [] 0 0.

(** The Redis pool cannot be created. *)
Definition env_no_pool : env :=
  mk_env (fun _ => None) Demo.toy_Fernet Demo.key_A (fun n => (Z.of_nat n, []))
         (fun n => 1000 + Z.of_nat n) (Demo.net_usage 3000) (fun _ _ => None)
         (Some RedisError) Demo.no_enqueue_error queue_ctx.

Definition test_request : ApiKeyTestRequest.t :=
  ApiKeyTestRequest.mk 2 Demo.secret (Some Demo.grant100).
Definition test_request_no_platform : ApiKeyTestRequest.t :=
  ApiKeyTestRequest.mk 99 Demo.secret None.

(** A mail server and a webhook endpoint that accept everything; no SMTP
    setting is in the environment. *)
Definition channels_ok : channels :=
  mk_channels (fun _ => None) (fun _ => None) (fun _ => "40.00"%string)
              (fun _ _ => None) (fun _ => None)
              (fun _ => Responded (mk_response 200 None)).

(** The settings name a user and a password, and a port that is no number. *)
Definition getenv_login (name : string) : option string :=
  if String.eqb name "SMTP_USER" then Some "alerts"%string
  else if String.eqb name "SMTP_PASSWORD" then Some "hunter2"%string
  else None.

Definition channels_login : channels :=
  mk_channels getenv_login (fun _ => None) (fun _ => "40.00"%string)
              (fun _ _ => None) (fun _ => None)
              (fun _ => Responded (mk_response 200 None)).

Definition channels_bad_port : channels :=
  mk_channels (fun name => if String.eqb name "SMTP_PORT" then Some "smtp"%string
                           else None)
              (fun _ => None) (fun _ => "40.00"%string)
              (fun _ _ => None) (fun _ => None)
              (fun _ => Responded (mk_response 200 None)).

End Demo2.

(** ** seed_platforms.py

    The script runs in a process of its own, before the application: what
    it needs of the outside is the clock of the [created_at] defaults and
    the outcome of its one commit. *)

Module PlatformData.
Record t := mk {
  name : string;
  slug : string;
  adapter_identifier : string;
}.
End PlatformData.

Definition PLATFORMS : list PlatformData.t :=
  [ PlatformData.mk "OpenRouter" "openrouter" "openrouter";
    PlatformData.mk "OpenAI" "openai" "openai" ].

Record seed_env := mk_seed_env {
  seed_utcnow_at : nat -> datetime;
  seed_commit_error : database -> database -> option exn;
                      (* what committing the change from the first database
                         to the second raises, if anything *)
}.

(** [select(PlatformProvider).where(PlatformProvider.slug == slug)], first
    row. *)
Definition select_platform_by_slug (slug : string) (d : database)
  : option PlatformProvider.t :=
  find (fun p => String.eqb (PlatformProvider.slug p) slug) (platforms d).

Definition add_platform (d : database) (p : PlatformProvider.t) : database :=
  mk_database (users d) (platforms d ++ [p]) (api_keys d) (balance_logs d)
              (notification_rules d).

(** The loop over the list.  The session flushes what was added before it
    runs a query, so each query sees the rows added in earlier rounds: the
    loop carries the database as the open transaction sees it, and the
    number of clock readings so far. *)
Fixpoint seed_loop (S0 : seed_env) (data : list PlatformData.t)
    (view : database) (clock : nat) : database * nat :=
  match data with
  | [] => (view, clock)
  | platform_data :: rest =>
      match select_platform_by_slug (PlatformData.slug platform_data) view with
      | None =>
          let platform :=
            PlatformProvider.mk
              (next_id (map PlatformProvider.id (platforms view)))
              (PlatformData.name platform_data)
              (PlatformData.slug platform_data)
              (PlatformData.adapter_identifier platform_data)
              (seed_utcnow_at S0 clock) in
          seed_loop S0 rest (add_platform view platform) (S clock)
      | Some _ => seed_loop S0 rest view clock
      end
  end.

(** A commit that fails leaves the database as it was: leaving the [with]
    block rolls the transaction back. *)
Definition seed_platforms (S0 : seed_env) (d : database) : database * result unit :=
  let view := (seed_loop S0 PLATFORMS d 0).1 in
  match seed_commit_error S0 d view with
  | Some e => (d, Raise e)
  | None => (view, Ok tt)
  end.

(** ** app/core/security.py: passwords and tokens, and
    app/api/routers/auth.py

    passlib and python-jose are taken as they answer: a hash is drawn with
    a fresh salt, a token is decoded at a time. *)

Inductive auth_exn :=
| Auth_HTTPException (status : Z)
| JWTError
| Auth_exn (e : exn).

Inductive auth_result (A : Type) :=
| Auth_Ok (a : A)
| Auth_Raise (e : auth_exn).
Arguments Auth_Ok {A} a.
Arguments Auth_Raise {A} e.

Record auth_env := mk_auth_env {
  pwd_hash : nat -> string -> result string;
      (* pwd_context.hash(password), by the number of salts drawn before *)
  pwd_verify : string -> string -> result bool;
      (* pwd_context.verify(plain_password, hashed_password) *)
  jwt_encode : gmap string pyval -> option string;
      (* jwt.encode(claims, SECRET_KEY, algorithm=ALGORITHM); None: JWTError *)
  jwt_decode : datetime -> string -> option (gmap string pyval);
      (* jwt.decode(token, SECRET_KEY, algorithms=[ALGORITHM]) at a time;
         None: JWTError *)
  ACCESS_TOKEN_EXPIRE_MINUTES : Z;
  auth_utcnow_at : nat -> datetime;
  auth_commit_error : database -> list (Z -> User.t) -> option exn;
}.

Record auth_world := mk_auth_world {
  auth_db : database;
  auth_pending : list (Z -> User.t);     (* users added, not yet committed *)
  auth_clock : nat;                      (* clock readings so far *)
  auth_salts : nat;                      (* salts drawn so far *)
}.

Definition AM (A : Type) : Type :=
  auth_env -> auth_world -> auth_world * auth_result A.

Definition auth_ret {A} (a : A) : AM A := fun _ w => (w, Auth_Ok a).
Definition auth_raise {A} (e : auth_exn) : AM A := fun _ w => (w, Auth_Raise e).
Definition auth_bind {A B} (m : AM A) (k : A -> AM B) : AM B :=
  fun E w =>
    match m E w with
    | (w', Auth_Ok a) => k a E w'
    | (w', Auth_Raise e) => (w', Auth_Raise e)
    end.

Notation "x <<- m ;; k" := (auth_bind m (fun x => k))
  (at level 100, m at next level, k at level 200, right associativity) : py_scope.

Definition auth_lift {A} (r : result A) : AM A :=
  fun _ w => (w, match r with Ok a => Auth_Ok a | Raise e => Auth_Raise (Auth_exn e) end).

Definition auth_ask : AM auth_env := fun E w => (w, Auth_Ok E).

Definition auth_utcnow : AM datetime :=
  fun E w =>
    (mk_auth_world (auth_db w) (auth_pending w) (S (auth_clock w)) (auth_salts w),
     Auth_Ok (auth_utcnow_at E (auth_clock w))).

Definition auth_query {A} (q : database -> A) : AM A :=
  fun _ w => (w, Auth_Ok (q (auth_db w))).

Definition auth_set_pending (p : list (Z -> User.t)) (w : auth_world) : auth_world :=
  mk_auth_world (auth_db w) p (auth_clock w) (auth_salts w).

(** [get_session]: the session of one request. *)
Definition auth_with_Session {A} (body : AM A) : AM A :=
  fun E w =>
    match body E (auth_set_pending [] w) with
    | (w', r) => (auth_set_pending [] w', r)
    end.

Definition auth_session_add (new_user : Z -> User.t) : AM unit :=
  fun _ w => (auth_set_pending (auth_pending w ++ [new_user]) w, Auth_Ok tt).

Definition insert_user (d : database) (new_user : Z -> User.t) : database :=
  mk_database (users d ++ [new_user (next_id (map User.id (users d)))])
              (platforms d) (api_keys d) (balance_logs d) (notification_rules d).

Definition auth_session_commit : AM unit :=
  fun E w =>
    match auth_commit_error E (auth_db w) (auth_pending w) with
    | Some e => (w, Auth_Raise (Auth_exn e))
    | None =>
        (mk_auth_world (fold_left insert_user (auth_pending w) (auth_db w)) []
                       (auth_clock w) (auth_salts w),
         Auth_Ok tt)
    end.

(** [session.refresh(new_user)]: read the inserted row back. *)
Definition auth_session_refresh_new_user : AM User.t :=
  fun _ w =>
    (w, match last (users (auth_db w)) with
        | Some u => Auth_Ok u
        | None => Auth_Raise (Auth_exn SQLAlchemyError)
        end).

Definition verify_password (plain_password hashed_password : string) : AM bool :=
  E <<- auth_ask ;; auth_lift (pwd_verify E plain_password hashed_password).

Definition get_password_hash (password : string) : AM string :=
  fun E w =>
    (mk_auth_world (auth_db w) (auth_pending w) (auth_clock w) (S (auth_salts w)),
     match pwd_hash E (auth_salts w) password with
     | Ok h => Auth_Ok h
     | Raise e => Auth_Raise (Auth_exn e)
     end).

(** [timedelta(minutes=m)], in the seconds of [datetime]. *)
Definition minutes (m : Z) : Z := 60 * m.

(** [expires_delta], when given, is tested for truth: a zero [timedelta] is
    false, as [None] is. *)
Definition create_access_token (data : gmap string pyval)
    (expires_delta : option Z) : AM string :=
  E <<- auth_ask ;;
  now <<- auth_utcnow ;;
  let expire :=
    match expires_delta with
    | Some delta =>
        if delta =? 0 then now + minutes (ACCESS_TOKEN_EXPIRE_MINUTES E)
        else now + delta
    | None => now + minutes (ACCESS_TOKEN_EXPIRE_MINUTES E)
    end in
  let to_encode := <["exp" := PInt expire]> data in
  match jwt_encode E to_encode with
  | Some encoded_jwt => auth_ret encoded_jwt
  | None => auth_raise JWTError
  end.

Definition select_user_by_email (email : string) (d : database) : option User.t :=
  find (fun u => String.eqb (User.email u) email) (users d).

(** [credentials_exception] is the 401.  [jwt.decode] reads the clock to
    check the claim [exp]; python-jose refuses a [sub] that is no string, so
    a payload it returns has a text under ["sub"] or nothing. *)
Definition get_current_user (token : string) : AM User.t :=
  auth_with_Session
    (E <<- auth_ask ;;
     now <<- auth_utcnow ;;
     match jwt_decode E now token with
     | None => auth_raise (Auth_HTTPException 401)
     | Some payload =>
         match dict_get payload "sub" with
         | PStr email =>
             user <<- auth_query (select_user_by_email email) ;;
             match user with
             | None => auth_raise (Auth_HTTPException 401)
             | Some user =>
                 if negb (User.is_active user)
                 then auth_raise (Auth_HTTPException 403)
                 else auth_ret user
             end
         | _ => auth_raise (Auth_HTTPException 401)
         end
     end).

Module UserCreate.
Record t := mk {
  email : string;
  password : string;
}.
End UserCreate.

Module OAuth2PasswordRequestForm.
Record t := mk {
  username : string;
  password : string;
}.
End OAuth2PasswordRequestForm.

Module Token.
Record t := mk {
  access_token : string;
  token_type : string;
}.
End Token.

Definition register (user_data : UserCreate.t) : AM User.t :=
  auth_with_Session
    (existing_user <<- auth_query
       (select_user_by_email (UserCreate.email user_data)) ;;
     match existing_user with
     | Some _ => auth_raise (Auth_HTTPException 400)
     | None =>
         hashed_password <<- get_password_hash (UserCreate.password user_data) ;;
         created_at <<- auth_utcnow ;;
         let new_user := fun pk =>
           User.mk pk (UserCreate.email user_data) hashed_password true created_at in
         _ <<- auth_session_add new_user ;;
         _ <<- auth_session_commit ;;
         auth_session_refresh_new_user
     end).

(** [not user or not verify_password(...)]: the password is verified only
    when the user was found. *)
Definition login (form_data : OAuth2PasswordRequestForm.t) : AM Token.t :=
  auth_with_Session
    (user <<- auth_query
       (select_user_by_email (OAuth2PasswordRequestForm.username form_data)) ;;
     match user with
     | None => auth_raise (Auth_HTTPException 401)
     | Some user =>
         verified <<- verify_password (OAuth2PasswordRequestForm.password form_data)
                        (User.hashed_password user) ;;
         if negb verified then auth_raise (Auth_HTTPException 401)
         else if negb (User.is_active user) then auth_raise (Auth_HTTPException 403)
         else
           E <<- auth_ask ;;
           let access_token_expires := minutes (ACCESS_TOKEN_EXPIRE_MINUTES E) in
           access_token <<- create_access_token
             {[ "sub" := PStr (User.email user) ]} (Some access_token_expires) ;;
           auth_ret (Token.mk access_token "bearer")
     end).

(** [get_current_user_info] returns the user its dependency found. *)
Definition get_current_user_info (token : string) : AM User.t :=
  current_user <<- get_current_user token ;; auth_ret current_user.

(** The claims of the token [login] makes for [email] in the world [w]:
    the subject, and an expiry [ACCESS_TOKEN_EXPIRE_MINUTES] after the
    clock reading. *)
Definition login_claims (E : auth_env) (w : auth_world) (email : string)
  : gmap string pyval :=
  <["exp" := PInt (auth_utcnow_at E (auth_clock w)
                   + minutes (ACCESS_TOKEN_EXPIRE_MINUTES E))]>
    {[ "sub" := PStr email ]}.

(** Fixtures for the above: a password scheme that prefixes, a token that
    is the subject behind a sign and is good until a fixed time. *)
Module Demo3.

Definition toy_hash (n : nat) (password : string) : result string :=
  Ok (String.append "h:" password).
Definition toy_verify (plain hashed : string) : result bool :=
  Ok (String.eqb hashed (String.append "h:" plain)).

Definition toy_encode (claims : gmap string pyval) : option string :=
  match claims !! "sub", claims !! "exp" with
  | Some (PStr email), Some (PInt 2800) => Some (String.append "t:" email)
  | _, _ => None
  end.

Definition toy_decode (now : datetime) (token : string) : option (gmap string pyval) :=
  if String.prefix "t:" token && (now <=? 2800)
  then Some (<["exp" := PInt 2800]>
             {[ "sub" := PStr (String.substring 2 (String.length token - 2) token) ]})
  else None.

Definition auth_env0 : auth_env :=
  mk_auth_env toy_hash toy_verify toy_encode toy_decode 30
              (fun n => 999 + Z.of_nat n) (fun _ _ => None).

Definition inactive : User.t := User.mk 2 "gone@example.org" "h:pw2" false 11.
Definition alice : User.t := User.mk 1 "a@example.org" "h:pw1" true 10.

Definition auth_db0 : database := mk_database [alice; inactive] [] [] [] [].
Definition auth_world0 : auth_world := mk_auth_world auth_db0 [] 0 0.

Definition new_user_request : UserCreate.t := UserCreate.mk "new@example.org" "pw3".
Definition new_user : User.t := User.mk 3 "new@example.org" "h:pw3" true 999.

Definition empty_db : database := mk_database [] [] [] [] [].
Definition seed_env0 : seed_env := mk_seed_env (fun n => 500 + Z.of_nat n) (fun _ _ => None).

End Demo3.

(** The latest history record of a credential, and the agreement of the
    balance a credential shows with it. *)
Definition latest_record (key_id : Z) (d : database) : option BalanceLog.t :=
  last (List.filter (fun l => BalanceLog.key_id l =? key_id) (balance_logs d)).

Definition balance_matches_history (d : database) : Prop :=
  forall k b,
    In k (api_keys d) -> ManagedApiKey.last_known_balance k = Some b ->
    exists l, latest_record (ManagedApiKey.id k) d = Some l /\ BalanceLog.balance l = b.

(** * Properties *)

(** ** Floats: the order facts the statements use *)

Lemma ltb_leb (x y : float) : PrimFloat.ltb x y = true -> PrimFloat.leb x y = true.
Proof.
  rewrite ltb_spec, leb_spec. unfold SFltb, SFleb.
  destruct (SFcompare (Prim2SF x) (Prim2SF y)) as [[]|]; congruence.
Qed.

Lemma py_max0_nonneg (x : float) : PrimFloat.leb 0%float (py_max0 x) = true.
Proof.
  unfold py_max0. destruct (PrimFloat.ltb 0 x) eqn:H.
  - apply ltb_leb, H.
  - reflexivity.
Qed.

Lemma py_max0_pos (x : float) : PrimFloat.ltb 0%float x = true -> py_max0 x = x.
Proof. unfold py_max0. intros ->. reflexivity. Qed.

Lemma py_max0_nonpos (x : float) :
  PrimFloat.ltb 0%float x = false -> py_max0 x = 0%float.
Proof. unfold py_max0. intros ->. reflexivity. Qed.

(** ** UTF-8: encoding and strict decoding are inverse to each other *)

Module Utf8Facts.
Import Utf8.

Ltac dlia := Z.div_mod_to_equations; lia.

(** Settle every comparison in the goal from the arithmetic context. *)
Ltac decide_tests :=
  repeat match goal with
    | |- context [Z.leb ?a ?b] =>
        first [ replace (Z.leb a b) with true by (symmetry; apply Z.leb_le; dlia)
              | replace (Z.leb a b) with false by (symmetry; apply Z.leb_gt; dlia) ]
    | |- context [Z.ltb ?a ?b] =>
        first [ replace (Z.ltb a b) with true by (symmetry; apply Z.ltb_lt; dlia)
              | replace (Z.ltb a b) with false by (symmetry; apply Z.ltb_ge; dlia) ]
    end.

(** Turn the boolean tests in the context into arithmetic. *)
Ltac split_tests :=
  repeat match goal with
    | H : _ && _ = true |- _ => apply andb_prop in H; destruct H
    | H : negb _ = true |- _ => apply negb_true_iff in H
    | H : (_ <=? _) = true |- _ => apply Z.leb_le in H
    | H : (_ <? _) = true |- _ => apply Z.ltb_lt in H
    end.

Lemma decode_cons b0 r0 :
  decode (b0 :: r0) =
      if (0 <=? b0) && (b0 <? 0x80) then cons b0 <$> decode r0
      else if (0xC2 <=? b0) && (b0 <=? 0xDF) then
        match r0 with
        | b1 :: r1 =>
            if is_cont b1
            then cons ((b0 - 0xC0) * 64 + (b1 - 0x80)) <$> decode r1
            else None
        | _ => None
        end
      else if (0xE0 <=? b0) && (b0 <=? 0xEF) then
        match r0 with
        | b1 :: b2 :: r2 =>
            let c := (b0 - 0xE0) * 4096 + (b1 - 0x80) * 64 + (b2 - 0x80) in
            if is_cont b1 && is_cont b2 && (0x800 <=? c) && negb (is_surrogate c)
            then cons c <$> decode r2
            else None
        | _ => None
        end
      else if (0xF0 <=? b0) && (b0 <=? 0xF4) then
        match r0 with
        | b1 :: b2 :: b3 :: r3 =>
            let c := (b0 - 0xF0) * 262144 + (b1 - 0x80) * 4096
                     + (b2 - 0x80) * 64 + (b3 - 0x80) in
            if is_cont b1 && is_cont b2 && is_cont b3
               && (0x10000 <=? c) && (c <=? 0x10FFFF)
            then cons c <$> decode r3
            else None
        | _ => None
        end
      else None.
Proof. reflexivity. Qed.

Lemma decode_encode_cp c b rest :
  encode_cp c = Some b -> decode (b ++ rest) = cons c <$> decode rest.
Proof.
  unfold encode_cp, is_surrogate.
  destruct (Z.ltb_spec c 0); [discriminate|].
  destruct (Z.ltb_spec c 0x80).
  { intros [= <-]. cbn [app]. rewrite decode_cons. decide_tests. reflexivity. }
  destruct (Z.ltb_spec c 0x800).
  { intros [= <-]. cbn [app]. rewrite decode_cons. unfold is_cont. decide_tests.
    cbn [andb]. do 2 f_equal. dlia. }
  destruct (Z.ltb_spec c 0x10000).
  { destruct (Z.leb_spec 0xD800 c); destruct (Z.leb_spec c 0xDFFF);
      cbn [andb]; try discriminate; try (exfalso; lia).
    all: intros [= <-]; cbn [app]; rewrite decode_cons;
      unfold is_cont, is_surrogate; cbv zeta.
    all: replace ((224 + c / 4096 - 224) * 4096 + (128 + (c / 64) mod 64 - 128) * 64
                  + (128 + c mod 64 - 128)) with c by dlia.
    all: decide_tests; cbn [andb negb]; reflexivity. }
  destruct (Z.ltb_spec c 0x110000); [|discriminate].
  intros [= <-]; cbn [app]; rewrite decode_cons; unfold is_cont; cbv zeta.
  replace ((240 + c / 262144 - 240) * 262144 + (128 + (c / 4096) mod 64 - 128) * 4096
           + (128 + (c / 64) mod 64 - 128) * 64 + (128 + c mod 64 - 128)) with c by dlia.
  decide_tests; cbn [andb negb]; reflexivity.
Qed.

Lemma decode_encode s b : encode s = Some b -> decode b = Some s.
Proof.
  revert b. induction s as [|c s IH]; intros b; cbn [encode].
  - intros [= <-]. reflexivity.
  - destruct (encode_cp c) as [bc|] eqn:Hc; [|discriminate].
    destruct (encode s) as [bs|]; [|discriminate].
    intros [= <-]. rewrite (decode_encode_cp _ _ _ Hc), (IH bs eq_refl). reflexivity.
Qed.

Lemma fmap_cons_Some (c : Z) (o : option (list Z)) s :
  cons c <$> o = Some s -> exists s', o = Some s' /\ s = c :: s'.
Proof. destruct o; intros [= <-]; eauto. Qed.

Lemma encode_decode_upto n : forall b s,
  (length b <= n)%nat -> decode b = Some s -> encode s = Some b.
Proof.
  induction n as [|n IH]; intros b s Hlen.
  { destruct b; [|cbn in Hlen; lia]. intros [= <-]. reflexivity. }
  destruct b as [|b0 r0]; [intros [= <-]; reflexivity|].
  rewrite decode_cons.
  destruct ((0 <=? b0) && (b0 <? 128)) eqn:T1.
  { intros (s' & Hs' & ->)%fmap_cons_Some. split_tests.
    cbn [encode]. rewrite (IH r0 s') by (cbn in Hlen; auto with lia).
    unfold encode_cp. decide_tests. reflexivity. }
  destruct ((194 <=? b0) && (b0 <=? 223)) eqn:T2.
  { destruct r0 as [|b1 r1]; [discriminate|].
    unfold is_cont. destruct ((128 <=? b1) && (b1 <=? 191)) eqn:C1; [|discriminate].
    intros (s' & Hs' & ->)%fmap_cons_Some. clear T1. split_tests.
    cbn [encode]. rewrite (IH r1 s') by (cbn in Hlen; auto with lia).
    unfold encode_cp. decide_tests. cbn [app]. repeat f_equal; dlia. }
  destruct ((224 <=? b0) && (b0 <=? 239)) eqn:T3.
  { destruct r0 as [|b1 [|b2 r2]]; try discriminate. cbv zeta.
    set (c := (b0 - 224) * 4096 + (b1 - 128) * 64 + (b2 - 128)).
    destruct (is_surrogate c) eqn:Hsur;
      [rewrite andb_false_r; discriminate|rewrite andb_true_r].
    destruct (is_cont b1 && is_cont b2 && (2048 <=? c)) eqn:C1; [|discriminate].
    intros (s' & Hs' & ->)%fmap_cons_Some. clear T1 T2.
    unfold is_cont in C1. split_tests.
    cbn [encode]. rewrite (IH r2 s') by (cbn in Hlen; auto with lia).
    unfold encode_cp. rewrite Hsur.
    assert (c < 65536) by (unfold c; lia).
    decide_tests. cbn [app]. unfold c. repeat f_equal; dlia. }
  destruct ((240 <=? b0) && (b0 <=? 244)) eqn:T4; [|discriminate].
  destruct r0 as [|b1 [|b2 [|b3 r3]]]; try discriminate. cbv zeta.
  set (c := (b0 - 240) * 262144 + (b1 - 128) * 4096 + (b2 - 128) * 64 + (b3 - 128)).
  destruct (is_cont b1 && is_cont b2 && is_cont b3 && (65536 <=? c) && (c <=? 1114111))
    eqn:C1; [|discriminate].
  intros (s' & Hs' & ->)%fmap_cons_Some. clear T1 T2 T3.
  unfold is_cont in C1. split_tests.
  cbn [encode]. rewrite (IH r3 s') by (cbn in Hlen; auto with lia).
  unfold encode_cp. decide_tests. cbn [app]. unfold c. repeat f_equal; dlia.
Qed.

Lemma encode_decode b s : decode b = Some s -> encode s = Some b.
Proof. apply (encode_decode_upto (length b)). lia. Qed.

Lemma encode_cp_scalar c : is_scalar c -> exists b, encode_cp c = Some b.
Proof.
  intros [Hr Hs]. unfold encode_cp, is_surrogate.
  destruct (Z.ltb_spec c 0); [lia|].
  destruct (Z.ltb_spec c 0x80); [eauto|].
  destruct (Z.ltb_spec c 0x800); [eauto|].
  destruct (Z.ltb_spec c 0x10000).
  { destruct (Z.leb_spec 0xD800 c); destruct (Z.leb_spec c 0xDFFF);
      cbn [andb]; eauto. lia. }
  destruct (Z.ltb_spec c 0x110000); [eauto|lia].
Qed.

Lemma encode_total s : Forall is_scalar s -> exists b, encode s = Some b.
Proof.
  induction 1 as [|c s Hc _ [bs IH]]; cbn [encode]; [eauto|].
  destruct (encode_cp_scalar c Hc) as [b ->]. rewrite IH. eauto.
Qed.

Lemma encode_cp_bytes c b : encode_cp c = Some b -> Forall is_byte b.
Proof.
  unfold encode_cp, is_surrogate, is_byte.
  destruct (Z.ltb_spec c 0); [discriminate|].
  destruct (Z.ltb_spec c 0x80); [intros [= <-]; repeat constructor; lia|].
  destruct (Z.ltb_spec c 0x800); [intros [= <-]; repeat constructor; dlia|].
  destruct (Z.ltb_spec c 0x10000).
  { destruct ((55296 <=? c) && (c <=? 57343)); [discriminate|].
    intros [= <-]; repeat constructor; dlia. }
  destruct (Z.ltb_spec c 0x110000); [|discriminate].
  intros [= <-]; repeat constructor; dlia.
Qed.

Lemma encode_bytes s b : encode s = Some b -> Forall is_byte b.
Proof.
  revert b. induction s as [|c s IH]; intros b; cbn [encode].
  - intros [= <-]. constructor.
  - destruct (encode_cp c) as [bc|] eqn:Hc; [|discriminate].
    destruct (encode s) as [bs|]; [|discriminate].
    intros [= <-]. apply Forall_app. split; [eapply encode_cp_bytes, Hc|apply IH; reflexivity].
Qed.

(** ASCII text and its encoding are the same list. *)
Lemma encode_ascii s : Forall is_ascii s -> encode s = Some s.
Proof.
  induction 1 as [|c s Hc _ IH]; [reflexivity|].
  cbn [encode]. rewrite IH. unfold encode_cp, is_ascii in *.
  decide_tests. reflexivity.
Qed.

Lemma decode_ascii b : Forall is_ascii b -> decode b = Some b.
Proof. intros H. apply decode_encode, encode_ascii, H. Qed.

End Utf8Facts.

(** ** Running computations *)

Lemma bind_run {A B} (m : M A) (k : A -> M B) E w :
  bind m k E w =
    match m E w with
    | (w', Ok a) => k a E w'
    | (w', Raise e) => (w', Raise e)
    end.
Proof. reflexivity. Qed.

Lemma try_except_run {A} (body : M A) matching handler E w :
  try_except body matching handler E w =
    match body E w with
    | (w', Raise e) => if matching e then handler e E w' else (w', Raise e)
    | (w', Ok a) => (w', Ok a)
    end.
Proof. unfold try_except. destruct (body E w) as [w' [a|e]]; reflexivity. Qed.

(** ** Frames: what a computation leaves alone *)

Section Keeps.
Context {B : Type} (f : world -> B).

Lemma keeps_ret {A} (a : A) : keeps f (ret a).
Proof. intros E w. reflexivity. Qed.

Lemma keeps_raise {A} e : keeps f (@raise A e).
Proof. intros E w. reflexivity. Qed.

Lemma keeps_lift {A} (r : result A) : keeps f (lift r).
Proof. intros E w. reflexivity. Qed.

Lemma keeps_ask : keeps f ask.
Proof. intros E w. reflexivity. Qed.

Lemma keeps_float_ v : keeps f (float_ v).
Proof. intros E w. reflexivity. Qed.

Lemma keeps_session_query {A} (q : database -> A) : keeps f (session_query q).
Proof. intros E w. reflexivity. Qed.

Lemma keeps_bind {A C} (m : M A) (k : A -> M C) :
  keeps f m -> (forall a, keeps f (k a)) -> keeps f (bind m k).
Proof.
  intros Hm Hk E w. rewrite bind_run. specialize (Hm E w).
  destruct (m E w) as [w' [a|e]]; cbn [fst] in *; [|exact Hm].
  rewrite (Hk a E w'). exact Hm.
Qed.

Lemma keeps_try_except {A} (body : M A) matching handler :
  keeps f body -> (forall e, keeps f (handler e)) ->
  keeps f (try_except body matching handler).
Proof.
  intros Hb Hh E w. rewrite try_except_run. specialize (Hb E w).
  destruct (body E w) as [w' [a|e]]; cbn [fst] in *; [exact Hb|].
  destruct (matching e); [|exact Hb].
  rewrite (Hh e E w'). exact Hb.
Qed.

Lemma keeps_decrypt self token : keeps f (EncryptionService.decrypt self token).
Proof.
  unfold EncryptionService.decrypt. apply keeps_bind; [apply keeps_lift|].
  intros tok. destruct (Fernet_decrypt _ tok); [apply keeps_lift|apply keeps_raise].
Qed.

End Keeps.

Lemma ascii_encode_ascii s : Forall Utf8.is_ascii s -> ascii_encode s = Ok s.
Proof.
  intros H. unfold ascii_encode.
  assert (forallb (fun c => (0 <=? c) && (c <? 128)) s = true) as ->; [|reflexivity].
  apply forallb_forall. intros c Hc. rewrite List.Forall_forall in H.
  destruct (H c Hc). apply andb_true_iff. split; [apply Z.leb_le|apply Z.ltb_lt]; lia.
Qed.


Lemma ascii_encode_cases s :
  Forall Utf8.is_ascii s /\ ascii_encode s = Ok s \/
  ~ Forall Utf8.is_ascii s /\ ascii_encode s = Raise UnicodeEncodeError.
Proof.
  unfold ascii_encode. destruct (forallb _ s) eqn:Hf.
  - left. split; [|reflexivity]. apply List.Forall_forall. intros c Hc.
    rewrite forallb_forall in Hf. specialize (Hf c Hc).
    apply andb_true_iff in Hf as [H1 H2]. apply Z.leb_le in H1. apply Z.ltb_lt in H2.
    split; lia.
  - right. split; [|reflexivity]. intros H.
    pose proof (ascii_encode_ascii s H) as Ha. unfold ascii_encode in Ha.
    rewrite Hf in Ha. discriminate.
Qed.

(** A request whose token is ASCII text goes out; another raises before
    anything is sent. *)
Lemma client_get_sends req E w :
  Forall Utf8.is_ascii (authorization req) ->
  client_get req E w =
    (sent req w,
     match network E req with
     | Responded r => Ok r
     | Failed t => Raise (TransportError t)
     end).
Proof. intros H. unfold client_get. rewrite (ascii_encode_ascii _ H). reflexivity. Qed.


Lemma client_get_world req E w :
  (client_get req E w).1 = w \/ (client_get req E w).1 = sent req w.
Proof.
  unfold client_get. destruct (ascii_encode (authorization req)); [right|left]; reflexivity.
Qed.

Lemma keeps_client_get {B} (f : world -> B) req :
  blind_to_http f -> keeps f (client_get req).
Proof.
  intros H E w. destruct (client_get_world req E w) as [-> | ->];
    [reflexivity|apply (H req w)].
Qed.

Lemma keeps_fetch_balance {B} (f : world -> B) adapter :
  blind_to_http f -> keeps f (fetch_balance adapter).
Proof.
  intros H. unfold fetch_balance, OpenRouter.fetch_balance, OpenAI.fetch_balance.
  destruct (BalanceAdapter.cls adapter).
  - repeat first [ apply keeps_lift | apply keeps_ret | apply keeps_float_
                 | apply keeps_client_get, H | apply keeps_bind; [|intros ?] ].
  - destruct (dict_get _ _);
      repeat first [ apply keeps_lift | apply keeps_ret | apply keeps_raise
                   | apply keeps_float_ | apply keeps_client_get, H
                   | apply keeps_try_except; [|intros ?]
                   | apply keeps_bind; [|intros ?]
                   | match goal with
                     | |- keeps _ (if ?c then _ else _) => destruct c
                     end ].
Qed.

Lemma blind_db : blind_to_http db.
Proof. intros ??; reflexivity. Qed.
Lemma blind_pending : blind_to_http pending.
Proof. intros ??; reflexivity. Qed.
Lemma blind_enqueue_calls : blind_to_http enqueue_calls.
Proof. intros ??; reflexivity. Qed.
Lemma blind_queue : blind_to_http queue.
Proof. intros ??; reflexivity. Qed.
Lemma blind_clock_reads : blind_to_http clock_reads.
Proof. intros ??; reflexivity. Qed.

(** ** The adapters, case by case *)

Lemma raise_for_status_2xx r : is_2xx (status_code r) -> raise_for_status r = Ok tt.
Proof.
  intros [H1 H2]. unfold raise_for_status.
  apply Z.leb_le in H1. apply Z.ltb_lt in H2. rewrite H1, H2. reflexivity.
Qed.

Lemma raise_for_status_other r :
  ~ is_2xx (status_code r) ->
  raise_for_status r = Raise (HTTPStatusError (status_code r)).
Proof.
  intros H. unfold raise_for_status, is_2xx in *.
  destruct (Z.leb_spec 200 (status_code r)); destruct (Z.ltb_spec (status_code r) 300);
    cbn [andb]; try reflexivity. lia.
Qed.

Section OpenAI_cases.
Variables (E : env) (w : world) (self : BalanceAdapter.t).

Lemma openai_no_grant :
  dict_get (BalanceAdapter.metadata self) "total_grant" = PNone ->
  OpenAI.fetch_balance self E w = (w, Raise ValueError).
Proof. intros H. unfold OpenAI.fetch_balance. rewrite H. reflexivity. Qed.

Lemma openai_bad_grant e :
  dict_get (BalanceAdapter.metadata self) "total_grant" <> PNone ->
  py_float (float_of_str E) (dict_get (BalanceAdapter.metadata self) "total_grant")
    = Raise e ->
  OpenAI.fetch_balance self E w = (w, Raise e).
Proof.
  intros Hn Hf. unfold OpenAI.fetch_balance.
  destruct (dict_get (BalanceAdapter.metadata self) "total_grant") eqn:Hg;
    try congruence; unfold bind, float_; rewrite Hf; reflexivity.
Qed.


(** Past the grant: what is left is the guarded request, which goes out
    when the key is ASCII text. *)
Hypothesis key_ascii : Forall Utf8.is_ascii (BalanceAdapter.api_key self).

Ltac with_grant Hg :=
  destruct Hg as [Hn Hf]; unfold OpenAI.fetch_balance;
  destruct (dict_get (BalanceAdapter.metadata _) "total_grant") eqn:Hd;
  try congruence;
  unfold try_except, bind, float_, lift, ret;
  rewrite Hf; fold (usage_request self);
  rewrite (client_get_sends (usage_request self) E w key_ascii).

Lemma openai_transport_failure g t :
  grant_is E self g ->
  network E (usage_request self) = Failed t ->
  OpenAI.fetch_balance self E w
    = (sent (usage_request self) w, Raise (TransportError t)).
Proof. intros Hg Hnet. with_grant Hg; rewrite Hnet; reflexivity. Qed.

Lemma openai_status_failure g response :
  grant_is E self g ->
  network E (usage_request self) = Responded response ->
  ~ is_2xx (status_code response) ->
  OpenAI.fetch_balance self E w
    = (sent (usage_request self) w, Ok (BalanceFetchResult.mk g true)).
Proof.
  intros Hg Hnet Hs.
  with_grant Hg; rewrite Hnet;
    (destruct (status_code response =? 404); [reflexivity|]);
    rewrite (raise_for_status_other _ Hs); reflexivity.
Qed.

Lemma openai_usage g response body u :
  grant_is E self g ->
  network E (usage_request self) = Responded response ->
  is_2xx (status_code response) ->
  body_json response = Some (PDict body) ->
  py_float (float_of_str E) (from_option id (PInt 0) (body !! "total_usage")) = Ok u ->
  OpenAI.fetch_balance self E w
    = (sent (usage_request self) w,
       Ok (BalanceFetchResult.mk
             (py_max0 (PrimFloat.sub g (PrimFloat.div u 100%float))) true)).
Proof.
  intros Hg Hnet Hs Hb Hu.
  assert ((status_code response =? 404) = false) as H404
    by (apply Z.eqb_neq; unfold is_2xx in Hs; lia).
  with_grant Hg; rewrite Hnet, H404, (raise_for_status_2xx _ Hs);
    unfold response_json; rewrite Hb; cbn [py_get]; rewrite Hu; reflexivity.
Qed.

End OpenAI_cases.

Section OpenRouter_cases.
Variables (E : env) (w : world) (self : BalanceAdapter.t).


Hypothesis key_ascii : Forall Utf8.is_ascii (BalanceAdapter.api_key self).

Ltac run_request Hnet :=
  unfold OpenRouter.fetch_balance, bind, lift, float_, ret;
  fold (credits_request self);
  rewrite (client_get_sends (credits_request self) E w key_ascii), Hnet.

Lemma openrouter_transport_failure t :
  network E (credits_request self) = Failed t ->
  OpenRouter.fetch_balance self E w
    = (sent (credits_request self) w, Raise (TransportError t)).
Proof. intros Hnet. run_request Hnet. reflexivity. Qed.

Lemma openrouter_status_failure response :
  network E (credits_request self) = Responded response ->
  ~ is_2xx (status_code response) ->
  OpenRouter.fetch_balance self E w
    = (sent (credits_request self) w,
       Raise (HTTPStatusError (status_code response))).
Proof.
  intros Hnet Hs. run_request Hnet. rewrite (raise_for_status_other _ Hs). reflexivity.
Qed.

Lemma openrouter_not_json response :
  network E (credits_request self) = Responded response ->
  is_2xx (status_code response) ->
  body_json response = None ->
  OpenRouter.fetch_balance self E w
    = (sent (credits_request self) w, Raise JSONDecodeError).
Proof.
  intros Hnet Hs Hb. run_request Hnet. rewrite (raise_for_status_2xx _ Hs).
  unfold response_json. rewrite Hb. reflexivity.
Qed.

Lemma openrouter_not_object response v :
  network E (credits_request self) = Responded response ->
  is_2xx (status_code response) ->
  body_json response = Some v ->
  (forall d, v <> PDict d) ->
  OpenRouter.fetch_balance self E w
    = (sent (credits_request self) w, Raise AttributeError).
Proof.
  intros Hnet Hs Hb Hv. run_request Hnet. rewrite (raise_for_status_2xx _ Hs).
  unfold response_json. rewrite Hb.
  destruct v; try reflexivity. destruct (Hv d eq_refl).
Qed.

Lemma openrouter_object response d :
  network E (credits_request self) = Responded response ->
  is_2xx (status_code response) ->
  body_json response = Some (PDict d) ->
  OpenRouter.fetch_balance self E w
    = (sent (credits_request self) w,
       match py_float (float_of_str E) (from_option id (PInt 0) (d !! "credits")) with
       | Ok balance => Ok (BalanceFetchResult.mk balance false)
       | Raise e => Raise e
       end).
Proof.
  intros Hnet Hs Hb. run_request Hnet. rewrite (raise_for_status_2xx _ Hs).
  unfold response_json. rewrite Hb. cbn [py_get].
  destruct (py_float _ _); reflexivity.
Qed.

End OpenRouter_cases.

(** ** The estimate adapter (OpenAI) *)

(** C6: for an adapter whose key is ASCII text, the keys the client can
    put in a header and so the only ones whose request the endpoint ever
    answers: with a grant of 100, a usage answer of 3000 minor units gives
    the balance 70 marked as an estimate, and the not-found status gives
    the grant itself, 100, marked as an estimate; in general, with grant
    [g] and a 2xx answer whose usage field converts to [u] minor units, the
    balance is [max(0, g - u / 100)], marked as an estimate: it is
    [g - u / 100] when that is positive, [0] otherwise, and never
    negative. *)
Theorem openai_estimate_balance (E : env) (w : world) (self : BalanceAdapter.t) :
  Forall Utf8.is_ascii (BalanceAdapter.api_key self) ->
  (forall response,
      grant_is E self 100%float ->
      network E (usage_request self) = Responded response ->
      status_code response = 200 ->
      body_json response = Some (PDict {[ "total_usage" := PInt 3000 ]}) ->
      OpenAI.fetch_balance self E w
        = (sent (usage_request self) w, Ok (BalanceFetchResult.mk 70%float true))) /\
  (forall response,
      grant_is E self 100%float ->
      network E (usage_request self) = Responded response ->
      status_code response = 404 ->
      OpenAI.fetch_balance self E w
        = (sent (usage_request self) w, Ok (BalanceFetchResult.mk 100%float true))) /\
  (forall g response body u,
      grant_is E self g ->
      network E (usage_request self) = Responded response ->
      is_2xx (status_code response) ->
      body_json response = Some (PDict body) ->
      py_float (float_of_str E) (from_option id (PInt 0) (body !! "total_usage")) = Ok u ->
      let remaining := PrimFloat.sub g (PrimFloat.div u 100%float) in
      OpenAI.fetch_balance self E w
        = (sent (usage_request self) w,
           Ok (BalanceFetchResult.mk (py_max0 remaining) true)) /\
      (PrimFloat.ltb 0%float remaining = true -> py_max0 remaining = remaining) /\
      (PrimFloat.ltb 0%float remaining = false -> py_max0 remaining = 0%float) /\
      PrimFloat.leb 0%float (py_max0 remaining) = true).
Proof.
  intros Hk. split; [|split].
  - intros response Hg Hnet Hs Hb.
    rewrite (openai_usage E w self Hk 100%float response
               {[ "total_usage" := PInt 3000 ]} (float_of_Z 3000) Hg Hnet).
    + reflexivity.
    + unfold is_2xx. lia.
    + exact Hb.
    + reflexivity.
  - intros response Hg Hnet Hs.
    apply (openai_status_failure E w self Hk _ response Hg Hnet).
    unfold is_2xx. lia.
  - intros g response body u Hg Hnet Hs Hb Hu remaining.
    split; [exact (openai_usage E w self Hk g response body u Hg Hnet Hs Hb Hu)|].
    split; [apply py_max0_pos|]. split; [apply py_max0_nonpos|apply py_max0_nonneg].
Qed.

Lemma demo_grant_is_100 (E : env) : grant_is E Demo.openai_adapter 100%float.
Proof. split; [discriminate|reflexivity]. Qed.

Lemma demo_key_ascii : Forall Utf8.is_ascii Demo.secret.
Proof.
  destruct (ascii_encode_cases Demo.secret) as [[H _]|[_ H]];
    [exact H|vm_compute in H; discriminate].
Qed.


Lemma openai_estimate_balance_witness :
  OpenAI.fetch_balance Demo.openai_adapter Demo.env_usage_3000 Demo.world0
    = (sent (usage_request Demo.openai_adapter) Demo.world0,
       Ok (BalanceFetchResult.mk 70%float true)) /\
  OpenAI.fetch_balance Demo.openai_adapter Demo.env_not_found Demo.world0
    = (sent (usage_request Demo.openai_adapter) Demo.world0,
       Ok (BalanceFetchResult.mk 100%float true)) /\
  OpenAI.fetch_balance Demo.openai_adapter Demo.env_usage_2000 Demo.world0
    = (sent (usage_request Demo.openai_adapter) Demo.world0,
       Ok (BalanceFetchResult.mk 80%float true)).
Proof.
  split; [|split].
  - apply (proj1 (openai_estimate_balance Demo.env_usage_3000 Demo.world0
                    Demo.openai_adapter demo_key_ascii) Demo.body_usage_3000);
      [apply demo_grant_is_100|reflexivity..].
  - apply (proj1 (proj2 (openai_estimate_balance Demo.env_not_found Demo.world0
                           Demo.openai_adapter demo_key_ascii)) (mk_response 404 None));
      [apply demo_grant_is_100|reflexivity..].
  - apply (proj2 (proj2 (openai_estimate_balance Demo.env_usage_2000 Demo.world0
                           Demo.openai_adapter demo_key_ascii)) 100%float
             (mk_response 200 (Some (PDict {[ "total_usage" := PInt 2000 ]})))
             {[ "total_usage" := PInt 2000 ]} 2000%float);
      [apply demo_grant_is_100|reflexivity|unfold is_2xx; cbn; lia|reflexivity..].
Defined.

(** C7: when the metadata has no grant (the key is absent or holds
    [None]), [fetch_balance] raises [ValueError], the code's configuration
    error, and the world is as before: no request was sent.  The same
    holds of a grant that [float()] rejects: the conversion's error is
    raised and no request was sent. *)
Theorem openai_missing_grant_raises_before_any_request
    (E : env) (w : world) (self : BalanceAdapter.t) :
  let grant := dict_get (BalanceAdapter.metadata self) "total_grant" in
  (grant = PNone ->
     OpenAI.fetch_balance self E w = (w, Raise ValueError) /\
     http_log (OpenAI.fetch_balance self E w).1 = http_log w) /\
  (forall e,
     grant <> PNone -> py_float (float_of_str E) grant = Raise e ->
     OpenAI.fetch_balance self E w = (w, Raise e) /\
     http_log (OpenAI.fetch_balance self E w).1 = http_log w).
Proof.
  intros grant. subst grant. split.
  - intros H. rewrite (openai_no_grant E w self H). split; reflexivity.
  - intros e Hn Hf. rewrite (openai_bad_grant E w self e Hn Hf). split; reflexivity.
Qed.

Lemma openai_missing_grant_witness :
  (OpenAI.fetch_balance Demo.openai_adapter_no_grant Demo.env_usage_3000 Demo.world0
     = (Demo.world0, Raise ValueError) /\
   http_log (OpenAI.fetch_balance Demo.openai_adapter_no_grant
               Demo.env_usage_3000 Demo.world0).1 = []) /\
  (OpenAI.fetch_balance Demo.openai_adapter_bad_grant Demo.env_usage_3000 Demo.world0
     = (Demo.world0, Raise TypeError) /\
   http_log (OpenAI.fetch_balance Demo.openai_adapter_bad_grant
               Demo.env_usage_3000 Demo.world0).1 = []).
Proof.
  split.
  - apply (proj1 (openai_missing_grant_raises_before_any_request
                    Demo.env_usage_3000 Demo.world0 Demo.openai_adapter_no_grant)).
    reflexivity.
  - apply (proj2 (openai_missing_grant_raises_before_any_request
                    Demo.env_usage_3000 Demo.world0 Demo.openai_adapter_bad_grant)
             TypeError); [discriminate|reflexivity].
Defined.

(** C4: the estimate adapter with the grant 100 present and a usage
    request that times out.  The handler, whose comment announces the
    fallback to the grant whenever the API call fails, filters on the status
    error alone: the time-out is not caught, [fetch_balance] raises the
    transport error and the grant is not returned. *)
Theorem openai_timeout_is_not_caught :
  grant_is Demo.env_timeout Demo.openai_adapter 100%float /\
  Forall Utf8.is_ascii (BalanceAdapter.api_key Demo.openai_adapter) /\
  network Demo.env_timeout (usage_request Demo.openai_adapter)
    = Failed TimeoutException /\
  OpenAI.fetch_balance Demo.openai_adapter Demo.env_timeout Demo.world0
    = (sent (usage_request Demo.openai_adapter) Demo.world0,
       Raise (TransportError TimeoutException)) /\
  OpenAI.fetch_balance Demo.openai_adapter Demo.env_timeout Demo.world0
    <> (sent (usage_request Demo.openai_adapter) Demo.world0,
        Ok (BalanceFetchResult.mk 100%float true)).
Proof.
  split; [apply demo_grant_is_100|]. split; [exact demo_key_ascii|].
  split; [reflexivity|]. split; [reflexivity|discriminate].
Qed.

(** Every transport failure propagates in the same way, whatever the
    adapter. *)
Lemma openai_transport_failure_propagates
    (E : env) (w : world) (self : BalanceAdapter.t) (g : float) (t : transport_error) :
  Forall Utf8.is_ascii (BalanceAdapter.api_key self) ->
  grant_is E self g ->
  network E (usage_request self) = Failed t ->
  (OpenAI.fetch_balance self E w).2 = Raise (TransportError t).
Proof.
  intros Hk Hg Hnet. rewrite (openai_transport_failure E w self Hk g t Hg Hnet).
  reflexivity.
Qed.

(** ** The exact adapter (OpenRouter) *)

(** C5, as stated, fails: a 200 answer whose JSON object has no [credits]
    field is not an error; the default [0] is returned as the balance. *)
Lemma openrouter_missing_credits_yields_zero :
  network Demo.env_empty_object (credits_request Demo.openrouter_adapter)
    = Responded (mk_response 200 (Some (PDict ∅))) /\
  OpenRouter.fetch_balance Demo.openrouter_adapter Demo.env_empty_object Demo.world0
    = (sent (credits_request Demo.openrouter_adapter) Demo.world0,
       Ok (BalanceFetchResult.mk 0%float false)).
Proof. split; reflexivity. Qed.

(** C5, amended: when the request is answered, which takes a key that is
    ASCII text, an answer outside 2xx, a body that is not a JSON document, a
    JSON document that is not an object, and a [credits] value that
    [float()] rejects each make [fetch_balance] raise, so no balance is
    returned; an object without a [credits] field yields the balance [0]
    with the estimate flag cleared. *)
Theorem openrouter_failures_and_default
    (E : env) (w : world) (self : BalanceAdapter.t) (response : Response) :
  Forall Utf8.is_ascii (BalanceAdapter.api_key self) ->
  network E (credits_request self) = Responded response ->
  let run := OpenRouter.fetch_balance self E w in
  (~ is_2xx (status_code response) ->
     run.2 = Raise (HTTPStatusError (status_code response))) /\
  (is_2xx (status_code response) ->
     (body_json response = None -> run.2 = Raise JSONDecodeError) /\
     (forall v, body_json response = Some v -> (forall d, v <> PDict d) ->
        run.2 = Raise AttributeError) /\
     (forall d c e, body_json response = Some (PDict d) ->
        d !! "credits" = Some c -> py_float (float_of_str E) c = Raise e ->
        run.2 = Raise e) /\
     (forall d, body_json response = Some (PDict d) -> d !! "credits" = None ->
        run.2 = Ok (BalanceFetchResult.mk 0%float false))).
Proof.
  intros Hk Hnet run. subst run. split.
  - intros Hs. rewrite (openrouter_status_failure E w self Hk response Hnet Hs). reflexivity.
  - intros Hs. split; [|split; [|split]].
    + intros Hb. rewrite (openrouter_not_json E w self Hk response Hnet Hs Hb). reflexivity.
    + intros v Hb Hv.
      rewrite (openrouter_not_object E w self Hk response v Hnet Hs Hb Hv). reflexivity.
    + intros d c e Hb Hc He.
      rewrite (openrouter_object E w self Hk response d Hnet Hs Hb), Hc. cbn [from_option id].
      rewrite He. reflexivity.
    + intros d Hb Hc.
      rewrite (openrouter_object E w self Hk response d Hnet Hs Hb), Hc. reflexivity.
Qed.

Lemma openrouter_failures_witness :
  (OpenRouter.fetch_balance Demo.openrouter_adapter Demo.env_server_error Demo.world0).2
    = Raise (HTTPStatusError 500) /\
  (OpenRouter.fetch_balance Demo.openrouter_adapter Demo.env_not_json Demo.world0).2
    = Raise JSONDecodeError /\
  (OpenRouter.fetch_balance Demo.openrouter_adapter Demo.env_json_list Demo.world0).2
    = Raise AttributeError /\
  (OpenRouter.fetch_balance Demo.openrouter_adapter Demo.env_credits_null Demo.world0).2
    = Raise TypeError /\
  (OpenRouter.fetch_balance Demo.openrouter_adapter Demo.env_empty_object Demo.world0).2
    = Ok (BalanceFetchResult.mk 0%float false).
Proof.
  assert (H200 : is_2xx 200) by (unfold is_2xx; lia).
  split; [|split; [|split; [|split]]].
  - apply (openrouter_failures_and_default Demo.env_server_error Demo.world0
             Demo.openrouter_adapter (mk_response 500 None) demo_key_ascii eq_refl).
    unfold is_2xx. cbn. lia.
  - exact (proj1 (proj2 (openrouter_failures_and_default
             Demo.env_not_json Demo.world0 Demo.openrouter_adapter
             (mk_response 200 None) demo_key_ascii eq_refl) H200) eq_refl).
  - refine (proj1 (proj2 (proj2 (openrouter_failures_and_default
             Demo.env_json_list Demo.world0 Demo.openrouter_adapter
             (mk_response 200 (Some (PList []))) demo_key_ascii eq_refl) H200))
             (PList []) eq_refl _).
    discriminate.
  - exact (proj1 (proj2 (proj2 (proj2 (openrouter_failures_and_default
             Demo.env_credits_null Demo.world0 Demo.openrouter_adapter
             (mk_response 200 (Some (PDict {[ "credits" := PNone ]}))) demo_key_ascii eq_refl) H200)))
             {[ "credits" := PNone ]} PNone TypeError eq_refl eq_refl eq_refl).
  - exact (proj2 (proj2 (proj2 (proj2 (openrouter_failures_and_default
             Demo.env_empty_object Demo.world0 Demo.openrouter_adapter
             (mk_response 200 (Some (PDict ∅))) demo_key_ascii eq_refl) H200)))
             ∅ eq_refl eq_refl).
Defined.

(** The exact reading of the specification's example, [{"credits": 42.5}]. *)
Example openrouter_credits_42_5 (E : env) (w : world) (self : BalanceAdapter.t) :
  Forall Utf8.is_ascii (BalanceAdapter.api_key self) ->
  network E (credits_request self)
    = Responded (mk_response 200 (Some (PDict {[ "credits" := PFloat 42.5%float ]}))) ->
  (OpenRouter.fetch_balance self E w).2 = Ok (BalanceFetchResult.mk 42.5%float false).
Proof.
  intros Hk Hnet.
  rewrite (openrouter_object E w self Hk _ {[ "credits" := PFloat 42.5%float ]} Hnet);
    [reflexivity| |reflexivity].
  unfold is_2xx. cbn. lia.
Qed.

(** ** The encryption service *)

Section Encryption.
Variables (svc : EncryptionService.t) (E : env) (w : world).

Lemma encrypt_run s plain :
  Utf8.encode s = Some plain ->
  EncryptionService.encrypt svc s E w =
    ((draw_nonce E w).1,
     bytes_decode (Fernet_encrypt (EncryptionService.fernet svc)
                     (fernet_nonce E (nonces_drawn w)) plain)).
Proof.
  intros H. unfold EncryptionService.encrypt, bind, lift, str_encode, draw_nonce.
  rewrite H. cbn [fst]. destruct (bytes_decode _); reflexivity.
Qed.

Lemma decrypt_run token tok :
  Utf8.encode token = Some tok ->
  EncryptionService.decrypt svc token E w =
    (w, match Fernet_decrypt (EncryptionService.fernet svc) tok with
        | Some plain => bytes_decode plain
        | None => Raise InvalidToken
        end).
Proof.
  intros H. unfold EncryptionService.decrypt, bind, lift, raise, str_encode.
  rewrite H. destruct (Fernet_decrypt _ tok); reflexivity.
Qed.

Lemma decrypt_Ok_inv token s :
  (EncryptionService.decrypt svc token E w).2 = Ok s ->
  exists tok plain,
    Utf8.encode token = Some tok /\
    Fernet_decrypt (EncryptionService.fernet svc) tok = Some plain /\
    Utf8.decode plain = Some s.
Proof.
  unfold EncryptionService.decrypt, bind, lift, raise, str_encode, bytes_decode.
  destruct (Utf8.encode token) as [tok|]; [|discriminate].
  destruct (Fernet_decrypt _ tok) as [plain|] eqn:Hf; [|discriminate].
  destruct (Utf8.decode plain) as [s'|] eqn:Hd; [|discriminate].
  intros [= <-]. exists tok, plain. auto.
Qed.

Lemma encrypt_Ok_token s token :
  (EncryptionService.encrypt svc s E w).2 = Ok token ->
  exists plain,
    Utf8.encode s = Some plain /\
    Utf8.encode token
      = Some (Fernet_encrypt (EncryptionService.fernet svc)
                (fernet_nonce E (nonces_drawn w)) plain).
Proof.
  destruct (Utf8.encode s) as [plain|] eqn:Hs.
  - rewrite (encrypt_run s plain Hs). cbn [snd]. unfold bytes_decode.
    destruct (Utf8.decode _) as [t|] eqn:Hd; [|discriminate].
    intros [= <-]. exists plain. split; [reflexivity|].
    apply Utf8Facts.encode_decode, Hd.
  - unfold EncryptionService.encrypt, bind, lift, str_encode. rewrite Hs. discriminate.
Qed.


End Encryption.


(** The toy cipher keeps the contract. *)
Module DemoFacts.
Import Demo Utf8 Utf8Facts.

Lemma unhex_hex b : Forall is_byte b -> unhex (hex b) = Some b.
Proof.
  induction 1 as [|x b Hx _ IH]; [reflexivity|].
  unfold is_byte in Hx. cbn [hex flat_map app unhex]. fold (hex b). rewrite IH.
  decide_tests. cbn [andb fmap option_fmap option_map]. do 2 f_equal. dlia.
Qed.

Lemma hex_ascii b : Forall is_byte b -> Forall is_ascii (hex b).
Proof.
  induction 1 as [|x b Hx _ IH]; [constructor|].
  unfold is_byte in Hx. cbn [hex flat_map app]. fold (hex b).
  repeat constructor; try exact IH; dlia.
Qed.

Lemma strip_prefix_app p r : strip_prefix p (p ++ r) = Some r.
Proof.
  induction p as [|x p IH]; [destruct r; reflexivity|].
  cbn [app strip_prefix]. rewrite Z.eqb_refl. exact IH.
Qed.

Lemma toy_Fernet_contract key : Forall is_byte key -> FernetContract (toy_Fernet key).
Proof.
  intros Hkey. split; intros n b Hb; cbn [toy_Fernet Fernet_encrypt Fernet_decrypt].
  - replace (hex key ++ 46 :: hex b) with ((hex key ++ [46]) ++ hex b)
      by (rewrite <- app_assoc; reflexivity).
    rewrite strip_prefix_app. apply unhex_hex, Hb.
  - apply Forall_app. split; [apply hex_ascii, Hkey|].
    constructor; [unfold is_ascii; lia|apply hex_ascii, Hb].
Qed.





Lemma hex_length b : length (hex b) = (2 * length b)%nat.
Proof.
  induction b as [|x b IH]; [reflexivity|].
  cbn [hex flat_map app length]. fold (hex b). rewrite IH. lia.
Qed.

Lemma toy_Fernet_expands key : FernetExpands (toy_Fernet key).
Proof.
  split. intros n b. cbn [toy_Fernet Fernet_encrypt].
  rewrite length_app. cbn [length]. rewrite !hex_length. lia.
Qed.


Lemma key_A_bytes : Forall is_byte key_A.
Proof. repeat constructor; unfold is_byte; lia. Qed.

Lemma key_B_bytes : Forall is_byte key_B.
Proof. repeat constructor; unfold is_byte; lia. Qed.

Lemma secret_scalar : Forall is_scalar secret.
Proof. repeat constructor; unfold is_scalar; cbn; lia. Qed.

End DemoFacts.




(** ** The check job *)

Lemma keeps_decrypt_and_fetch {B} (f : world -> B) rec p :
  blind_to_http f -> keeps f (decrypt_and_fetch rec p).
Proof.
  intros H. unfold decrypt_and_fetch.
  repeat first [ apply keeps_ask | apply keeps_decrypt | apply keeps_lift
               | apply keeps_fetch_balance, H | apply keeps_bind; [|intros ?] ].
Qed.

Lemma persist_balance_run key_id rec result E w :
  persist_balance key_id rec result E w =
    let b := BalanceFetchResult.balance result in
    let t1 := utcnow_at E (clock_reads w) in
    let t2 := utcnow_at E (S (clock_reads w)) in
    let ops := pending w ++
               [UpdateKeyBalance (ManagedApiKey.set_last_checked (Some t1)
                  (ManagedApiKey.set_last_known_balance (Some b) rec));
                InsertLog (fun pk => BalanceLog.mk pk t2 b key_id)] in
    let w2 := mk_world (db w) ops (http_log w) (enqueue_calls w) (queue w)
                       (S (S (clock_reads w))) (nonces_drawn w) in
    match commit_error E (db w) ops with
    | Some e => (w2, Raise e)
    | None => (set_pending [] (set_db (apply_ops (db w) ops) w2), Ok tt)
    end.
Proof.
  unfold persist_balance, bind, utcnow, session_add, session_commit, set_pending, set_db.
  cbn [db pending http_log enqueue_calls queue clock_reads nonces_drawn].
  rewrite <- app_assoc. reflexivity.
Qed.

Lemma persisted_apply_ops d rec key_id b t1 t2 :
  ManagedApiKey.id rec = key_id ->
  apply_ops d [UpdateKeyBalance (ManagedApiKey.set_last_checked (Some t1)
                 (ManagedApiKey.set_last_known_balance (Some b) rec));
               InsertLog (fun pk => BalanceLog.mk pk t2 b key_id)]
  = persisted d key_id b t1 t2.
Proof. intros <-. reflexivity. Qed.

Lemma select_key_id key_id d rec :
  select_key key_id d = Some rec -> ManagedApiKey.id rec = key_id.
Proof.
  unfold select_key. intros H. apply find_some in H as [_ H]. apply Z.eqb_eq, H.
Qed.

Section Fetch_and_persist.
Variables (E : env) (w w1 : world) (key_id : Z)
          (rec : ManagedApiKey.t) (p : PlatformProvider.t).
Hypothesis session_fresh : pending w = [].
Hypothesis rec_id : ManagedApiKey.id rec = key_id.

Lemma fetch_and_persist_Ok res :
  fetch_and_persist key_id rec p E w = (w1, Ok res) ->
  db w1 = persisted (db w) key_id (BalanceFetchResult.balance res)
            (utcnow_at E (clock_reads w)) (utcnow_at E (S (clock_reads w)))
  /\ pending w1 = [] /\ enqueue_calls w1 = enqueue_calls w /\ queue w1 = queue w.
Proof.
  unfold fetch_and_persist. rewrite bind_run.
  pose proof (keeps_decrypt_and_fetch db rec p blind_db E w) as Hdb.
  pose proof (keeps_decrypt_and_fetch pending rec p blind_pending E w) as Hpe.
  pose proof (keeps_decrypt_and_fetch enqueue_calls rec p blind_enqueue_calls E w) as Hec.
  pose proof (keeps_decrypt_and_fetch queue rec p blind_queue E w) as Hq.
  pose proof (keeps_decrypt_and_fetch clock_reads rec p blind_clock_reads E w) as Hc.
  destruct (decrypt_and_fetch rec p E w) as [wa [result|e]]; [|discriminate].
  cbn [fst] in *. rewrite bind_run, persist_balance_run. cbv zeta.
  rewrite Hdb, Hpe, Hc, session_fresh. cbn [app].
  destruct (commit_error E _ _); [discriminate|].
  intros [= <- <-]. cbn -[apply_ops persisted].
  unfold persisted. rewrite rec_id. auto.
Qed.

Lemma fetch_and_persist_Raise e :
  fetch_and_persist key_id rec p E w = (w1, Raise e) ->
  db w1 = db w /\ enqueue_calls w1 = enqueue_calls w /\ queue w1 = queue w.
Proof.
  unfold fetch_and_persist. rewrite bind_run.
  pose proof (keeps_decrypt_and_fetch db rec p blind_db E w) as Hdb.
  pose proof (keeps_decrypt_and_fetch enqueue_calls rec p blind_enqueue_calls E w) as Hec.
  pose proof (keeps_decrypt_and_fetch queue rec p blind_queue E w) as Hq.
  destruct (decrypt_and_fetch rec p E w) as [wa [result|e']]; cbn [fst] in *.
  - rewrite bind_run, persist_balance_run. cbv zeta.
    destruct (commit_error E _ _); [|discriminate].
    intros [= <- <-]. auto.
  - intros [= <- <-]. auto.
Qed.
End Fetch_and_persist.

Lemma notify_if_low_run key_id res E w :
  notify_if_low key_id res E w =
    match notifications_due (db w) key_id (BalanceFetchResult.balance res) with
    | [] => (w, Ok tt)
    | j :: _ => ctx_enqueue_job j E w
    end.
Proof.
  unfold notify_if_low, notifications_due, notification, bind, session_query.
  destruct (select_rule key_id (db w)) as [rule|]; [|reflexivity].
  destruct (PrimFloat.leb _ _); reflexivity.
Qed.

Lemma enqueue_job_db j E w : db (enqueue_job j E w).1 = db w.
Proof. unfold enqueue_job. destruct (enqueue_error E _ j); reflexivity. Qed.

Lemma enqueue_job_calls j E w :
  enqueue_calls (enqueue_job j E w).1 = enqueue_calls w ++ [j].
Proof. unfold enqueue_job. destruct (enqueue_error E _ j); reflexivity. Qed.

Lemma enqueue_job_accepted j E w :
  enqueue_error E (enqueue_calls w) j = None ->
  (enqueue_job j E w).2 = Ok tt /\ queue (enqueue_job j E w).1 = queue w ++ [j].
Proof. unfold enqueue_job. intros ->. auto. Qed.

Lemma enqueue_job_rejected j e E w :
  enqueue_error E (enqueue_calls w) j = Some e ->
  (enqueue_job j E w).2 = Raise e /\ queue (enqueue_job j E w).1 = queue w.
Proof. unfold enqueue_job. intros ->. auto. Qed.

(** The call through the job's context: the queue's own call when the
    context offers one, an [AttributeError] with nothing tried when it is
    the dictionary arq passes. *)
Lemma ctx_enqueue_job_queue j E w :
  ctx E = queue_ctx -> ctx_enqueue_job j E w = enqueue_job j E w.
Proof. unfold ctx_enqueue_job. intros ->. reflexivity. Qed.

Lemma ctx_enqueue_job_arq j E w :
  ctx E = arq_ctx -> ctx_enqueue_job j E w = (w, Raise AttributeError).
Proof. unfold ctx_enqueue_job. intros ->. reflexivity. Qed.

Lemma ctx_enqueue_job_db j E w : db (ctx_enqueue_job j E w).1 = db w.
Proof. unfold ctx_enqueue_job. destruct (ctx E); [reflexivity|apply enqueue_job_db]. Qed.

Lemma ctx_enqueue_job_rejected j e E w :
  ctx_enqueue_error E (enqueue_calls w) j = Some e ->
  (ctx_enqueue_job j E w).2 = Raise e /\ queue (ctx_enqueue_job j E w).1 = queue w.
Proof.
  unfold ctx_enqueue_error, ctx_enqueue_job. destruct (ctx E).
  - intros [= <-]. auto.
  - apply enqueue_job_rejected.
Qed.

Lemma notify_if_low_db key_id res E w : db (notify_if_low key_id res E w).1 = db w.
Proof.
  rewrite notify_if_low_run. destruct (notifications_due _ _ _); [reflexivity|].
  apply ctx_enqueue_job_db.
Qed.

(** The body of [try], regrouped as steps 2 to 4 followed by step 5. *)
Lemma try_body_run key_id rec p E w :
  (result <~ decrypt_and_fetch rec p ;;
   _ <~ persist_balance key_id rec result ;;
   notify_if_low key_id result) E w
  = (result <~ fetch_and_persist key_id rec p ;; notify_if_low key_id result) E w.
Proof.
  unfold fetch_and_persist, bind, ret.
  destruct (decrypt_and_fetch rec p E w) as [wa [result|e]]; [|reflexivity].
  destruct (persist_balance key_id rec result E wa) as [wb [[]|e]]; reflexivity.
Qed.

Lemma check_single_key_run key_id rec p E w :
  select_key key_id (db w) = Some rec ->
  select_platform (ManagedApiKey.platform_id rec) (db w) = Some p ->
  check_single_key key_id E w =
    match fetch_and_persist key_id rec p E (set_pending [] w) with
    | (w1, Raise e) => (set_pending [] w1, Raise e)
    | (w1, Ok res) =>
        match notify_if_low key_id res E w1 with
        | (w2, r) => (set_pending [] w2, r)
        end
    end.
Proof.
  intros Hk Hp. unfold check_single_key, with_Session.
  rewrite bind_run. unfold session_query at 1. cbn [db set_pending]. rewrite Hk.
  rewrite bind_run. unfold session_query at 1. cbn [db set_pending]. rewrite Hp.
  rewrite try_except_run, try_body_run, bind_run.
  destruct (fetch_and_persist key_id rec p E _) as [w1 [res|e]]; [|reflexivity].
  destruct (notify_if_low key_id res E w1) as [w2 [[]|e]]; reflexivity.
Qed.

Lemma check_single_key_no_key key_id E w :
  select_key key_id (db w) = None ->
  check_single_key key_id E w = (set_pending [] w, Ok tt).
Proof.
  intros Hk. unfold check_single_key, with_Session.
  rewrite bind_run. unfold session_query at 1. cbn [db set_pending]. rewrite Hk.
  reflexivity.
Qed.

Lemma check_single_key_no_platform key_id rec E w :
  select_key key_id (db w) = Some rec ->
  select_platform (ManagedApiKey.platform_id rec) (db w) = None ->
  check_single_key key_id E w = (set_pending [] w, Ok tt).
Proof.
  intros Hk Hp. unfold check_single_key, with_Session.
  rewrite bind_run. unfold session_query at 1. cbn [db set_pending]. rewrite Hk.
  rewrite bind_run. unfold session_query at 1. cbn [db set_pending]. rewrite Hp.
  reflexivity.
Qed.

Lemma notifications_due_persisted d key_id b b' t1 t2 :
  notifications_due (persisted d key_id b' t1 t2) key_id b = notifications_due d key_id b.
Proof. reflexivity. Qed.

(** With a context that offers the queue's [enqueue_job], in a run of the
    check job where steps 2 to 4 succeed with the fetched balance [b]: if a
    rule exists for the credential and [b <= threshold], exactly one
    [enqueue_job] call is made, for the notification carrying [b] (and the
    rule's threshold, channel and address), and once Redis accepts it the
    queue holds exactly that one more job; if [b <= threshold] does not
    hold, or no rule exists, no call is made and the queue is as before. *)
Lemma check_enqueues_one_notification_with_queue_ctx
    (E : env) (w w1 : world) (key_id : Z) (rec : ManagedApiKey.t)
    (p : PlatformProvider.t) (res : BalanceFetchResult.t) :
  ctx E = queue_ctx ->
  select_key key_id (db w) = Some rec ->
  select_platform (ManagedApiKey.platform_id rec) (db w) = Some p ->
  fetch_and_persist key_id rec p E (set_pending [] w) = (w1, Ok res) ->
  let b := BalanceFetchResult.balance res in
  let run := check_single_key key_id E w in
  (forall rule,
      select_rule key_id (db w) = Some rule ->
      PrimFloat.leb b (NotificationRule.threshold_amount rule) = true ->
      enqueue_calls run.1 = enqueue_calls w ++ [notification key_id b rule] /\
      (enqueue_error E (enqueue_calls w) (notification key_id b rule) = None ->
       run.2 = Ok tt /\ queue run.1 = queue w ++ [notification key_id b rule])) /\
  (forall rule,
      select_rule key_id (db w) = Some rule ->
      PrimFloat.leb b (NotificationRule.threshold_amount rule) = false ->
      enqueue_calls run.1 = enqueue_calls w /\ queue run.1 = queue w /\ run.2 = Ok tt) /\
  (select_rule key_id (db w) = None ->
      enqueue_calls run.1 = enqueue_calls w /\ queue run.1 = queue w /\ run.2 = Ok tt).
Proof.
  intros Hctx Hk Hp Hfp b run. subst run.
  rewrite (check_single_key_run _ _ _ _ _ Hk Hp), Hfp.
  destruct (fetch_and_persist_Ok E (set_pending [] w) w1 key_id rec p eq_refl
              (select_key_id _ _ _ Hk) res Hfp) as (Hdb & _ & Hec & Hq).
  cbn [set_pending enqueue_calls queue clock_reads db] in Hdb, Hec, Hq.
  rewrite notify_if_low_run, Hdb, notifications_due_persisted.
  unfold notifications_due. fold b.
  split; [|split].
  - intros rule -> ->. rewrite (ctx_enqueue_job_queue _ E w1 Hctx).
    pose proof (enqueue_job_calls (notification key_id b rule) E w1) as Hc.
    destruct (enqueue_job (notification key_id b rule) E w1) as [w2 r] eqn:Hj.
    cbn [fst snd set_pending enqueue_calls queue] in *. rewrite Hc, Hec. split; [reflexivity|].
    intros Hacc. rewrite <- Hec in Hacc.
    destruct (enqueue_job_accepted _ E w1 Hacc) as [Hr Hq'].
    rewrite Hj in Hr, Hq'. cbn [fst snd] in Hr, Hq'. rewrite Hr, Hq', Hq. auto.
  - intros rule -> ->. cbn [fst snd set_pending enqueue_calls queue]. auto.
  - intros ->. cbn [fst snd set_pending enqueue_calls queue]. auto.
Qed.

(** With the context arq passes, a dictionary, the call [ctx.enqueue_job]
    of step 6 raises [AttributeError] whenever it is reached: no call to
    the queue is made and nothing is queued, though the balance is low. *)
Lemma check_under_arq_never_enqueues
    (E : env) (w w1 : world) (key_id : Z) (rec : ManagedApiKey.t)
    (p : PlatformProvider.t) (res : BalanceFetchResult.t) (rule : NotificationRule.t) :
  ctx E = arq_ctx ->
  select_key key_id (db w) = Some rec ->
  select_platform (ManagedApiKey.platform_id rec) (db w) = Some p ->
  fetch_and_persist key_id rec p E (set_pending [] w) = (w1, Ok res) ->
  select_rule key_id (db w) = Some rule ->
  PrimFloat.leb (BalanceFetchResult.balance res)
                (NotificationRule.threshold_amount rule) = true ->
  let run := check_single_key key_id E w in
  run.2 = Raise AttributeError /\
  enqueue_calls run.1 = enqueue_calls w /\ queue run.1 = queue w.
Proof.
  intros Hctx Hk Hp Hfp Hr Hle run. subst run.
  rewrite (check_single_key_run _ _ _ _ _ Hk Hp), Hfp.
  destruct (fetch_and_persist_Ok E (set_pending [] w) w1 key_id rec p eq_refl
              (select_key_id _ _ _ Hk) res Hfp) as (Hdb & _ & Hec & Hq).
  cbn [set_pending enqueue_calls queue clock_reads db] in Hdb, Hec, Hq.
  rewrite notify_if_low_run, Hdb, notifications_due_persisted.
  unfold notifications_due. rewrite Hr, Hle.
  rewrite (ctx_enqueue_job_arq _ E w1 Hctx).
  cbn [fst snd set_pending enqueue_calls queue]. auto.
Qed.

(** C1: the check of credential 7, whose rule has the threshold 80, run
    by the arq worker, which passes a dictionary as [ctx]: steps 2 to 4
    succeed with the fetched balance 70, which is below the threshold, and
    the balance is committed; then [ctx.enqueue_job] raises
    [AttributeError]: the job fails, no call to the queue was made and no
    notify job is queued, where exactly one is due. *)
Theorem check_under_arq_enqueues_no_notification :
  ctx (Demo.under_arq Demo.env_usage_3000) = arq_ctx /\
  select_rule 7 (db Demo.world0) = Some Demo.rule7 /\
  (fetch_and_persist 7 Demo.key7 Demo.platform_openai
     (Demo.under_arq Demo.env_usage_3000) (set_pending [] Demo.world0)).2
    = Ok (BalanceFetchResult.mk 70%float true) /\
  PrimFloat.leb 70%float (NotificationRule.threshold_amount Demo.rule7) = true /\
  notifications_due (db Demo.world0) 7 70%float
    = [notification 7 70%float Demo.rule7] /\
  (check_single_key 7 (Demo.under_arq Demo.env_usage_3000) Demo.world0).2
    = Raise AttributeError /\
  enqueue_calls (check_single_key 7 (Demo.under_arq Demo.env_usage_3000) Demo.world0).1
    = [] /\
  queue (check_single_key 7 (Demo.under_arq Demo.env_usage_3000) Demo.world0).1 = [] /\
  db (check_single_key 7 (Demo.under_arq Demo.env_usage_3000) Demo.world0).1
    = persisted Demo.db0 7 70%float 1000 1001.
Proof. repeat split; reflexivity. Qed.

(** C10: when steps 2 to 4 succeeded and enqueueing the notification then
    fails with [e], be it that the queue refuses the job or that the
    context has no [enqueue_job] to call, the job fails with [e], nothing
    is queued, and the
    database is the committed one: the credential carries the new balance and
    check time and the history record is there; the rollback of the handler
    undoes none of it. *)
Theorem commit_survives_failed_notification
    (E : env) (w w1 : world) (key_id : Z) (rec : ManagedApiKey.t)
    (p : PlatformProvider.t) (res : BalanceFetchResult.t)
    (rule : NotificationRule.t) (e : exn) :
  select_key key_id (db w) = Some rec ->
  select_platform (ManagedApiKey.platform_id rec) (db w) = Some p ->
  fetch_and_persist key_id rec p E (set_pending [] w) = (w1, Ok res) ->
  select_rule key_id (db w) = Some rule ->
  PrimFloat.leb (BalanceFetchResult.balance res)
                (NotificationRule.threshold_amount rule) = true ->
  ctx_enqueue_error E (enqueue_calls w)
    (notification key_id (BalanceFetchResult.balance res) rule) = Some e ->
  let run := check_single_key key_id E w in
  run.2 = Raise e /\
  db run.1 = persisted (db w) key_id (BalanceFetchResult.balance res)
               (utcnow_at E (clock_reads w)) (utcnow_at E (S (clock_reads w))) /\
  queue run.1 = queue w.
Proof.
  intros Hk Hp Hfp Hr Hle Hrej run. subst run.
  rewrite (check_single_key_run _ _ _ _ _ Hk Hp), Hfp.
  destruct (fetch_and_persist_Ok E (set_pending [] w) w1 key_id rec p eq_refl
              (select_key_id _ _ _ Hk) res Hfp) as (Hdb & _ & Hec & Hq).
  cbn [set_pending enqueue_calls queue clock_reads db] in Hdb, Hec, Hq.
  rewrite notify_if_low_run, Hdb, notifications_due_persisted.
  unfold notifications_due. rewrite Hr, Hle.
  rewrite <- Hec in Hrej.
  pose proof (ctx_enqueue_job_db
                (notification key_id (BalanceFetchResult.balance res) rule) E w1) as Hd.
  destruct (ctx_enqueue_job_rejected _ _ E w1 Hrej) as [He Hq'].
  destruct (ctx_enqueue_job _ E w1) as [w2 r].
  cbn [fst snd set_pending db queue] in *. rewrite He, Hd, Hq', Hq. auto.
Qed.

Lemma check_single_key_db (E : env) (w : world) (key_id : Z) :
  db (check_single_key key_id E w).1 = db w \/
  exists b t1 t2, db (check_single_key key_id E w).1 = persisted (db w) key_id b t1 t2.
Proof.
  destruct (select_key key_id (db w)) as [rec|] eqn:Hk.
  2:{ rewrite (check_single_key_no_key _ _ _ Hk). left. reflexivity. }
  destruct (select_platform (ManagedApiKey.platform_id rec) (db w)) as [p|] eqn:Hp.
  2:{ rewrite (check_single_key_no_platform _ _ _ _ Hk Hp). left. reflexivity. }
  rewrite (check_single_key_run _ _ _ _ _ Hk Hp).
  destruct (fetch_and_persist key_id rec p E (set_pending [] w)) as [w1 [res|e]] eqn:Hfp.
  - destruct (fetch_and_persist_Ok E (set_pending [] w) w1 key_id rec p eq_refl
                (select_key_id _ _ _ Hk) res Hfp) as (Hdb & _ & _ & _).
    pose proof (notify_if_low_db key_id res E w1) as Hn.
    destruct (notify_if_low key_id res E w1) as [w2 r].
    cbn [fst set_pending db] in *. rewrite Hn, Hdb. right. eauto.
  - destruct (fetch_and_persist_Raise E (set_pending [] w) w1 key_id rec p e Hfp)
      as (Hdb & _ & _).
    left. exact Hdb.
Qed.

Lemma check_single_key_pending (E : env) (w : world) (key_id : Z) :
  pending (check_single_key key_id E w).1 = [].
Proof.
  unfold check_single_key, with_Session.
  destruct (bind _ _ E (set_pending [] w)) as [w' r]. reflexivity.
Qed.

Lemma fetch_and_persist_fetch_fails key_id rec p E w e :
  (decrypt_and_fetch rec p E w).2 = Raise e ->
  fetch_and_persist key_id rec p E w = ((decrypt_and_fetch rec p E w).1, Raise e).
Proof.
  unfold fetch_and_persist. rewrite bind_run.
  destruct (decrypt_and_fetch rec p E w) as [wa [res|e']]; [discriminate|].
  intros [= ->]. reflexivity.
Qed.

Lemma decrypt_and_fetch_decrypt_fails rec p E w e :
  (EncryptionService.decrypt (encryption_service E)
     (ManagedApiKey.api_key_encrypted rec) E w).2 = Raise e ->
  (decrypt_and_fetch rec p E w).2 = Raise e.
Proof.
  unfold decrypt_and_fetch. rewrite bind_run. cbn [ask]. rewrite bind_run.
  destruct (EncryptionService.decrypt _ _ E w) as [wa [dk|e']]; [discriminate|].
  intros [= ->]. reflexivity.
Qed.

Lemma fetch_and_persist_persist_fails key_id rec p E w wa res e :
  decrypt_and_fetch rec p E w = (wa, Ok res) ->
  (persist_balance key_id rec res E wa).2 = Raise e ->
  fetch_and_persist key_id rec p E w
    = ((persist_balance key_id rec res E wa).1, Raise e).
Proof.
  intros Hf. unfold fetch_and_persist. rewrite bind_run, Hf, bind_run.
  destruct (persist_balance key_id rec res E wa) as [wb [[]|e']]; [discriminate|].
  intros [= ->]. reflexivity.
Qed.

(** [persist_balance] fails exactly when the commit does. *)
Lemma persist_balance_fails_iff key_id rec res E w e :
  (persist_balance key_id rec res E w).2 = Raise e <->
  commit_error E (db w)
    (pending w ++
     [UpdateKeyBalance
        (ManagedApiKey.set_last_checked (Some (utcnow_at E (clock_reads w)))
           (ManagedApiKey.set_last_known_balance
              (Some (BalanceFetchResult.balance res)) rec));
      InsertLog (fun pk => BalanceLog.mk pk (utcnow_at E (S (clock_reads w)))
                             (BalanceFetchResult.balance res) key_id)])
    = Some e.
Proof.
  rewrite persist_balance_run. cbv zeta.
  destruct (commit_error E _ _) as [e'|]; cbn [snd]; split; congruence.
Qed.

(** C2: after a run of the check job the database is either the one before
    it, or the one before it with both the credential's balance and check
    time updated and one history record appended, never one without the
    other, and the session holds nothing uncommitted; and when the decryption
    (step 2), the adapter (step 3) or the commit (step 4), that is any of
    steps 2 to 4, fails with [e], the job fails with [e] and the database is
    the one before it. *)
Theorem check_persists_both_or_neither (E : env) (w : world) (key_id : Z) :
  let run := check_single_key key_id E w in
  let w0 := set_pending [] w in
  (db run.1 = db w \/
   exists b t1 t2, db run.1 = persisted (db w) key_id b t1 t2) /\
  pending run.1 = [] /\
  (forall rec p,
      select_key key_id (db w) = Some rec ->
      select_platform (ManagedApiKey.platform_id rec) (db w) = Some p ->
      (forall e,
          (EncryptionService.decrypt (encryption_service E)
             (ManagedApiKey.api_key_encrypted rec) E w0).2 = Raise e ->
          run.2 = Raise e /\ db run.1 = db w) /\
      (forall e,
          (decrypt_and_fetch rec p E w0).2 = Raise e ->
          run.2 = Raise e /\ db run.1 = db w) /\
      (forall wa res e,
          decrypt_and_fetch rec p E w0 = (wa, Ok res) ->
          (persist_balance key_id rec res E wa).2 = Raise e ->
          run.2 = Raise e /\ db run.1 = db w) /\
      (forall w1 e,
          fetch_and_persist key_id rec p E w0 = (w1, Raise e) ->
          run.2 = Raise e /\ db run.1 = db w)).
Proof.
  intros run w0. subst run w0.
  split; [apply check_single_key_db|]. split; [apply check_single_key_pending|].
  intros rec p Hk Hp.
  assert (Hgen : forall w1 e,
             fetch_and_persist key_id rec p E (set_pending [] w) = (w1, Raise e) ->
             (check_single_key key_id E w).2 = Raise e /\
             db (check_single_key key_id E w).1 = db w).
  { intros w1 e Hfp.
    rewrite (check_single_key_run _ _ _ _ _ Hk Hp), Hfp.
    destruct (fetch_and_persist_Raise E (set_pending [] w) w1 key_id rec p e Hfp)
      as (Hdb & _ & _).
    cbn [fst snd set_pending db]. auto. }
  split; [|split; [|split]].
  - intros e Hd. eapply Hgen, fetch_and_persist_fetch_fails,
      decrypt_and_fetch_decrypt_fails, Hd.
  - intros e Hf. eapply Hgen, fetch_and_persist_fetch_fails, Hf.
  - intros wa res e Hf Hpb. eapply Hgen, fetch_and_persist_persist_fails; eauto.
  - exact Hgen.
Qed.

Lemma commit_survives_failed_notification_witness :
  ((check_single_key 7 Demo.env_redis_down Demo.world0).2 = Raise RedisError /\
   db (check_single_key 7 Demo.env_redis_down Demo.world0).1
     = persisted Demo.db0 7 70%float 1000 1001 /\
   queue (check_single_key 7 Demo.env_redis_down Demo.world0).1 = []) /\
  ((check_single_key 7 (Demo.under_arq Demo.env_usage_3000) Demo.world0).2
     = Raise AttributeError /\
   db (check_single_key 7 (Demo.under_arq Demo.env_usage_3000) Demo.world0).1
     = persisted Demo.db0 7 70%float 1000 1001 /\
   queue (check_single_key 7 (Demo.under_arq Demo.env_usage_3000) Demo.world0).1 = []).
Proof.
  split.
  - apply (commit_survives_failed_notification Demo.env_redis_down Demo.world0
             (fetch_and_persist 7 Demo.key7 Demo.platform_openai Demo.env_redis_down
                (set_pending [] Demo.world0)).1
             7 Demo.key7 Demo.platform_openai (BalanceFetchResult.mk 70%float true)
             Demo.rule7 RedisError); reflexivity.
  - apply (commit_survives_failed_notification (Demo.under_arq Demo.env_usage_3000)
             Demo.world0
             (fetch_and_persist 7 Demo.key7 Demo.platform_openai
                (Demo.under_arq Demo.env_usage_3000) (set_pending [] Demo.world0)).1
             7 Demo.key7 Demo.platform_openai (BalanceFetchResult.mk 70%float true)
             Demo.rule7 AttributeError); reflexivity.
Defined.

Lemma check_persists_both_or_neither_witness :
  ((check_single_key 7 Demo.env_other_key Demo.world0).2 = Raise InvalidToken /\
   db (check_single_key 7 Demo.env_other_key Demo.world0).1 = Demo.db0) /\
  ((check_single_key 7 Demo.env_timeout Demo.world0).2
     = Raise (TransportError TimeoutException) /\
   db (check_single_key 7 Demo.env_timeout Demo.world0).1 = Demo.db0) /\
  ((check_single_key 7 Demo.env_commit_fails Demo.world0).2 = Raise SQLAlchemyError /\
   db (check_single_key 7 Demo.env_commit_fails Demo.world0).1 = Demo.db0) /\
  ((check_single_key 9 Demo.env_server_error Demo.world0).2
     = Raise (HTTPStatusError 500) /\
   db (check_single_key 9 Demo.env_server_error Demo.world0).1 = Demo.db0).
Proof.
  split; [|split; [|split]].
  - apply (proj1 (proj2 (proj2 (check_persists_both_or_neither
                                  Demo.env_other_key Demo.world0 7))
                    Demo.key7 Demo.platform_openai eq_refl eq_refl)).
    reflexivity.
  - apply (proj1 (proj2 (proj2 (proj2 (check_persists_both_or_neither
                                         Demo.env_timeout Demo.world0 7))
                           Demo.key7 Demo.platform_openai eq_refl eq_refl))).
    reflexivity.
  - apply (proj1 (proj2 (proj2 (proj2 (proj2 (check_persists_both_or_neither
                                                Demo.env_commit_fails Demo.world0 7))
                                  Demo.key7 Demo.platform_openai eq_refl eq_refl)))
             (decrypt_and_fetch Demo.key7 Demo.platform_openai Demo.env_commit_fails
                (set_pending [] Demo.world0)).1
             (BalanceFetchResult.mk 70%float true)); reflexivity.
  - apply (proj2 (proj2 (proj2 (proj2 (proj2 (check_persists_both_or_neither
                                                Demo.env_server_error Demo.world0 9))
                                  Demo.key9 Demo.platform_openrouter eq_refl eq_refl)))
             (fetch_and_persist 9 Demo.key9 Demo.platform_openrouter
                Demo.env_server_error (set_pending [] Demo.world0)).1).
    reflexivity.
Defined.

(** ** The scheduler's fan-out *)

Section Fan_out.
Variable E : env.

Lemma enqueue_job_accepted_run j w :
  enqueue_error E (enqueue_calls w) j = None ->
  enqueue_job j E w = (accepted j w, Ok tt).
Proof. intros H. unfold enqueue_job. rewrite H. reflexivity. Qed.

Lemma enqueue_job_refused_run j e w :
  enqueue_error E (enqueue_calls w) j = Some e ->
  enqueue_job j E w = (refused j w, Raise e).
Proof. intros H. unfold enqueue_job. rewrite H. reflexivity. Qed.

(** While Redis accepts, the loop goes on: every job is queued, in order. *)
Lemma for_each_all_accepted keys : forall w,
  all_accepted E (enqueue_calls w) (check_jobs keys) ->
  (for_each keys enqueue_check E w).2 = Ok tt /\
  queue (for_each keys enqueue_check E w).1 = queue w ++ check_jobs keys /\
  enqueue_calls (for_each keys enqueue_check E w).1 = enqueue_calls w ++ check_jobs keys.
Proof.
  induction keys as [|key keys IH]; intros w; cbn [for_each check_jobs map all_accepted].
  - rewrite !app_nil_r. auto.
  - intros [Hacc Hrest]. rewrite bind_run.
    change (enqueue_check key E w)
      with (enqueue_job (check_single_key_job (ManagedApiKey.id key)) E w).
    rewrite (enqueue_job_accepted_run _ w Hacc). cbv beta iota.
    destruct (IH (accepted (check_single_key_job (ManagedApiKey.id key)) w) Hrest)
      as (H2 & Hq & Hc).
    cbn [accepted queue enqueue_calls] in Hq, Hc.
    rewrite H2, Hq, Hc, <- !app_assoc. auto.
Qed.

(** The first refusal ends the loop: the jobs before it are queued, the
    refused one was tried, the ones after it were not. *)
Lemma for_each_first_refusal pre key post e : forall w,
  all_accepted E (enqueue_calls w) (check_jobs pre) ->
  enqueue_error E (enqueue_calls w ++ check_jobs pre)
    (check_single_key_job (ManagedApiKey.id key)) = Some e ->
  (for_each (pre ++ key :: post) enqueue_check E w).2 = Raise e /\
  queue (for_each (pre ++ key :: post) enqueue_check E w).1 = queue w ++ check_jobs pre /\
  enqueue_calls (for_each (pre ++ key :: post) enqueue_check E w).1
    = enqueue_calls w ++ check_jobs pre
        ++ [check_single_key_job (ManagedApiKey.id key)].
Proof.
  induction pre as [|k pre IH]; intros w;
    cbn [for_each check_jobs map all_accepted app].
  - rewrite !app_nil_r. intros _ Hrej. rewrite bind_run.
    change (enqueue_check key E w)
      with (enqueue_job (check_single_key_job (ManagedApiKey.id key)) E w).
    rewrite (enqueue_job_refused_run _ e w Hrej).
    cbn [fst snd refused queue enqueue_calls]. auto.
  - intros [Hacc Hrest] Hrej. rewrite bind_run.
    change (enqueue_check k E w)
      with (enqueue_job (check_single_key_job (ManagedApiKey.id k)) E w).
    rewrite (enqueue_job_accepted_run _ w Hacc). cbv beta iota.
    destruct (IH (accepted (check_single_key_job (ManagedApiKey.id k)) w) Hrest)
      as (H2 & Hq & Hc).
    { cbn [accepted enqueue_calls]. rewrite <- app_assoc. exact Hrej. }
    cbn [accepted queue enqueue_calls] in Hq, Hc.
    fold (check_jobs pre) in *.
    rewrite H2, Hq, Hc, <- !app_assoc. auto.
Qed.

Lemma schedule_all_key_checks_run w :
  create_pool_error E = None ->
  schedule_all_key_checks E w =
    match for_each (api_keys (db w)) enqueue_check E (set_pending [] w) with
    | (w', r) => (set_pending [] w', r)
    end.
Proof.
  intros Hpool. unfold schedule_all_key_checks, with_Session.
  rewrite bind_run. unfold session_query at 1. cbn [db set_pending].
  rewrite bind_run. unfold create_pool at 1. rewrite Hpool. rewrite bind_run.
  fold enqueue_check.
  destruct (for_each _ enqueue_check E _) as [w' [[]|e]]; reflexivity.
Qed.

End Fan_out.

(** C3, as stated, fails: with three credentials and a Redis that refuses
    the first job only, nothing is queued, and the jobs of the other two,
    which Redis would have accepted, are never tried. *)
Lemma one_refusal_stops_the_fan_out :
  check_jobs (api_keys (db Demo.world0))
    = [check_single_key_job 7; check_single_key_job 8; check_single_key_job 9] /\
  enqueue_error Demo.env_redis_refuses_7 [check_single_key_job 7]
    (check_single_key_job 8) = None /\
  enqueue_error Demo.env_redis_refuses_7 [check_single_key_job 7; check_single_key_job 8]
    (check_single_key_job 9) = None /\
  queue (schedule_all_key_checks Demo.env_redis_refuses_7 Demo.world0).1 = [] /\
  enqueue_calls (schedule_all_key_checks Demo.env_redis_refuses_7 Demo.world0).1
    = [check_single_key_job 7].
Proof. repeat split; reflexivity. Qed.

(** C3, amended: the fan-out enqueues the check jobs in enumeration order
    and stops at the first enqueue that fails.  If none fails, all [N] jobs
    are queued.  If the first to fail is the one of credential [key], the
    jobs of the credentials before it are queued, the failure is raised, and
    no later job is tried; so when only the last enqueue fails, the other
    [N - 1] jobs are queued. *)
Theorem fan_out_enqueues_up_to_first_failure (E : env) (w : world) :
  create_pool_error E = None ->
  let run := schedule_all_key_checks E w in
  let keys := api_keys (db w) in
  (all_accepted E (enqueue_calls w) (check_jobs keys) ->
     run.2 = Ok tt /\ queue run.1 = queue w ++ check_jobs keys) /\
  (forall pre key post e,
     keys = pre ++ key :: post ->
     all_accepted E (enqueue_calls w) (check_jobs pre) ->
     enqueue_error E (enqueue_calls w ++ check_jobs pre)
       (check_single_key_job (ManagedApiKey.id key)) = Some e ->
     run.2 = Raise e /\
     queue run.1 = queue w ++ check_jobs pre /\
     enqueue_calls run.1
       = enqueue_calls w ++ check_jobs pre
           ++ [check_single_key_job (ManagedApiKey.id key)]) /\
  (forall pre key e,
     keys = pre ++ [key] ->
     all_accepted E (enqueue_calls w) (check_jobs pre) ->
     enqueue_error E (enqueue_calls w ++ check_jobs pre)
       (check_single_key_job (ManagedApiKey.id key)) = Some e ->
     queue run.1 = queue w ++ check_jobs pre /\
     length (check_jobs pre) = (length keys - 1)%nat).
Proof.
  intros Hpool run keys. subst run keys.
  rewrite (schedule_all_key_checks_run E w Hpool).
  assert (Hfail : forall pre key post e,
     api_keys (db w) = pre ++ key :: post ->
     all_accepted E (enqueue_calls w) (check_jobs pre) ->
     enqueue_error E (enqueue_calls w ++ check_jobs pre)
       (check_single_key_job (ManagedApiKey.id key)) = Some e ->
     let r := for_each (api_keys (db w)) (enqueue_check) E (set_pending [] w) in
     (set_pending [] r.1, r.2).2 = Raise e /\
     queue (set_pending [] r.1, r.2).1 = queue w ++ check_jobs pre /\
     enqueue_calls (set_pending [] r.1, r.2).1
       = enqueue_calls w ++ check_jobs pre
           ++ [check_single_key_job (ManagedApiKey.id key)]).
  { intros pre key post e Hkeys Hacc Hrej r. subst r. rewrite Hkeys.
    destruct (for_each_first_refusal E pre key post e (set_pending [] w) Hacc Hrej)
      as (H2 & Hq & Hc).
    cbn [fst snd set_pending queue enqueue_calls] in *. auto. }
  split; [|split].
  - intros Hacc.
    destruct (for_each_all_accepted E (api_keys (db w)) (set_pending [] w) Hacc)
      as (H2 & Hq & _).
    destruct (for_each _ enqueue_check E _) as [w' r].
    cbn [fst snd set_pending queue] in *. auto.
  - intros pre key post e Hkeys Hacc Hrej.
    specialize (Hfail pre key post e Hkeys Hacc Hrej).
    destruct (for_each _ enqueue_check E _) as [w' r]. exact Hfail.
  - intros pre key e Hkeys Hacc Hrej.
    specialize (Hfail pre key [] e Hkeys Hacc Hrej).
    destruct (for_each _ enqueue_check E _) as [w' r].
    split; [apply Hfail|].
    rewrite Hkeys. unfold check_jobs. rewrite length_map, length_app. cbn. lia.
Qed.

Lemma fan_out_witness :
  ((schedule_all_key_checks Demo.env_usage_3000 Demo.world0).2 = Ok tt /\
   queue (schedule_all_key_checks Demo.env_usage_3000 Demo.world0).1
     = [check_single_key_job 7; check_single_key_job 8; check_single_key_job 9]) /\
  ((schedule_all_key_checks Demo.env_redis_refuses_8 Demo.world0).2 = Raise RedisError /\
   queue (schedule_all_key_checks Demo.env_redis_refuses_8 Demo.world0).1
     = [check_single_key_job 7] /\
   enqueue_calls (schedule_all_key_checks Demo.env_redis_refuses_8 Demo.world0).1
     = [check_single_key_job 7; check_single_key_job 8]) /\
  (queue (schedule_all_key_checks Demo.env_redis_refuses_9 Demo.world0).1
     = [check_single_key_job 7; check_single_key_job 8] /\
   length [check_single_key_job 7; check_single_key_job 8] = (3 - 1)%nat).
Proof.
  split; [|split].
  - apply (proj1 (fan_out_enqueues_up_to_first_failure
                    Demo.env_usage_3000 Demo.world0 eq_refl)).
    cbn. auto.
  - apply (proj1 (proj2 (fan_out_enqueues_up_to_first_failure
                           Demo.env_redis_refuses_8 Demo.world0 eq_refl))
             [Demo.key7] Demo.key8 [Demo.key9] RedisError eq_refl).
    + cbn. auto.
    + reflexivity.
  - apply (proj2 (proj2 (fan_out_enqueues_up_to_first_failure
                           Demo.env_redis_refuses_9 Demo.world0 eq_refl))
             [Demo.key7; Demo.key8] Demo.key9 RedisError eq_refl).
    + cbn. auto.
    + reflexivity.
Defined.

(** ** What reaches the secret-bearing column *)

Lemma encrypt_frame svc s E w :
  db (EncryptionService.encrypt svc s E w).1 = db w /\
  pending (EncryptionService.encrypt svc s E w).1 = pending w /\
  clock_reads (EncryptionService.encrypt svc s E w).1 = clock_reads w.
Proof.
  unfold EncryptionService.encrypt, bind, lift, draw_nonce.
  destruct (str_encode s); [|auto]. destruct (bytes_decode _); auto.
Qed.

Lemma create_key_db key_data current_user E w :
  db (create_key key_data current_user E w).1 = db w \/
  exists c t1 t2,
    (EncryptionService.encrypt (encryption_service E)
       (ApiKeyCreate.api_key key_data) E (set_pending [] w)).2 = Ok c /\
    db (create_key key_data current_user E w).1
      = registered (db w) (ApiKeyCreate.name key_data)
          (ApiKeyCreate.metadata key_data) (ApiKeyCreate.platform_id key_data)
          (User.id current_user) c t1 t2.
Proof.
  remember (create_key key_data current_user E w) as run eqn:Hrun.
  unfold create_key, with_Session in Hrun.
  rewrite bind_run in Hrun. unfold session_query at 1 in Hrun.
  cbn [db set_pending] in Hrun.
  destruct (select_platform _ (db w)) as [p|]; [|subst run; left; reflexivity].
  rewrite bind_run in Hrun. cbn [ask] in Hrun. rewrite bind_run in Hrun.
  destruct (encrypt_frame (encryption_service E) (ApiKeyCreate.api_key key_data) E
              (set_pending [] w)) as (Hdb & Hpe & _).
  destruct (EncryptionService.encrypt _ _ E _) as [w1 [c|e]];
    cbn [fst snd set_pending db pending] in *; [|subst run; left; exact Hdb].
  unfold bind, utcnow, session_add, session_commit, session_refresh_new_key,
    set_pending, set_db in Hrun.
  cbn [db pending http_log enqueue_calls queue clock_reads nonces_drawn] in Hrun.
  rewrite Hpe, Hdb in Hrun. cbn [app] in Hrun.
  destruct (commit_error E _ _); [subst run; left; reflexivity|].
  right. exists c, (utcnow_at E (clock_reads w1)), (utcnow_at E (S (clock_reads w1))).
  split; [reflexivity|]. subst run.
  match goal with |- context [last ?l] => destruct (last l) end; reflexivity.
Qed.

Lemma secret_fields_persisted d key_id b t1 t2 :
  secret_fields (persisted d key_id b t1 t2) = secret_fields d.
Proof.
  unfold secret_fields, persisted. cbn [api_keys]. rewrite map_map.
  apply map_ext. intros k. destruct (ManagedApiKey.id k =? key_id); reflexivity.
Qed.

Lemma secret_fields_registered d name metadata platform_id user_id c t1 t2 :
  secret_fields (registered d name metadata platform_id user_id c t1 t2)
    = secret_fields d ++ [c].
Proof. unfold secret_fields, registered. cbn [api_keys]. apply map_app. Qed.

Lemma check_single_key_secret_fields E w key_id :
  secret_fields (db (check_single_key key_id E w).1) = secret_fields (db w).
Proof.
  destruct (check_single_key_db E w key_id) as [->|(b & t1 & t2 & ->)];
    [reflexivity|apply secret_fields_persisted].
Qed.

Lemma encrypt_is_ciphertext_of E w s c :
  (EncryptionService.encrypt (encryption_service E) s E w).2 = Ok c ->
  is_ciphertext_of E s c.
Proof.
  intros H. destruct (encrypt_Ok_token _ E w s c H) as (plain & Hs & Hc).
  exists (fernet_nonce E (nonces_drawn w)), plain. auto.
Qed.

(** A token is not the text it was issued for: it is longer. *)
Lemma ciphertext_differs E s c :
  FernetExpands (EncryptionService.fernet (encryption_service E)) ->
  is_ciphertext_of E s c -> c <> s.
Proof.
  intros [Hlong] (n & plain & Hs & Hc) ->. rewrite Hs in Hc. injection Hc as Hc.
  pose proof (Hlong n plain) as H.
  assert (length plain
          = length (Fernet_encrypt (EncryptionService.fernet (encryption_service E))
                      n plain)) as Heq by (f_equal; exact Hc).
  lia.
Qed.

Lemma ciphertext_hides E s c :
  FernetContract (EncryptionService.fernet (encryption_service E)) ->
  FernetExpands (EncryptionService.fernet (encryption_service E)) ->
  is_ciphertext_of E s c -> hides_its_plaintext E c.
Proof.
  intros [Hinv _] Hlong Hc. split; [exists s; exact Hc|].
  intros s' E' w' Hdec.
  destruct Hc as (n & plain & Hs & Hc).
  destruct (decrypt_Ok_inv _ E' w' c s' Hdec) as (tok & plain' & H1 & H2 & H3).
  rewrite Hc in H1. injection H1 as <-.
  pose proof (Hinv n plain (Utf8Facts.encode_bytes s plain Hs)) as Hi.
  assert (Some plain' = Some plain) as Hpp
      by (etransitivity; [symmetry; exact H2|exact Hi]).
  injection Hpp as ->.
  apply (ciphertext_differs E s' c Hlong).
  exists n, plain. split; [apply Utf8Facts.encode_decode, H3|exact Hc].
Qed.

(** C9: for a [Fernet] that keeps the library's contract and whose tokens
    are longer than their plaintexts: registration either stores nothing
    or stores one more credential whose secret-bearing field is what the
    encryption service returned for the submitted secret, a token issued
    under the master key for that secret and not the secret itself, next to
    the name, metadata, owner, platform and timestamps; the check job
    leaves the secret-bearing field of every credential as it was and
    writes, if anything, a balance and clock readings; hence along any
    history of registrations and checks every stored secret-bearing field is
    a token of the master key that differs from whatever text it decrypts
    to, provided that held at the start. *)
Theorem only_ciphertext_is_persisted (E : env) (w : world) :
  FernetContract (EncryptionService.fernet (encryption_service E)) ->
  FernetExpands (EncryptionService.fernet (encryption_service E)) ->
  (forall key_data current_user,
     let run := create_key key_data current_user E w in
     db run.1 = db w \/
     exists c t1 t2,
       (EncryptionService.encrypt (encryption_service E)
          (ApiKeyCreate.api_key key_data) E (set_pending [] w)).2 = Ok c /\
       is_ciphertext_of E (ApiKeyCreate.api_key key_data) c /\
       c <> ApiKeyCreate.api_key key_data /\
       db run.1 = registered (db w) (ApiKeyCreate.name key_data)
          (ApiKeyCreate.metadata key_data) (ApiKeyCreate.platform_id key_data)
          (User.id current_user) c t1 t2) /\
  (forall key_id,
     let run := check_single_key key_id E w in
     secret_fields (db run.1) = secret_fields (db w) /\
     (db run.1 = db w \/
      exists b t1 t2, db run.1 = persisted (db w) key_id b t1 t2)) /\
  (forall ops,
     Forall (hides_its_plaintext E) (secret_fields (db w)) ->
     Forall (hides_its_plaintext E) (secret_fields (db (run_store_ops E ops w)))).
Proof.
  intros Hcontract Hlong. split; [|split].
  - intros key_data current_user run. subst run.
    destruct (create_key_db key_data current_user E w)
      as [H|(c & t1 & t2 & Hc & H)]; [left; exact H|right].
    pose proof (encrypt_is_ciphertext_of _ _ _ _ Hc) as Hof.
    exists c, t1, t2. split; [exact Hc|]. split; [exact Hof|].
    split; [exact (ciphertext_differs _ _ _ Hlong Hof)|exact H].
  - intros key_id run. split;
      [apply check_single_key_secret_fields|apply check_single_key_db].
  - intros ops. revert w. induction ops as [|o ops IH]; intros w Hinv; [exact Hinv|].
    cbn [run_store_ops fold_left]. apply IH. destruct o as [key_data current_user|key_id];
      cbn [run_store_op].
    + destruct (create_key_db key_data current_user E w)
        as [->|(c & t1 & t2 & Hc & ->)]; [exact Hinv|].
      rewrite secret_fields_registered. apply Forall_app. split; [exact Hinv|].
      constructor; [|constructor].
      apply (ciphertext_hides E (ApiKeyCreate.api_key key_data) c Hcontract Hlong).
      apply (encrypt_is_ciphertext_of _ _ _ _ Hc).
    + rewrite check_single_key_secret_fields. exact Hinv.
Qed.

Lemma demo_token_A_of_secret (E : env) :
  EncryptionService.fernet (encryption_service E) = Demo.toy_Fernet Demo.key_A ->
  is_ciphertext_of E Demo.secret Demo.token_A.
Proof.
  intros Hf. exists (0, []), Demo.secret. rewrite Hf. split; reflexivity.
Qed.

Lemma only_ciphertext_is_persisted_witness :
  (exists c,
      is_ciphertext_of Demo.env_usage_3000 Demo.secret c /\
      c <> Demo.secret /\
      secret_fields (db (create_key Demo.new_key_request Demo.user1
                           Demo.env_usage_3000 Demo.world0).1)
        = secret_fields Demo.db0 ++ [c]) /\
  Forall (hides_its_plaintext Demo.env_usage_3000)
    (secret_fields
       (db (run_store_ops Demo.env_usage_3000
              [CreateKey Demo.new_key_request Demo.user1; CheckSingleKey 7;
               CheckSingleKey 10]
              Demo.world0))).
Proof.
  pose proof (DemoFacts.toy_Fernet_contract Demo.key_A DemoFacts.key_A_bytes) as HA.
  pose proof (DemoFacts.toy_Fernet_expands Demo.key_A) as HA'.
  split.
  - destruct (proj1 (only_ciphertext_is_persisted Demo.env_usage_3000 Demo.world0
                       HA HA') Demo.new_key_request Demo.user1)
      as [Hsame|(c & t1 & t2 & _ & Hof & Hne & Hdb)].
    + apply (f_equal (fun d => length (api_keys d))) in Hsame.
      vm_compute in Hsame. discriminate.
    + exists c. split; [exact Hof|]. split; [exact Hne|].
      rewrite Hdb. apply secret_fields_registered.
  - apply (proj2 (proj2 (only_ciphertext_is_persisted Demo.env_usage_3000 Demo.world0
                           HA HA'))).
    repeat constructor;
      apply (ciphertext_hides Demo.env_usage_3000 Demo.secret Demo.token_A HA HA'),
            demo_token_A_of_secret; reflexivity.
Defined.

(** The registered row, in full. *)
Example create_key_stores_the_token :
  api_keys (db (create_key Demo.new_key_request Demo.user1
                  Demo.env_usage_3000 Demo.world0).1)
    = [Demo.key7; Demo.key8; Demo.key9;
       ManagedApiKey.mk 10 "fresh" Demo.token_A ∅ None None 1 1 1000 1001].
Proof. reflexivity. Qed.

(** * Further properties *)

(** ** The adapter factory and the adapters *)

Lemma _adapters_lookup ident :
  AdapterFactory._adapters !! ident =
    if decide (ident = "openrouter"%string) then Some OpenRouterAdapter
    else if decide (ident = "openai"%string) then Some OpenAIUsageAdapter
    else None.
Proof.
  unfold AdapterFactory._adapters.
  destruct (decide (ident = "openrouter"%string)) as [->|H1].
  { apply lookup_insert_eq. }
  rewrite lookup_insert_ne by congruence.
  destruct (decide (ident = "openai"%string)) as [->|H2].
  { apply lookup_insert_eq. }
  rewrite lookup_insert_ne by congruence. apply lookup_empty.
Qed.

Lemma create_adapter_api_key ident api_key metadata a :
  AdapterFactory.create_adapter ident api_key metadata = Ok a ->
  BalanceAdapter.api_key a = api_key.
Proof.
  unfold AdapterFactory.create_adapter. case_match; intros [= <-]; reflexivity.
Qed.

(** X1: the factory resolves exactly the two registered identifiers,
    compared as they are written (no case folding): ["openrouter"] gives an
    OpenRouter adapter and ["openai"] an OpenAI usage adapter, each holding
    the key it was given and the metadata, with a missing metadata read as
    the empty dictionary; every other identifier raises [ValueError]. *)
Theorem create_adapter_resolves_registered_only
    (ident : string) (api_key : pystr) (metadata : option (gmap string pyval)) :
  (ident = "openrouter"%string ->
     AdapterFactory.create_adapter ident api_key metadata
       = Ok (BalanceAdapter.mk OpenRouterAdapter api_key (from_option id ∅ metadata))) /\
  (ident = "openai"%string ->
     AdapterFactory.create_adapter ident api_key metadata
       = Ok (BalanceAdapter.mk OpenAIUsageAdapter api_key (from_option id ∅ metadata))) /\
  (ident <> "openrouter"%string -> ident <> "openai"%string ->
     AdapterFactory.create_adapter ident api_key metadata = Raise ValueError) /\
  (forall a, AdapterFactory.create_adapter ident api_key metadata = Ok a ->
     BalanceAdapter.api_key a = api_key /\
     BalanceAdapter.metadata a = from_option id ∅ metadata).
Proof.
  unfold AdapterFactory.create_adapter. rewrite _adapters_lookup.
  split; [|split; [|split]].
  - intros ->. reflexivity.
  - intros ->. reflexivity.
  - intros H1 H2. rewrite !decide_False by assumption. reflexivity.
  - intros a. repeat case_decide; intros [= <-]; split; reflexivity.
Qed.

Lemma create_adapter_resolves_witness :
  AdapterFactory.create_adapter "openai" Demo.secret None
    = Ok (BalanceAdapter.mk OpenAIUsageAdapter Demo.secret ∅) /\
  AdapterFactory.create_adapter "OpenAI" Demo.secret None = Raise ValueError.
Proof.
  split.
  - apply (proj1 (proj2 (create_adapter_resolves_registered_only
                           "openai" Demo.secret None))).
    reflexivity.
  - apply (proj1 (proj2 (proj2 (create_adapter_resolves_registered_only
                                  "OpenAI" Demo.secret None))));
      discriminate.
Defined.

Lemma openrouter_world self E w :
  (OpenRouter.fetch_balance self E w).1 = w \/
  (OpenRouter.fetch_balance self E w).1 = sent (credits_request self) w.
Proof.
  unfold OpenRouter.fetch_balance, bind, client_get, lift, float_, ret.
  fold (credits_request self). unfold sent.
  repeat case_match; simplify_eq; cbn [fst]; auto.
Qed.


Lemma openai_world self E w :
  (OpenAI.fetch_balance self E w).1 = w \/
  (OpenAI.fetch_balance self E w).1 = sent (usage_request self) w.
Proof.
  unfold OpenAI.fetch_balance, try_except, bind, client_get, lift, float_, ret, raise.
  fold (usage_request self). unfold sent.
  repeat case_match; simplify_eq; cbn [fst]; auto.
Qed.


Lemma fetch_balance_world adapter E w :
  (fetch_balance adapter E w).1 = w \/
  (fetch_balance adapter E w).1 = sent (request_of adapter) w.
Proof.
  unfold fetch_balance, request_of. destruct (BalanceAdapter.cls adapter).
  - apply openrouter_world.
  - apply openai_world.
Qed.

Lemma fetch_balance_log adapter E w :
  http_log (fetch_balance adapter E w).1 = http_log w \/
  http_log (fetch_balance adapter E w).1 = http_log w ++ [request_of adapter].
Proof.
  destruct (fetch_balance_world adapter E w) as [->| ->]; [left|right]; reflexivity.
Qed.



(** X3: whether a result is an estimate is fixed by the adapter's class:
    every result of the OpenRouter adapter is exact, every result of the
    OpenAI usage adapter is an estimate, the grant returned on a fallback
    included. *)
Theorem fetch_balance_estimate_flag
    (adapter : BalanceAdapter.t) (E : env) (w : world) (res : BalanceFetchResult.t) :
  (fetch_balance adapter E w).2 = Ok res ->
  BalanceFetchResult.is_estimate res = estimate_of (BalanceAdapter.cls adapter).
Proof.
  unfold fetch_balance. destruct (BalanceAdapter.cls adapter); cbn [estimate_of].
  - unfold OpenRouter.fetch_balance, bind, client_get, lift, float_, ret.
    repeat case_match; simplify_eq; cbn [snd]; intros [= <-]; reflexivity.
  - unfold OpenAI.fetch_balance, try_except, bind, client_get, lift, float_, ret, raise.
    repeat case_match; simplify_eq; cbn [snd]; intros [= <-]; reflexivity.
Qed.

Lemma fetch_balance_estimate_flag_witness :
  BalanceFetchResult.is_estimate (BalanceFetchResult.mk 70%float true)
    = estimate_of (BalanceAdapter.cls Demo.openai_adapter).
Proof.
  apply (fetch_balance_estimate_flag Demo.openai_adapter Demo.env_usage_3000
           Demo.world0 (BalanceFetchResult.mk 70%float true)).
  reflexivity.
Defined.

Lemma py_float_never_status ff v st : py_float ff v <> Raise (HTTPStatusError st).
Proof. destruct v; cbn; repeat case_match; discriminate. Qed.

(** X4: the OpenAI usage adapter never lets an HTTP status error out: an
    exception it raises is not one that [except httpx.HTTPStatusError]
    matches. *)
Theorem openai_adapter_never_raises_a_status_error
    (self : BalanceAdapter.t) (E : env) (w : world) (e : exn) :
  (OpenAI.fetch_balance self E w).2 = Raise e ->
  except_HTTPStatusError e = false.
Proof.
  destruct e; try reflexivity. intros H. exfalso. revert H.
  unfold OpenAI.fetch_balance, try_except, bind, client_get, lift, float_, ret, raise.
  repeat case_match; simplify_eq; cbn [snd]; try discriminate;
    try (intros [= ->]; cbn in *; discriminate);
    try (match goal with H : py_float _ _ = Raise _ |- _ =>
           intros [= ->]; eapply py_float_never_status, H end).
  all: unfold except_HTTPStatusError, response_json, py_get in *;
    repeat case_match; simplify_eq.
Qed.

Lemma openai_adapter_never_raises_a_status_error_witness :
  except_HTTPStatusError (TransportError TimeoutException) = false.
Proof.
  apply (openai_adapter_never_raises_a_status_error
           Demo.openai_adapter Demo.env_timeout Demo.world0).
  reflexivity.
Defined.

(** ** The endpoints of the keys router *)

Lemma test_key_run test_data current_user E w :
  test_key test_data current_user E w =
    match select_platform (ApiKeyTestRequest.platform_id test_data) (db w) with
    | None => (set_pending [] w, Raise (HTTPException 404))
    | Some platform =>
        match AdapterFactory.create_adapter
                (PlatformProvider.adapter_identifier platform)
                (ApiKeyTestRequest.api_key test_data)
                (Some (from_option id ∅ (ApiKeyTestRequest.metadata test_data))) with
        | Raise _ => (set_pending [] w, Raise (HTTPException 400))
        | Ok adapter =>
            match fetch_balance adapter E (set_pending [] w) with
            | (w1, Ok result) => (set_pending [] w1, Ok result)
            | (w1, Raise _) => (set_pending [] w1, Raise (HTTPException 400))
            end
        end
    end.
Proof.
  unfold test_key, with_Session. rewrite bind_run. unfold session_query.
  cbn [db set_pending].
  destruct (select_platform _ (db w)) as [p|]; [|reflexivity].
  rewrite try_except_run, bind_run.
  destruct (AdapterFactory.create_adapter _ _ _) as [a|e0]; [|reflexivity].
  cbn [lift]. rewrite bind_run.
  destruct (fetch_balance a E _) as [w1 [res|e1]]; reflexivity.
Qed.

(** X5: testing a key stores and enqueues nothing and draws no nonce; an
    unknown platform is answered 404 before any request goes out; every
    other failure, of the factory or of the adapter, is answered 400; and at
    most one request is sent, the one of an adapter holding the submitted
    key. *)
Theorem test_key_stores_nothing_and_answers_404_or_400
    (test_data : ApiKeyTestRequest.t) (current_user : User.t) (E : env) (w : world) :
  let run := test_key test_data current_user E w in
  (db run.1 = db w /\ enqueue_calls run.1 = enqueue_calls w /\ queue run.1 = queue w /\
   nonces_drawn run.1 = nonces_drawn w) /\
  (select_platform (ApiKeyTestRequest.platform_id test_data) (db w) = None ->
     run.2 = Raise (HTTPException 404) /\ http_log run.1 = http_log w) /\
  (forall e, run.2 = Raise e ->
     e = HTTPException 404 /\
       select_platform (ApiKeyTestRequest.platform_id test_data) (db w) = None
     \/ e = HTTPException 400 /\
       select_platform (ApiKeyTestRequest.platform_id test_data) (db w) <> None) /\
  (http_log run.1 = http_log w \/
   exists adapter,
     BalanceAdapter.api_key adapter = ApiKeyTestRequest.api_key test_data /\
     http_log run.1 = http_log w ++ [request_of adapter]).
Proof.
  intros run. pose proof (test_key_run test_data current_user E w) as Hrun.
  fold run in Hrun. clearbody run.
  destruct (select_platform _ (db w)) as [p|] eqn:Hp.
  - destruct (AdapterFactory.create_adapter _ _ _) as [a|e0] eqn:Ha.
    + pose proof (keeps_fetch_balance db a blind_db E (set_pending [] w)) as Hdb.
      pose proof (keeps_fetch_balance enqueue_calls a blind_enqueue_calls E
                    (set_pending [] w)) as Hec.
      pose proof (keeps_fetch_balance queue a blind_queue E (set_pending [] w)) as Hq.
      pose proof (keeps_fetch_balance nonces_drawn a (fun _ _ => eq_refl) E
                    (set_pending [] w)) as Hn.
      pose proof (fetch_balance_log a E (set_pending [] w)) as Hl.
      apply create_adapter_api_key in Ha.
      destruct (fetch_balance a E (set_pending [] w)) as [w1 [res|e1]]; subst run;
        cbn [fst snd db set_pending enqueue_calls queue nonces_drawn http_log] in *.
      * split; [auto|]. split; [discriminate|]. split; [discriminate|].
        destruct Hl as [Hl|Hl]; [left; exact Hl | right; exists a; auto].
      * split; [auto|]. split; [discriminate|]. split.
        -- intros e [= <-]. right. split; [reflexivity|discriminate].
        -- destruct Hl as [Hl|Hl]; [left; exact Hl | right; exists a; auto].
    + subst run. cbn. split; [auto|]. split; [discriminate|]. split; [|auto].
      intros e [= <-]. right. split; [reflexivity|discriminate].
  - subst run. cbn. split; [auto|]. split; [auto|]. split; [|auto].
    intros e [= <-]. left. auto.
Qed.

Lemma test_key_witness :
  (test_key Demo2.test_request_no_platform Demo.user1
     Demo.env_usage_3000 Demo.world0).2 = Raise (HTTPException 404) /\
  http_log (test_key Demo2.test_request_no_platform Demo.user1
              Demo.env_usage_3000 Demo.world0).1 = http_log Demo.world0.
Proof.
  apply (proj1 (proj2 (test_key_stores_nothing_and_answers_404_or_400
           Demo2.test_request_no_platform Demo.user1
           Demo.env_usage_3000 Demo.world0))).
  reflexivity.
Defined.

Lemma select_owned_key_spec key_id user_id d k :
  select_owned_key key_id user_id d = Some k ->
  In k (api_keys d) /\ ManagedApiKey.id k = key_id /\ ManagedApiKey.user_id k = user_id.
Proof.
  unfold select_owned_key. intros H. apply find_some in H as [Hin H].
  apply andb_true_iff in H as [H1 H2]. apply Z.eqb_eq in H1, H2. auto.
Qed.

Lemma trigger_check_run key_id current_user E w :
  trigger_check key_id current_user E w =
    let j := check_single_key_job key_id in
    match select_owned_key key_id (User.id current_user) (db w) with
    | None => (set_pending [] w, Raise (HTTPException 404))
    | Some _ =>
        match create_pool_error E with
        | Some _ => (set_pending [] w, Raise (HTTPException 500))
        | None =>
            match enqueue_error E (enqueue_calls w) j with
            | Some _ => (set_pending [] (refused j w), Raise (HTTPException 500))
            | None => (set_pending [] (accepted j w), Ok key_id)
            end
        end
    end.
Proof.
  unfold trigger_check, with_Session. rewrite bind_run. unfold session_query.
  cbn [db set_pending].
  destruct (select_owned_key _ _ (db w)) as [k|]; [|reflexivity].
  rewrite try_except_run.
  unfold bind, create_pool, enqueue_job, ret, raise, except_Exception, accepted, refused,
    set_pending.
  destruct (create_pool_error E) as [e0|]; [reflexivity|]. cbn.
  destruct (enqueue_error E (enqueue_calls w) _) as [e1|]; reflexivity.
Qed.

(** X6: a manual check is enqueued for the owner only: for a credential
    that does not exist or belongs to another user the answer is 404 and
    Redis is not called; for the owner's credential exactly one job is
    offered to Redis once the pool exists, the check of that credential, and
    any failure is answered 500; the answer is the key id only when that job
    is in the queue.  The database and the log of requests are not touched. *)
Theorem trigger_check_enqueues_for_the_owner_only
    (key_id : Z) (current_user : User.t) (E : env) (w : world) :
  let run := trigger_check key_id current_user E w in
  db run.1 = db w /\ http_log run.1 = http_log w /\
  (select_owned_key key_id (User.id current_user) (db w) = None ->
     run.2 = Raise (HTTPException 404) /\
     enqueue_calls run.1 = enqueue_calls w /\ queue run.1 = queue w) /\
  (select_owned_key key_id (User.id current_user) (db w) <> None ->
     enqueue_calls run.1 =
       match create_pool_error E with
       | Some _ => enqueue_calls w
       | None => enqueue_calls w ++ [check_single_key_job key_id]
       end /\
     (forall e, run.2 = Raise e -> e = HTTPException 500)) /\
  (forall r, run.2 = Ok r ->
     r = key_id /\ queue run.1 = queue w ++ [check_single_key_job key_id]).
Proof.
  intros run. pose proof (trigger_check_run key_id current_user E w) as Hrun.
  fold run in Hrun. clearbody run. cbv zeta in Hrun.
  destruct (select_owned_key _ _ (db w)) as [k|].
  - destruct (create_pool_error E) as [e0|];
      [|destruct (enqueue_error E (enqueue_calls w) _) as [e1|]];
      subst run; cbn.
    all: split; [reflexivity|]; split; [reflexivity|]; split; [discriminate|]; split;
      [ intros _; split; [reflexivity|]; intros e He; try discriminate; congruence
      | intros r Hr; try discriminate; injection Hr as <-; auto ].
  - subst run. cbn.
    split; [reflexivity|]. split; [reflexivity|]. split; [auto|].
    split; [congruence|discriminate].
Qed.

Lemma trigger_check_witness :
  ((trigger_check 7 Demo2.user2 Demo.env_usage_3000 Demo2.world1).2
     = Raise (HTTPException 404) /\
   enqueue_calls (trigger_check 7 Demo2.user2 Demo.env_usage_3000 Demo2.world1).1
     = enqueue_calls Demo2.world1 /\
   queue (trigger_check 7 Demo2.user2 Demo.env_usage_3000 Demo2.world1).1
     = queue Demo2.world1) /\
  (7 = 7 /\
   queue (trigger_check 7 Demo.user1 Demo.env_usage_3000 Demo2.world1).1
     = queue Demo2.world1 ++ [check_single_key_job 7]).
Proof.
  split.
  - apply (proj1 (proj2 (proj2 (trigger_check_enqueues_for_the_owner_only
             7 Demo2.user2 Demo.env_usage_3000 Demo2.world1)))).
    reflexivity.
  - apply (proj2 (proj2 (proj2 (proj2 (trigger_check_enqueues_for_the_owner_only
             7 Demo.user1 Demo.env_usage_3000 Demo2.world1)))) 7).
    reflexivity.
Defined.

Lemma select_history_sorted key_id d :
  StronglySorted later_first (select_history key_id d).
Proof.
  unfold select_history. apply StronglySorted_merge_sort.
  - intros a b c. unfold later_first. lia.
  - intros a b. unfold later_first. lia.
Qed.

Lemma select_history_perm key_id d :
  select_history key_id d ≡ₚ
    List.filter (fun l => BalanceLog.key_id l =? key_id) (balance_logs d).
Proof. unfold select_history. apply merge_sort_Permutation. Qed.

Lemma get_balance_history_run key_id current_user E w :
  get_balance_history key_id current_user E w =
    match select_owned_key key_id (User.id current_user) (db w) with
    | None => (set_pending [] w, Raise (HTTPException 404))
    | Some _ => (set_pending [] w, Ok (select_history key_id (db w)))
    end.
Proof.
  unfold get_balance_history, with_Session. rewrite bind_run. unfold session_query.
  cbn [db set_pending].
  destruct (select_owned_key _ _ (db w)); reflexivity.
Qed.

(** X7: the balance history is given to the owner only, and latest first:
    for a credential that does not exist or belongs to another user the
    answer is 404; a list that is returned is for a credential of the
    caller, holds exactly the stored records of that credential, each as
    often as it is stored, and every record in it is at least as late as
    all that follow it.  Nothing is written. *)
Theorem balance_history_is_the_owners_and_latest_first
    (key_id : Z) (current_user : User.t) (E : env) (w : world) :
  let run := get_balance_history key_id current_user E w in
  db run.1 = db w /\
  (select_owned_key key_id (User.id current_user) (db w) = None ->
     run.2 = Raise (HTTPException 404)) /\
  (forall logs, run.2 = Ok logs ->
     (exists k, In k (api_keys (db w)) /\ ManagedApiKey.id k = key_id /\
                ManagedApiKey.user_id k = User.id current_user) /\
     StronglySorted later_first logs /\
     logs ≡ₚ List.filter (fun l => BalanceLog.key_id l =? key_id)
               (balance_logs (db w)) /\
     (forall l, In l logs <->
                In l (balance_logs (db w)) /\ BalanceLog.key_id l = key_id)).
Proof.
  intros run. pose proof (get_balance_history_run key_id current_user E w) as Hrun.
  fold run in Hrun. clearbody run.
  destruct (select_owned_key _ _ (db w)) as [k|] eqn:Hk; subst run;
    cbn [fst snd db set_pending].
  - split; [reflexivity|]. split; [discriminate|].
    intros logs [= <-]. split; [|split; [|split]].
    + exists k. apply select_owned_key_spec, Hk.
    + apply select_history_sorted.
    + apply select_history_perm.
    + intros l. rewrite (select_history_perm key_id (db w)).
      rewrite filter_In, Z.eqb_eq. reflexivity.
  - split; [reflexivity|]. split; [auto|]. discriminate.
Qed.

Lemma balance_history_witness :
  (get_balance_history 7 Demo2.user2 Demo.env_usage_3000 Demo2.world1).2
    = Raise (HTTPException 404) /\
  StronglySorted later_first [Demo2.log3; Demo2.log1].
Proof.
  split.
  - apply (proj1 (proj2 (balance_history_is_the_owners_and_latest_first
             7 Demo2.user2 Demo.env_usage_3000 Demo2.world1))).
    reflexivity.
  - apply (proj2 (proj2 (balance_history_is_the_owners_and_latest_first
             7 Demo.user1 Demo.env_usage_3000 Demo2.world1))
             [Demo2.log3; Demo2.log1]).
    reflexivity.
Defined.

(** ** The encryption service, continued *)

Lemma encode_cp_Some_scalar c b : Utf8.encode_cp c = Some b -> Utf8.is_scalar c.
Proof.
  unfold Utf8.encode_cp, Utf8.is_scalar, Utf8.is_surrogate.
  repeat case_match; try discriminate; intros _; lia.
Qed.

Lemma encode_Some_scalar s : forall b, Utf8.encode s = Some b -> Forall Utf8.is_scalar s.
Proof.
  induction s as [|c s IH]; intros b; cbn [Utf8.encode]; [constructor|].
  destruct (Utf8.encode_cp c) as [bc|] eqn:Hc; [|discriminate].
  destruct (Utf8.encode s) as [bs|]; [|discriminate].
  intros _. constructor; [eapply encode_cp_Some_scalar, Hc|eapply IH; reflexivity].
Qed.

Lemma encrypt_Ok_inv svc s E w token :
  FernetContract (EncryptionService.fernet svc) ->
  (EncryptionService.encrypt svc s E w).2 = Ok token ->
  exists plain,
    Utf8.encode s = Some plain /\
    token = Fernet_encrypt (EncryptionService.fernet svc)
              (fernet_nonce E (nonces_drawn w)) plain /\
    Forall Utf8.is_ascii token.
Proof.
  intros [_ Hascii].
  destruct (Utf8.encode s) as [plain|] eqn:Hplain.
  - rewrite (encrypt_run svc E w s plain Hplain). cbn [snd]. unfold bytes_decode.
    pose proof (Hascii (fernet_nonce E (nonces_drawn w)) plain
                  (Utf8Facts.encode_bytes s plain Hplain)) as Ha.
    rewrite (Utf8Facts.decode_ascii _ Ha). intros [= <-]. eauto.
  - unfold EncryptionService.encrypt, bind, lift, str_encode. rewrite Hplain.
    discriminate.
Qed.

Lemma decrypt_encrypted svc s E w token :
  FernetContract (EncryptionService.fernet svc) ->
  (EncryptionService.encrypt svc s E w).2 = Ok token ->
  forall E' w', EncryptionService.decrypt svc token E' w' = (w', Ok s).
Proof.
  intros HF Henc E' w'.
  destruct (encrypt_Ok_inv svc s E w token HF Henc) as (plain & Hplain & -> & Ha).
  destruct HF as [Hinv _].
  rewrite (decrypt_run svc E' w' _ _ (Utf8Facts.encode_ascii _ Ha)).
  rewrite (Hinv _ plain (Utf8Facts.encode_bytes s plain Hplain)). unfold bytes_decode.
  rewrite (Utf8Facts.decode_encode s plain Hplain). reflexivity.
Qed.

(** X9: for a service whose [Fernet] keeps the library's contract,
    [encrypt] succeeds exactly on text that UTF-8 can encode: for such a
    text it draws one IV and returns an ASCII token; for a text holding a
    lone surrogate or a value outside the code space it raises
    [UnicodeEncodeError] and draws nothing.  Either way it touches neither
    the database, nor the log of requests, nor the queue. *)
Theorem encrypt_draws_one_nonce_or_rejects_the_text
    (svc : EncryptionService.t) (s : pystr) (E : env) (w : world) :
  FernetContract (EncryptionService.fernet svc) ->
  let run := EncryptionService.encrypt svc s E w in
  (Forall Utf8.is_scalar s ->
     (exists token, run.2 = Ok token /\ Forall Utf8.is_ascii token) /\
     nonces_drawn run.1 = S (nonces_drawn w)) /\
  (~ Forall Utf8.is_scalar s -> run = (w, Raise UnicodeEncodeError)) /\
  db run.1 = db w /\ http_log run.1 = http_log w /\ queue run.1 = queue w.
Proof.
  intros HF run. subst run.
  destruct (Utf8.encode s) as [plain|] eqn:Hplain.
  - pose proof (encode_Some_scalar s plain Hplain) as Hs.
    rewrite (encrypt_run svc E w s plain Hplain).
    cbn [fst snd draw_nonce nonces_drawn db http_log queue].
    destruct HF as [_ Hascii].
    pose proof (Hascii (fernet_nonce E (nonces_drawn w)) plain
                  (Utf8Facts.encode_bytes s plain Hplain)) as Ha.
    unfold bytes_decode. rewrite (Utf8Facts.decode_ascii _ Ha).
    split; [|split; [|auto]].
    + intros _. split; [eauto|reflexivity].
    + intros Hn. contradiction.
  - unfold EncryptionService.encrypt, bind, lift, str_encode. rewrite Hplain.
    cbn [fst snd]. split; [|split; [|auto]].
    + intros Hs. destruct (Utf8Facts.encode_total s Hs) as [b Hb]. congruence.
    + reflexivity.
Qed.

Lemma encrypt_draws_one_nonce_witness :
  (exists token,
      (EncryptionService.encrypt (encryption_service Demo.env_usage_3000)
         Demo.secret Demo.env_usage_3000 Demo.world0).2 = Ok token /\
      Forall Utf8.is_ascii token) /\
  nonces_drawn (EncryptionService.encrypt (encryption_service Demo.env_usage_3000)
                  Demo.secret Demo.env_usage_3000 Demo.world0).1
    = S (nonces_drawn Demo.world0).
Proof.
  apply (proj1 (encrypt_draws_one_nonce_or_rejects_the_text
                  (encryption_service Demo.env_usage_3000) Demo.secret
                  Demo.env_usage_3000 Demo.world0
                  (DemoFacts.toy_Fernet_contract Demo.key_A DemoFacts.key_A_bytes))).
  exact DemoFacts.secret_scalar.
Defined.

(** X10: under one key, two texts never share a token: if [encrypt]
    returned the same token for [s1] and for [s2], at whatever times and
    with whatever IVs, then [s1 = s2]. *)
Theorem encrypt_is_injective
    (svc : EncryptionService.t) (s1 s2 token : pystr) (E1 E2 : env) (w1 w2 : world) :
  FernetContract (EncryptionService.fernet svc) ->
  (EncryptionService.encrypt svc s1 E1 w1).2 = Ok token ->
  (EncryptionService.encrypt svc s2 E2 w2).2 = Ok token ->
  s1 = s2.
Proof.
  intros HF H1 H2.
  pose proof (decrypt_encrypted svc s1 E1 w1 token HF H1 E1 w1) as D1.
  pose proof (decrypt_encrypted svc s2 E2 w2 token HF H2 E1 w1) as D2.
  congruence.
Qed.

Lemma encrypt_is_injective_witness : Demo.secret = Demo.secret.
Proof.
  apply (encrypt_is_injective (encryption_service Demo.env_usage_3000)
           Demo.secret Demo.secret Demo.token_A
           Demo.env_usage_3000 Demo.env_timeout Demo.world0 Demo2.world1
           (DemoFacts.toy_Fernet_contract Demo.key_A DemoFacts.key_A_bytes));
    reflexivity.
Defined.

(** ** Primary keys *)

Lemma next_id_above ids x : In x ids -> x < next_id ids.
Proof.
  unfold next_id. induction ids as [|y ids IH]; cbn [foldr In]; [tauto|].
  intros [->|H]; [lia|]. specialize (IH H). lia.
Qed.

Lemma next_id_fresh ids : ~ In (next_id ids) ids.
Proof. intros H. apply next_id_above in H. lia. Qed.

Lemma find_app_fresh {A} (f : A -> bool) l x :
  (forall y, In y l -> f y = false) -> f x = true -> find f (l ++ [x]) = Some x.
Proof.
  intros Hl Hx. induction l as [|y l IH]; cbn.
  - rewrite Hx. reflexivity.
  - rewrite (Hl y (or_introl eq_refl)). apply IH. intros z Hz. apply Hl. right. exact Hz.
Qed.

Lemma find_app_old {A} (f : A -> bool) l x :
  f x = false -> find f (l ++ [x]) = find f l.
Proof.
  intros Hx. induction l as [|y l IH]; cbn.
  - rewrite Hx. reflexivity.
  - destruct (f y); [reflexivity|exact IH].
Qed.

(** ** Registration, in full *)

Lemma create_key_run key_data current_user E w :
  create_key key_data current_user E w =
    match select_platform (ApiKeyCreate.platform_id key_data) (db w) with
    | None => (set_pending [] w, Raise (HTTPException 404))
    | Some _ =>
        match EncryptionService.encrypt (encryption_service E)
                (ApiKeyCreate.api_key key_data) E (set_pending [] w) with
        | (w1, Raise e) => (set_pending [] w1, Raise e)
        | (w1, Ok encrypted_key) =>
            let t1 := utcnow_at E (clock_reads w1) in
            let t2 := utcnow_at E (S (clock_reads w1)) in
            let new_key := fun pk =>
              ManagedApiKey.mk pk (ApiKeyCreate.name key_data) encrypted_key
                (from_option id ∅ (ApiKeyCreate.metadata key_data))
                None None (User.id current_user)
                (ApiKeyCreate.platform_id key_data) t1 t2 in
            let w2 := mk_world (db w) [InsertKey new_key] (http_log w1)
                        (enqueue_calls w1) (queue w1) (S (S (clock_reads w1)))
                        (nonces_drawn w1) in
            match commit_error E (db w) [InsertKey new_key] with
            | Some e => (set_pending [] w2, Raise e)
            | None =>
                (set_pending []
                   (set_db (registered (db w) (ApiKeyCreate.name key_data)
                              (ApiKeyCreate.metadata key_data)
                              (ApiKeyCreate.platform_id key_data)
                              (User.id current_user) encrypted_key t1 t2) w2),
                 Ok (new_key (next_id (map ManagedApiKey.id (api_keys (db w))))))
            end
        end
    end.
Proof.
  unfold create_key, with_Session.
  rewrite bind_run. unfold session_query at 1. cbn [db set_pending].
  destruct (select_platform _ (db w)) as [p|]; [|reflexivity].
  rewrite bind_run. cbn [ask]. rewrite bind_run.
  destruct (encrypt_frame (encryption_service E) (ApiKeyCreate.api_key key_data) E
              (set_pending [] w)) as (Hdb & Hpe & _).
  destruct (EncryptionService.encrypt _ _ E _) as [w1 [c|e]];
    cbn [fst snd set_pending db pending] in *; [|reflexivity].
  unfold bind, utcnow, session_add, session_commit, session_refresh_new_key,
    set_pending, set_db.
  cbn [db pending http_log enqueue_calls queue clock_reads nonces_drawn].
  rewrite Hpe, Hdb. cbn [app]. cbv zeta.
  destruct (commit_error E _ _); [reflexivity|].
  cbn [apply_ops fold_left apply_op db api_keys registered].
  rewrite last_snoc. reflexivity.
Qed.

Lemma create_key_Ok_inv key_data current_user E w row :
  (create_key key_data current_user E w).2 = Ok row ->
  exists p c t1 t2,
    select_platform (ApiKeyCreate.platform_id key_data) (db w) = Some p /\
    (EncryptionService.encrypt (encryption_service E)
       (ApiKeyCreate.api_key key_data) E (set_pending [] w)).2 = Ok c /\
    row = ManagedApiKey.mk (next_id (map ManagedApiKey.id (api_keys (db w))))
            (ApiKeyCreate.name key_data) c
            (from_option id ∅ (ApiKeyCreate.metadata key_data))
            None None (User.id current_user)
            (ApiKeyCreate.platform_id key_data) t1 t2 /\
    db (create_key key_data current_user E w).1
      = mk_database (users (db w)) (platforms (db w)) (api_keys (db w) ++ [row])
                    (balance_logs (db w)) (notification_rules (db w)).
Proof.
  rewrite create_key_run.
  destruct (select_platform _ (db w)) as [p|]; [|discriminate].
  destruct (EncryptionService.encrypt _ _ E _) as [w1 [c|e1]]; [|discriminate].
  cbv zeta. destruct (commit_error E _ _) as [e2|]; [discriminate|].
  intros [= <-]. exists p, c. do 2 eexists. repeat split; reflexivity.
Qed.

Lemma select_key_new_row d row :
  ManagedApiKey.id row = next_id (map ManagedApiKey.id (api_keys d)) ->
  forall d',
    api_keys d' = api_keys d ++ [row] ->
    select_key (ManagedApiKey.id row) d' = Some row /\
    forall key_id, key_id <> ManagedApiKey.id row ->
      select_key key_id d' = select_key key_id d.
Proof.
  intros Hid d' Hd'. unfold select_key. rewrite Hd'. split.
  - apply find_app_fresh; [|apply Z.eqb_refl].
    intros y Hy. apply Z.eqb_neq. intros Heq.
    apply (next_id_fresh (map ManagedApiKey.id (api_keys d))).
    rewrite <- Hid, <- Heq. apply in_map, Hy.
  - intros key_id Hne. apply find_app_old. apply Z.eqb_neq. congruence.
Qed.

(** X11: registration returns the row it stored, or stores nothing: an
    unknown platform is answered 404 with the world untouched, and any
    other failure (the secret cannot be encoded, the commit fails) leaves
    the database as it was; on success the returned row is the one appended
    to the credentials, under an id no stored credential has, so that
    looking that id up finds it and every other lookup is as before; it
    belongs to the caller, its platform exists, and it carries no balance
    and no check time yet. *)
Theorem create_key_returns_the_stored_row_or_stores_nothing
    (key_data : ApiKeyCreate.t) (current_user : User.t) (E : env) (w : world) :
  let run := create_key key_data current_user E w in
  (select_platform (ApiKeyCreate.platform_id key_data) (db w) = None ->
     run = (set_pending [] w, Raise (HTTPException 404))) /\
  (forall e, run.2 = Raise e -> db run.1 = db w) /\
  (forall row, run.2 = Ok row ->
     api_keys (db run.1) = api_keys (db w) ++ [row] /\
     ~ In (ManagedApiKey.id row) (map ManagedApiKey.id (api_keys (db w))) /\
     select_key (ManagedApiKey.id row) (db run.1) = Some row /\
     (forall key_id, key_id <> ManagedApiKey.id row ->
        select_key key_id (db run.1) = select_key key_id (db w)) /\
     ManagedApiKey.user_id row = User.id current_user /\
     select_platform (ManagedApiKey.platform_id row) (db run.1) <> None /\
     ManagedApiKey.last_known_balance row = None /\
     ManagedApiKey.last_checked row = None).
Proof.
  intros run. split; [|split].
  - intros Hp. subst run. rewrite create_key_run, Hp. reflexivity.
  - intros e He.
    destruct (create_key_db key_data current_user E w) as [H|(c & t1 & t2 & _ & _)];
      [exact H|].
    subst run. rewrite create_key_run in He |- *.
    destruct (select_platform _ (db w)); [|reflexivity].
    pose proof (encrypt_frame (encryption_service E) (ApiKeyCreate.api_key key_data) E
                  (set_pending [] w)) as (Hdb & _ & _).
    destruct (EncryptionService.encrypt _ _ E _) as [w1 [c'|e1]]; [|exact Hdb].
    cbv zeta in He |- *. destruct (commit_error E _ _); [reflexivity|discriminate].
  - intros row Hok. subst run.
    destruct (create_key_Ok_inv _ _ _ _ _ Hok) as (p & c & t1 & t2 & Hp & _ & Hrow & Hdb).
    assert (Hid : ManagedApiKey.id row
                  = next_id (map ManagedApiKey.id (api_keys (db w))))
      by (rewrite Hrow; reflexivity).
    assert (Hkeys : api_keys (db (create_key key_data current_user E w).1)
                    = api_keys (db w) ++ [row]) by (rewrite Hdb; reflexivity).
    destruct (select_key_new_row (db w) row Hid _ Hkeys) as [Hnew Hold].
    split; [exact Hkeys|]. split; [rewrite Hid; apply next_id_fresh|].
    split; [exact Hnew|]. split; [exact Hold|].
    rewrite Hdb. subst row. cbn.
    split; [reflexivity|]. split; [|auto].
    unfold select_platform in *. cbn. rewrite Hp. discriminate.
Qed.

Lemma create_key_witness :
  select_key 10 (db (create_key Demo.new_key_request Demo.user1
                       Demo.env_usage_3000 Demo.world0).1)
    = Some (ManagedApiKey.mk 10 "fresh" Demo.token_A ∅ None None 1 1 1000 1001) /\
  create_key (ApiKeyCreate.mk "fresh" Demo.secret 99 None) Demo.user1
             Demo.env_usage_3000 Demo.world0
    = (set_pending [] Demo.world0, Raise (HTTPException 404)).
Proof.
  split.
  - apply (proj2 (proj2 (create_key_returns_the_stored_row_or_stores_nothing
             Demo.new_key_request Demo.user1 Demo.env_usage_3000 Demo.world0))
             (ManagedApiKey.mk 10 "fresh" Demo.token_A ∅ None None 1 1 1000 1001)).
    reflexivity.
  - apply (proj1 (create_key_returns_the_stored_row_or_stores_nothing
             (ApiKeyCreate.mk "fresh" Demo.secret 99 None) Demo.user1
             Demo.env_usage_3000 Demo.world0)).
    reflexivity.
Defined.

(** ** The check job, continued *)

Lemma decrypt_world svc token E w : (EncryptionService.decrypt svc token E w).1 = w.
Proof.
  unfold EncryptionService.decrypt, bind, lift, raise.
  destruct (str_encode token); [|reflexivity].
  destruct (Fernet_decrypt _ _); [|reflexivity].
  destruct (bytes_decode _); reflexivity.
Qed.

Lemma decrypt_any_world svc token E w E' w' :
  (EncryptionService.decrypt svc token E w).2
    = (EncryptionService.decrypt svc token E' w').2.
Proof.
  unfold EncryptionService.decrypt, bind, lift, raise.
  destruct (str_encode token); [|reflexivity].
  destruct (Fernet_decrypt _ _); [|reflexivity].
  destruct (bytes_decode _); reflexivity.
Qed.

Lemma decrypt_and_fetch_run rec p E w :
  decrypt_and_fetch rec p E w =
    match (EncryptionService.decrypt (encryption_service E)
             (ManagedApiKey.api_key_encrypted rec) E w).2 with
    | Raise e => (w, Raise e)
    | Ok decrypted_key =>
        match AdapterFactory.create_adapter (PlatformProvider.adapter_identifier p)
                decrypted_key (Some (ManagedApiKey.metadata rec)) with
        | Raise e => (w, Raise e)
        | Ok adapter => fetch_balance adapter E w
        end
    end.
Proof.
  unfold decrypt_and_fetch. rewrite bind_run. cbn [ask]. rewrite bind_run.
  pose proof (decrypt_world (encryption_service E)
                (ManagedApiKey.api_key_encrypted rec) E w) as Hw.
  destruct (EncryptionService.decrypt _ _ E w) as [w' [s|e]]; cbn [fst snd] in *;
    subst w'; [|reflexivity].
  rewrite bind_run.
  destruct (AdapterFactory.create_adapter _ _ _); reflexivity.
Qed.

Lemma check_single_key_http_log key_id rec p E w :
  select_key key_id (db w) = Some rec ->
  select_platform (ManagedApiKey.platform_id rec) (db w) = Some p ->
  http_log (check_single_key key_id E w).1
    = http_log (decrypt_and_fetch rec p E (set_pending [] w)).1.
Proof.
  intros Hk Hp. rewrite (check_single_key_run _ _ _ _ _ Hk Hp).
  unfold fetch_and_persist. rewrite bind_run.
  destruct (decrypt_and_fetch rec p E _) as [wa [res|e]]; [|reflexivity].
  rewrite bind_run, persist_balance_run. cbv zeta.
  destruct (commit_error E _ _); [reflexivity|].
  unfold ret. cbv beta iota. rewrite notify_if_low_run.
  destruct (notifications_due _ _ _) as [|j js]; [reflexivity|].
  unfold ctx_enqueue_job, enqueue_job.
  destruct (ctx E); [reflexivity|]. destruct (enqueue_error E _ j); reflexivity.
Qed.

(** X12: what is registered is what gets checked: under the library's
    contract for [Fernet], after a registration returned [row], looking its
    id up gives [row], its platform is found, and the fetch stage of the
    check job on [row] is the fetch of an adapter built from the secret and
    the metadata that were submitted, the same that testing the key runs. *)
Theorem check_fetches_with_the_secret_submitted_at_creation
    (key_data : ApiKeyCreate.t) (current_user : User.t) (E : env) (w : world)
    (row : ManagedApiKey.t) :
  FernetContract (EncryptionService.fernet (encryption_service E)) ->
  (create_key key_data current_user E w).2 = Ok row ->
  let w1 := (create_key key_data current_user E w).1 in
  select_key (ManagedApiKey.id row) (db w1) = Some row /\
  exists p,
    select_platform (ManagedApiKey.platform_id row) (db w1) = Some p /\
    forall w',
      decrypt_and_fetch row p E w' =
        (adapter <~ lift (AdapterFactory.create_adapter
                            (PlatformProvider.adapter_identifier p)
                            (ApiKeyCreate.api_key key_data)
                            (Some (from_option id ∅ (ApiKeyCreate.metadata key_data)))) ;;
         fetch_balance adapter) E w'.
Proof.
  intros HF Hok w1. subst w1.
  destruct (create_key_Ok_inv _ _ _ _ _ Hok) as (p & c & t1 & t2 & Hp & Hc & Hrow & Hdb).
  assert (Hid : ManagedApiKey.id row
                = next_id (map ManagedApiKey.id (api_keys (db w))))
    by (rewrite Hrow; reflexivity).
  assert (Hkeys : api_keys (db (create_key key_data current_user E w).1)
                  = api_keys (db w) ++ [row]) by (rewrite Hdb; reflexivity).
  split; [apply (select_key_new_row (db w) row Hid _ Hkeys)|].
  exists p. split.
  - rewrite Hdb. unfold select_platform in *. rewrite Hrow. cbn. exact Hp.
  - intros w'. rewrite decrypt_and_fetch_run, bind_run.
    rewrite Hrow. cbn [ManagedApiKey.api_key_encrypted ManagedApiKey.metadata].
    rewrite (decrypt_encrypted (encryption_service E) (ApiKeyCreate.api_key key_data)
               E (set_pending [] w) c HF Hc).
    cbn [snd lift].
    destruct (AdapterFactory.create_adapter _ _ _); reflexivity.
Qed.

Lemma check_fetches_with_the_secret_witness :
  select_key 10 (db (create_key Demo.new_key_request Demo.user1
                       Demo.env_usage_3000 Demo.world0).1)
    = Some (ManagedApiKey.mk 10 "fresh" Demo.token_A ∅ None None 1 1 1000 1001).
Proof.
  apply (proj1 (check_fetches_with_the_secret_submitted_at_creation
                  Demo.new_key_request Demo.user1 Demo.env_usage_3000 Demo.world0
                  (ManagedApiKey.mk 10 "fresh" Demo.token_A ∅ None None 1 1 1000 1001)
                  (DemoFacts.toy_Fernet_contract Demo.key_A DemoFacts.key_A_bytes)
                  eq_refl)).
Defined.

(** X13: a check sends at most one request, and only with the decrypted
    secret: either the log of requests is as before, or the credential and
    its platform were found, the stored field decrypted to [s], the factory
    built an adapter from [s] and the stored metadata, and the one request
    added is that adapter's, with [s] as bearer token. *)
Theorem check_sends_at_most_one_request_with_the_decrypted_secret
    (key_id : Z) (E : env) (w : world) :
  let run := check_single_key key_id E w in
  http_log run.1 = http_log w \/
  exists rec p s adapter,
    select_key key_id (db w) = Some rec /\
    select_platform (ManagedApiKey.platform_id rec) (db w) = Some p /\
    (EncryptionService.decrypt (encryption_service E)
       (ManagedApiKey.api_key_encrypted rec) E w).2 = Ok s /\
    AdapterFactory.create_adapter (PlatformProvider.adapter_identifier p) s
      (Some (ManagedApiKey.metadata rec)) = Ok adapter /\
    authorization (request_of adapter) = s /\
    http_log run.1 = http_log w ++ [request_of adapter].
Proof.
  intros run. subst run.
  destruct (select_key key_id (db w)) as [rec|] eqn:Hk.
  2:{ rewrite (check_single_key_no_key _ _ _ Hk). left. reflexivity. }
  destruct (select_platform (ManagedApiKey.platform_id rec) (db w)) as [p|] eqn:Hp.
  2:{ rewrite (check_single_key_no_platform _ _ _ _ Hk Hp). left. reflexivity. }
  rewrite (check_single_key_http_log _ _ _ _ _ Hk Hp), decrypt_and_fetch_run.
  rewrite (decrypt_any_world _ _ E (set_pending [] w) E w).
  destruct (EncryptionService.decrypt _ _ E w).2 as [s|e] eqn:Hs; [|left; reflexivity].
  destruct (AdapterFactory.create_adapter _ s _) as [a|e] eqn:Ha; [|left; reflexivity].
  destruct (fetch_balance_log a E (set_pending [] w)) as [Hl|Hl]; [left; exact Hl|].
  right. exists rec, p, s, a.
  repeat (split; [first [reflexivity|assumption]|]).
  split; [|exact Hl].
  rewrite <- (create_adapter_api_key _ _ _ _ Ha).
  unfold request_of. destruct (BalanceAdapter.cls a); reflexivity.
Qed.

(** ** Invariants of the store *)

Lemma persisted_fixed_part d key_id b t1 t2 :
  map fixed_part (api_keys (persisted d key_id b t1 t2)) = map fixed_part (api_keys d).
Proof.
  unfold persisted. cbn [api_keys]. rewrite map_map. apply map_ext.
  intros k. destruct (ManagedApiKey.id k =? key_id); reflexivity.
Qed.

Lemma map_id_fixed_part l :
  map ManagedApiKey.id l = map (fun x => x.1.1.1.1) (map fixed_part l).
Proof. rewrite map_map. reflexivity. Qed.

Lemma NoDup_snoc_next_id ids : NoDup ids -> NoDup (ids ++ [next_id ids]).
Proof.
  intros H. apply NoDup_app. split; [exact H|]. split; [|apply NoDup_singleton].
  intros x Hx Hn. apply list_elem_of_singleton in Hn. subst x.
  apply list_elem_of_In in Hx. exact (next_id_fresh ids Hx).
Qed.

Lemma run_store_ops_cons E o ops w :
  run_store_ops E (o :: ops) w = run_store_ops E ops (run_store_op E w o).
Proof. reflexivity. Qed.

Lemma run_store_op_db E w o :
  db (run_store_op E w o) = db w \/
  (exists name metadata platform_id user_id c t1 t2,
     db (run_store_op E w o)
       = registered (db w) name metadata platform_id user_id c t1 t2) \/
  (exists key_id b t1 t2, db (run_store_op E w o) = persisted (db w) key_id b t1 t2).
Proof.
  destruct o as [key_data current_user|key_id]; cbn [run_store_op].
  - destruct (create_key_db key_data current_user E w)
      as [->|(c & t1 & t2 & _ & ->)]; [left; reflexivity|].
    right. left. do 7 eexists. reflexivity.
  - destruct (check_single_key_db E w key_id) as [->|(b & t1 & t2 & ->)];
      [left; reflexivity|].
    right. right. do 4 eexists. reflexivity.
Qed.

(** X14: primary keys stay unique: if no two credentials share an id and
    no two history records share an id, the same holds after any sequence of
    registrations and checks, whatever fails along the way. *)
Theorem primary_keys_stay_unique (E : env) (ops : list store_op) (w : world) :
  NoDup (map ManagedApiKey.id (api_keys (db w))) ->
  NoDup (map BalanceLog.id (balance_logs (db w))) ->
  NoDup (map ManagedApiKey.id (api_keys (db (run_store_ops E ops w)))) /\
  NoDup (map BalanceLog.id (balance_logs (db (run_store_ops E ops w)))).
Proof.
  revert w. induction ops as [|o ops IH]; intros w Hk Hl; [auto|].
  rewrite run_store_ops_cons. apply IH;
    destruct (run_store_op_db E w o)
      as [->|[(name & metadata & platform_id & user_id & c & t1 & t2 & ->)
             |(key_id & b & t1 & t2 & ->)]]; try assumption.
  - unfold registered. cbn [api_keys]. rewrite map_app. cbn [map ManagedApiKey.id].
    apply NoDup_snoc_next_id, Hk.
  - rewrite map_id_fixed_part, persisted_fixed_part, <- map_id_fixed_part. exact Hk.
  - unfold persisted. cbn [balance_logs]. rewrite map_app. cbn [map BalanceLog.id].
    apply NoDup_snoc_next_id, Hl.
Qed.

Lemma primary_keys_stay_unique_witness :
  NoDup (map ManagedApiKey.id
           (api_keys (db (run_store_ops Demo.env_usage_3000
                            [CreateKey Demo.new_key_request Demo.user1;
                             CheckSingleKey 7; CheckSingleKey 10]
                            Demo2.world1)))) /\
  NoDup (map BalanceLog.id
           (balance_logs (db (run_store_ops Demo.env_usage_3000
                                [CreateKey Demo.new_key_request Demo.user1;
                                 CheckSingleKey 7; CheckSingleKey 10]
                                Demo2.world1)))).
Proof.
  apply (primary_keys_stay_unique Demo.env_usage_3000
           [CreateKey Demo.new_key_request Demo.user1;
            CheckSingleKey 7; CheckSingleKey 10]
           Demo2.world1).
  - apply (@bool_decide_unpack _ (NoDup_dec _)). vm_compute. exact I.
  - apply (@bool_decide_unpack _ (NoDup_dec _)). vm_compute. exact I.
Defined.

(** X15: registrations and checks never rewrite or remove what is stored:
    after any sequence of them the users, the platforms and the notification
    rules are as before, the history has only grown at its end, and the
    credentials that were there are still there, in place, each with the
    id, name, secret field, owner and platform it had. *)
Theorem stored_rows_are_never_rewritten_or_removed
    (E : env) (ops : list store_op) (w : world) :
  let d' := db (run_store_ops E ops w) in
  users d' = users (db w) /\
  platforms d' = platforms (db w) /\
  notification_rules d' = notification_rules (db w) /\
  balance_logs (db w) `prefix_of` balance_logs d' /\
  map fixed_part (api_keys (db w)) `prefix_of` map fixed_part (api_keys d').
Proof.
  cbv zeta. revert w. induction ops as [|o ops IH]; intros w.
  { repeat split; reflexivity. }
  rewrite run_store_ops_cons.
  destruct (IH (run_store_op E w o)) as (Hu & Hp & Hr & Hl & Hk).
  rewrite Hu, Hp, Hr.
  destruct (run_store_op_db E w o)
    as [Hd|[(name & metadata & platform_id & user_id & c & t1 & t2 & Hd)
           |(key_id & b & t1 & t2 & Hd)]]; rewrite Hd in *.
  - auto.
  - unfold registered in *.
    cbn [users platforms notification_rules balance_logs api_keys] in *.
    repeat split; try assumption.
    etrans; [|exact Hk]. rewrite map_app. apply prefix_app_r. reflexivity.
  - rewrite persisted_fixed_part in Hk. unfold persisted in *.
    cbn [users platforms notification_rules balance_logs] in *.
    repeat split; try assumption.
    etrans; [|exact Hl]. apply prefix_app_r. reflexivity.
Qed.

(** ** The scheduler, whatever Redis does *)

Lemma select_key_of_stored k d :
  In k (api_keys d) -> select_key (ManagedApiKey.id k) d <> None.
Proof.
  intros Hin Hnone. unfold select_key in Hnone.
  pose proof (find_none _ _ Hnone k Hin) as H. cbn in H.
  rewrite Z.eqb_refl in H. discriminate.
Qed.

Lemma for_each_enqueue_check keys E : forall w,
  let run := for_each keys enqueue_check E w in
  db run.1 = db w /\ http_log run.1 = http_log w /\
  exists l,
    queue run.1 = queue w ++ l /\ l `prefix_of` check_jobs keys /\
    (run.2 = Ok tt -> l = check_jobs keys).
Proof.
  induction keys as [|key keys IH]; intros w; cbv zeta; cbn [for_each check_jobs map].
  - cbn. repeat split. exists []. rewrite app_nil_r. repeat split; reflexivity.
  - rewrite bind_run.
    change (enqueue_check key E w)
      with (enqueue_job (check_single_key_job (ManagedApiKey.id key)) E w).
    unfold enqueue_job.
    destruct (enqueue_error E (enqueue_calls w) _) as [e|].
    + cbn. repeat split. exists []. rewrite app_nil_r.
      repeat split; [apply prefix_nil|discriminate].
    + cbv zeta beta iota.
      match goal with |- context [for_each keys enqueue_check E ?w1] =>
        specialize (IH w1) end.
      cbv zeta in IH. destruct IH as (Hdb & Hlog & l & Hq & Hpre & Hok).
      fold (check_jobs keys). rewrite Hdb, Hlog, Hq. cbn [db http_log queue].
      repeat split. exists (check_single_key_job (ManagedApiKey.id key) :: l).
      rewrite <- app_assoc. repeat split.
      * apply prefix_cons, Hpre.
      * intros H. rewrite (Hok H). reflexivity.
Qed.

Lemma schedule_all_key_checks_no_pool E w e :
  create_pool_error E = Some e ->
  schedule_all_key_checks E w = (set_pending [] w, Raise e).
Proof.
  intros Hpool. unfold schedule_all_key_checks, with_Session.
  rewrite bind_run. unfold session_query. cbn [db set_pending].
  rewrite bind_run. unfold create_pool. rewrite Hpool. reflexivity.
Qed.

(** X16: whatever Redis does, the scheduler only ever queues check jobs of
    stored credentials, in enumeration order and without gaps: what it adds
    to the queue is an initial stretch of the check jobs of the credentials,
    all of them when it returns normally, and each job in it names a
    credential that exists; when the pool cannot be created that error is
    raised and Redis is not called; the database and the log of requests are
    not touched. *)
Theorem scheduler_queues_a_prefix_of_the_check_jobs (E : env) (w : world) :
  let run := schedule_all_key_checks E w in
  db run.1 = db w /\ http_log run.1 = http_log w /\
  (forall e, create_pool_error E = Some e ->
     run.2 = Raise e /\ enqueue_calls run.1 = enqueue_calls w /\ queue run.1 = queue w) /\
  exists l,
    queue run.1 = queue w ++ l /\
    l `prefix_of` check_jobs (api_keys (db w)) /\
    (run.2 = Ok tt -> l = check_jobs (api_keys (db w))) /\
    (forall j, In j l ->
       exists key_id, j = check_single_key_job key_id /\
                      select_key key_id (db w) <> None).
Proof.
  intros run. subst run.
  assert (Hjobs : forall l, l `prefix_of` check_jobs (api_keys (db w)) ->
            forall j, In j l ->
              exists key_id, j = check_single_key_job key_id /\
                             select_key key_id (db w) <> None).
  { intros l [rest Hl] j Hj.
    assert (Hin : In j (check_jobs (api_keys (db w)))).
    { rewrite Hl. apply in_or_app. left. exact Hj. }
    unfold check_jobs in Hin. apply in_map_iff in Hin as (k & <- & Hk).
    eexists. split; [reflexivity|]. apply select_key_of_stored, Hk. }
  destruct (create_pool_error E) as [e|] eqn:Hpool.
  - rewrite (schedule_all_key_checks_no_pool E w e Hpool).
    cbn [fst snd set_pending db http_log enqueue_calls queue].
    split; [reflexivity|]. split; [reflexivity|]. split.
    + intros e' [= <-]. auto.
    + exists []. rewrite app_nil_r. split; [reflexivity|]. split; [apply prefix_nil|].
      split; [discriminate|]. intros j [].
  - rewrite (schedule_all_key_checks_run E w Hpool).
    pose proof (for_each_enqueue_check (api_keys (db w)) E (set_pending [] w)) as H.
    cbv zeta in H. destruct H as (Hdb & Hlog & l & Hq & Hpre & Hok).
    destruct (for_each _ enqueue_check E _) as [w' r].
    cbn [fst snd set_pending db http_log queue] in *.
    split; [exact Hdb|]. split; [exact Hlog|]. split; [discriminate|].
    exists l. split; [exact Hq|]. split; [exact Hpre|]. split; [exact Hok|].
    apply Hjobs, Hpre.
Qed.

Lemma scheduler_without_pool_witness :
  (schedule_all_key_checks Demo2.env_no_pool Demo.world0).2 = Raise RedisError /\
  enqueue_calls (schedule_all_key_checks Demo2.env_no_pool Demo.world0).1
    = enqueue_calls Demo.world0 /\
  queue (schedule_all_key_checks Demo2.env_no_pool Demo.world0).1 = queue Demo.world0.
Proof.
  apply (proj1 (proj2 (proj2 (scheduler_queues_a_prefix_of_the_check_jobs
           Demo2.env_no_pool Demo.world0))) RedisError).
  reflexivity.
Defined.

(** ** The notification job *)

(** X17: a notification for a credential that no longer exists, or on a
    channel that is neither ["email"] nor ["webhook"], is dropped: the job
    returns normally and nothing is sent. *)
Theorem notification_is_dropped_without_key_or_known_channel
    (d : database) (key_id : Z) (balance threshold : float)
    (channel address : string) (C : channels) (t : list delivery) :
  select_key key_id d = None \/
  (channel <> "email"%string /\ channel <> "webhook"%string) ->
  send_notification d key_id balance threshold channel address C t = (t, Done tt).
Proof.
  intros H. unfold send_notification.
  destruct (select_key key_id d) as [rec|]; [|reflexivity].
  destruct H as [H|[H1 H2]]; [discriminate|].
  apply String.eqb_neq in H1, H2. unfold D_bind, D_ask. rewrite H1, H2. reflexivity.
Qed.

Lemma notification_is_dropped_witness :
  send_notification Demo.db0 7 40%float 80%float "sms" "+100" Demo2.channels_ok []
    = ([], Done tt) /\
  send_notification Demo.db0 99 40%float 80%float "email" "ops@example.org"
                    Demo2.channels_ok []
    = ([], Done tt).
Proof.
  split.
  - apply (notification_is_dropped_without_key_or_known_channel
             Demo.db0 7 40%float 80%float "sms" "+100" Demo2.channels_ok []).
    right. split; discriminate.
  - apply (notification_is_dropped_without_key_or_known_channel
             Demo.db0 99 40%float 80%float "email" "ops@example.org"
             Demo2.channels_ok []).
    left. reflexivity.
Defined.

Lemma send_webhook_run d key_id balance threshold address C t rec :
  select_key key_id d = Some rec ->
  send_notification d key_id balance threshold "webhook" address C t =
    let p := webhook_post C rec key_id balance threshold address in
    match json_error C (post_json p) with
    | Some e => (t, Failed_with (PyError e))
    | None =>
        (t ++ [Post p],
         match webhook C p with
         | Responded r =>
             if (200 <=? status_code r) && (status_code r <? 300) then Done tt
             else Failed_with (PyError (HTTPStatusError (status_code r)))
         | Failed e => Failed_with (PyError (TransportError e))
         end)
    end.
Proof.
  intros Hk. unfold send_notification. rewrite Hk.
  unfold D_bind, D_ask, client_post, D_lift, raise_for_status, webhook_post.
  cbn [String.eqb Ascii.eqb Bool.eqb post_json]. cbv zeta.
  destruct (json_error C _); [reflexivity|].
  destruct (webhook C _) as [r|e]; [|reflexivity].
  destruct ((200 <=? status_code r) && (status_code r <? 300)); reflexivity.
Qed.

(** X18: on the webhook channel the job makes at most one POST and talks to
    no mail server: the POST goes to the address of the rule, and its JSON
    body has exactly the five fields [key_id], [key_name], [balance],
    [threshold] and [message], the first four being the job's key id, the
    stored name of the credential, and the balance and threshold the job was
    given; the job returns normally exactly when that POST went out and was
    answered with a 2xx status. *)
Theorem webhook_alert_is_one_post_to_the_rule_address
    (d : database) (key_id : Z) (balance threshold : float) (address : string)
    (C : channels) (t : list delivery) (rec : ManagedApiKey.t) :
  select_key key_id d = Some rec ->
  let run := send_notification d key_id balance threshold "webhook" address C t in
  exists p,
    (run.1 = t \/ run.1 = t ++ [Post p]) /\
    post_url p = address /\
    post_json p !! "key_id" = Some (PInt key_id) /\
    post_json p !! "key_name" = Some (PStr (ManagedApiKey.name rec)) /\
    post_json p !! "balance" = Some (PFloat balance) /\
    post_json p !! "threshold" = Some (PFloat threshold) /\
    (exists message, post_json p !! "message" = Some (PStr message)) /\
    size (post_json p) = 5%nat /\
    (run.2 = Done tt <->
       run.1 = t ++ [Post p] /\
       exists r, webhook C p = Responded r /\ is_2xx (status_code r)).
Proof.
  intros Hk run. subst run. rewrite (send_webhook_run _ _ _ _ _ _ _ _ Hk). cbv zeta.
  exists (webhook_post C rec key_id balance threshold address).
  split; [destruct (json_error C _); auto|].
  split; [reflexivity|].
  do 4 (split; [reflexivity|]). split; [eexists; reflexivity|].
  split; [reflexivity|].
  destruct (json_error C _) as [e|]; cbn [fst snd].
  { split; [discriminate|]. intros [H _]. exfalso.
    apply (f_equal length) in H. rewrite length_app in H. cbn in H. lia. }
  destruct (webhook C _) as [r|e].
  - unfold is_2xx.
    destruct ((200 <=? status_code r) && (status_code r <? 300)) eqn:Hs.
    + split; [|reflexivity]. intros _. split; [reflexivity|]. exists r.
      split; [reflexivity|]. lia.
    + split; [discriminate|]. intros (_ & r' & [= <-] & Hr). lia.
  - split; [discriminate|]. intros (_ & r' & Hr' & _). discriminate.
Qed.

Lemma webhook_alert_witness :
  exists p,
    ((send_notification Demo.db0 7 40%float 80%float "webhook"
        "https://hooks.example.org/q" Demo2.channels_ok []).1 = [] \/
     (send_notification Demo.db0 7 40%float 80%float "webhook"
        "https://hooks.example.org/q" Demo2.channels_ok []).1 = [] ++ [Post p]) /\
    post_url p = "https://hooks.example.org/q"%string /\
    post_json p !! "key_id" = Some (PInt 7) /\
    post_json p !! "key_name" = Some (PStr (ManagedApiKey.name Demo.key7)) /\
    post_json p !! "balance" = Some (PFloat 40%float) /\
    post_json p !! "threshold" = Some (PFloat 80%float) /\
    (exists message, post_json p !! "message" = Some (PStr message)) /\
    size (post_json p) = 5%nat /\
    ((send_notification Demo.db0 7 40%float 80%float "webhook"
        "https://hooks.example.org/q" Demo2.channels_ok []).2 = Done tt <->
       (send_notification Demo.db0 7 40%float 80%float "webhook"
          "https://hooks.example.org/q" Demo2.channels_ok []).1 = [] ++ [Post p] /\
       exists r, webhook Demo2.channels_ok p = Responded r /\ is_2xx (status_code r)).
Proof.
  apply (webhook_alert_is_one_post_to_the_rule_address
           Demo.db0 7 40%float 80%float "https://hooks.example.org/q"
           Demo2.channels_ok [] Demo.key7).
  reflexivity.
Defined.

Lemma truthy_nonempty s : truthy s = true <-> s <> ""%string.
Proof. destruct s; cbn; split; congruence. Qed.

Lemma truthy_getenv C name :
  truthy (from_option id ""%string (getenv C name)) = true ->
  exists v, getenv C name = Some v /\ v <> ""%string /\
            from_option id ""%string (getenv C name) = v.
Proof.
  destruct (getenv C name) as [v|]; cbn; [|discriminate].
  intros H. exists v. split; [reflexivity|]. split; [|reflexivity].
  apply truthy_nonempty, H.
Qed.

(** Every way the mail branch can go, by what the settings hold and what
    the server answers to each command. *)
Ltac email_cases C :=
  unfold D_bind, D_ask, D_ret, getenv_or, smtp_port_setting, with_SMTP, smtp;
  cbn [String.eqb Ascii.eqb Bool.eqb];
  repeat match goal with
         | |- context [match getenv C "SMTP_PORT" with _ => _ end] =>
             destruct (getenv C "SMTP_PORT") eqn:?
         | |- context [match int_of_str C ?x with _ => _ end] =>
             destruct (int_of_str C x) eqn:?
         | |- context [match smtp_error C ?a ?b with _ => _ end] =>
             destruct (smtp_error C a b) eqn:?
         | |- context [if ?b then _ else _] => destruct b eqn:?
         | _ => progress cbv beta iota zeta
         end.

(** X19: on the email channel nothing is posted to a webhook, the message
    goes out only over TLS, and the session is always closed: an
    [SMTP_PORT] that is no integer raises [ValueError] before any
    connection; otherwise the first step connects to the configured server,
    [smtp.gmail.com] and port 587 by default; whenever the connection was
    made the last step is [QUIT], whatever failed in between; a message is
    sent only as a later step than a [STARTTLS], the second step, that the
    server accepted, and it is addressed to the address of the rule; and
    when the job returns normally a message was sent. *)
Theorem email_alert_is_sent_over_tls_and_the_session_is_closed
    (d : database) (key_id : Z) (balance threshold : float) (address : string)
    (C : channels) (t : list delivery) (rec : ManagedApiKey.t) :
  select_key key_id d = Some rec ->
  let run := send_notification d key_id balance threshold "email" address C t in
  exists new,
    run.1 = t ++ new /\
    (forall p, ~ In (Post p) new) /\
    (forall text, getenv C "SMTP_PORT" = Some text -> int_of_str C text = None ->
       new = [] /\ run.2 = Failed_with (PyError ValueError)) /\
    (new <> [] ->
       exists host port,
         head new = Some (Smtp (SMTP_connect host port)) /\
         host = from_option id "smtp.gmail.com"%string (getenv C "SMTP_SERVER") /\
         (getenv C "SMTP_PORT" = None -> port = 587) /\
         (smtp_error C t (SMTP_connect host port) = None ->
            last new = Some (Smtp SMTP_quit))) /\
    (forall i m, new !! i = Some (Smtp (SMTP_send_message m)) ->
       EmailMessage.To m = address /\
       new !! 1%nat = Some (Smtp SMTP_starttls) /\
       smtp_error C (t ++ take 1 new) SMTP_starttls = None /\
       (1 < i)%nat) /\
    (run.2 = Done tt ->
       exists m, In (Smtp (SMTP_send_message m)) new /\
                 last new = Some (Smtp SMTP_quit)).
Proof.
  intros Hk run. subst run. unfold send_notification. rewrite Hk.
  email_cases C; cbn [fst snd]; rewrite <- ?app_assoc; cbn [app].
  all: eexists; split; [try reflexivity; symmetry; apply app_nil_r|].
  all: split; [intros p Hp; cbn in Hp; intuition discriminate|].
  all: split; [intros text' Ht Hi; try discriminate; simplify_eq; auto|].
  all: split; [intros Hne; first [congruence|
               do 2 eexists;
               split; [reflexivity|]; split; [reflexivity|];
               split; [intros; first [reflexivity|congruence]|];
               intros Hc; first [reflexivity|congruence]]|].
  all: split; [intros i m Hi;
               repeat (destruct i as [|i]; cbn in Hi; try discriminate);
               simplify_eq; cbn; repeat split; try assumption; lia|].
  all: intros Hd; first [discriminate|eexists; split; [cbn; eauto 10|reflexivity]].
Qed.

Lemma email_alert_witness :
  exists new,
    (send_notification Demo.db0 7 40%float 80%float "email" "ops@example.org"
       Demo2.channels_ok []).1 = [] ++ new /\
    last new = Some (Smtp SMTP_quit) /\
    (send_notification Demo.db0 7 40%float 80%float "email" "ops@example.org"
       Demo2.channels_bad_port []).2 = Failed_with (PyError ValueError).
Proof.
  destruct (email_alert_is_sent_over_tls_and_the_session_is_closed
              Demo.db0 7 40%float 80%float "ops@example.org"
              Demo2.channels_ok [] Demo.key7 eq_refl)
    as (new & Hnew & _ & _ & _ & _ & Hdone).
  destruct (email_alert_is_sent_over_tls_and_the_session_is_closed
              Demo.db0 7 40%float 80%float "ops@example.org"
              Demo2.channels_bad_port [] Demo.key7 eq_refl)
    as (new' & _ & _ & Hport & _).
  exists new. split; [exact Hnew|]. split.
  - destruct (Hdone eq_refl) as (m & _ & Hlast). exact Hlast.
  - apply (Hport "smtp"%string); reflexivity.
Defined.

(** X20: the mail server is logged into with the configured credentials
    only, and not skipped when they are there: a [LOGIN] step carries the
    [SMTP_USER] and [SMTP_PASSWORD] of the environment, both set and not
    empty, and is the third step; when both are set and not empty, a
    message is sent only as the fourth step, after a [LOGIN] with them that
    the server accepted; and the sender of a message is [SMTP_FROM], or the
    user when that is not set. *)
Theorem email_login_uses_the_configured_credentials_only
    (d : database) (key_id : Z) (balance threshold : float) (address : string)
    (C : channels) (t : list delivery) (rec : ManagedApiKey.t) :
  select_key key_id d = Some rec ->
  let run := send_notification d key_id balance threshold "email" address C t in
  exists new,
    run.1 = t ++ new /\
    (forall j user password, new !! j = Some (Smtp (SMTP_login user password)) ->
       getenv C "SMTP_USER" = Some user /\ user <> ""%string /\
       getenv C "SMTP_PASSWORD" = Some password /\ password <> ""%string /\
       j = 2%nat) /\
    (forall i m user password,
       new !! i = Some (Smtp (SMTP_send_message m)) ->
       getenv C "SMTP_USER" = Some user -> user <> ""%string ->
       getenv C "SMTP_PASSWORD" = Some password -> password <> ""%string ->
       new !! 2%nat = Some (Smtp (SMTP_login user password)) /\
       smtp_error C (t ++ take 2 new) (SMTP_login user password) = None /\
       i = 3%nat) /\
    (forall i m, new !! i = Some (Smtp (SMTP_send_message m)) ->
       EmailMessage.From m =
         from_option id (from_option id ""%string (getenv C "SMTP_USER"))
           (getenv C "SMTP_FROM")).
Proof.
  intros Hk run. subst run. unfold send_notification. rewrite Hk.
  email_cases C; cbn [fst snd]; rewrite <- ?app_assoc; cbn [app].
  all: eexists; split; [try reflexivity; symmetry; apply app_nil_r|].
  all: split; [solve [intros j user password Hj;
               repeat (destruct j as [|j]; cbn in Hj; try discriminate);
               injection Hj as <- <-;
               match goal with
               | H : _ && _ = true |- _ =>
                   apply andb_true_iff in H as [Hu Hp];
                   apply truthy_getenv in Hu as (u & -> & Hu & ?);
                   apply truthy_getenv in Hp as (p & -> & Hp & ?);
                   cbn; auto
               end]|].
  all: split; [solve [intros i m user password Hi Hu Hun Hp Hpn;
               repeat (destruct i as [|i]; cbn in Hi; try discriminate);
               try match goal with
                   | H : _ && _ = false |- _ =>
                       rewrite Hu, Hp in H; cbn in H;
                       apply andb_false_iff in H as [H|H];
                       apply not_true_iff_false in H;
                       rewrite truthy_nonempty in H; contradiction
                   end;
               rewrite Hu, Hp in *; rewrite <- ?app_assoc in *; cbn in *; auto]|].
  all: intros i m Hi; repeat (destruct i as [|i]; cbn in Hi; try discriminate);
       injection Hi as <-; reflexivity.
Qed.

Lemma email_login_witness :
  exists new,
    (send_notification Demo.db0 7 40%float 80%float "email" "ops@example.org"
       Demo2.channels_login []).1 = [] ++ new /\
    new !! 2%nat = Some (Smtp (SMTP_login "alerts" "hunter2")).
Proof.
  destruct (email_login_uses_the_configured_credentials_only
              Demo.db0 7 40%float 80%float "ops@example.org"
              Demo2.channels_login [] Demo.key7 eq_refl)
    as (new & Hnew & _ & Hsend & _).
  exists new. split; [exact Hnew|].
  cbn in Hnew. subst new.
  apply (Hsend 3%nat
           (EmailMessage.mk "alerts" "ops@example.org" "QuotaWatch: API 密钥余额过低"
              (alert_message Demo2.channels_login "prod" 40%float 80%float))
           "alerts"%string "hunter2"%string);
    first [reflexivity|discriminate].
Defined.

(** ** Seeding the platforms *)

Lemma find_app_l {A} (f : A -> bool) l l' x :
  find f l = Some x -> find f (l ++ l') = Some x.
Proof.
  induction l as [|y l IH]; cbn; [discriminate|].
  destruct (f y); [auto|exact IH].
Qed.

Lemma find_app_None {A} (f : A -> bool) l l' :
  find f l = None -> find f (l ++ l') = find f l'.
Proof.
  induction l as [|y l IH]; cbn; [reflexivity|].
  destruct (f y); [discriminate|exact IH].
Qed.

Lemma select_platform_by_slug_mono slug d d' :
  platforms d `prefix_of` platforms d' ->
  select_platform_by_slug slug d <> None ->
  select_platform_by_slug slug d' <> None.
Proof.
  intros [rest Hd'] H. unfold select_platform_by_slug in *. rewrite Hd'.
  destruct (find _ (platforms d)) as [p|] eqn:Hf; [|congruence].
  rewrite (find_app_l _ _ rest _ Hf). discriminate.
Qed.

Lemma select_platform_by_slug_None slug d :
  select_platform_by_slug slug d = None ->
  ~ In slug (map PlatformProvider.slug (platforms d)).
Proof.
  unfold select_platform_by_slug. intros H Hin.
  apply in_map_iff in Hin as (p & Hp & Hin).
  pose proof (find_none _ _ H p Hin) as Hf. cbn in Hf.
  rewrite Hp, String.eqb_refl in Hf. discriminate.
Qed.

Lemma seed_loop_frame S0 data : forall view clock,
  let r := (seed_loop S0 data view clock).1 in
  users r = users view /\ api_keys r = api_keys view /\
  balance_logs r = balance_logs view /\
  notification_rules r = notification_rules view /\
  platforms view `prefix_of` platforms r.
Proof.
  induction data as [|pd data IH]; intros view clock; cbv zeta; cbn [seed_loop].
  - repeat split; reflexivity.
  - destruct (select_platform_by_slug _ view); [apply IH|].
    match goal with |- context [seed_loop S0 data ?v ?c] =>
      destruct (IH v c) as (Hu & Hk & Hl & Hr & Hp) end.
    cbn [add_platform users api_keys balance_logs notification_rules platforms] in *.
    repeat split; try assumption.
    etrans; [|exact Hp]. apply prefix_app_r. reflexivity.
Qed.

Lemma seed_loop_covers S0 data : forall view clock pd,
  In pd data ->
  select_platform_by_slug (PlatformData.slug pd) (seed_loop S0 data view clock).1
    <> None.
Proof.
  induction data as [|pd0 data IH]; intros view clock pd; cbn [In seed_loop]; [tauto|].
  intros [->|Hin].
  - destruct (select_platform_by_slug (PlatformData.slug pd) view) as [p|] eqn:Hs.
    + apply (select_platform_by_slug_mono _ view).
      * apply (seed_loop_frame S0 data view clock).
      * congruence.
    + match goal with |- context [seed_loop S0 data ?v ?c] =>
        apply (select_platform_by_slug_mono _ v);
          [apply (seed_loop_frame S0 data v c)|] end.
      unfold select_platform_by_slug in *. cbn [add_platform platforms].
      rewrite (find_app_None _ _ _ Hs). cbn. rewrite String.eqb_refl. discriminate.
  - destruct (select_platform_by_slug (PlatformData.slug pd0) view); apply IH, Hin.
Qed.

Lemma seed_loop_nothing_missing S0 data : forall view clock,
  (forall pd, In pd data ->
     select_platform_by_slug (PlatformData.slug pd) view <> None) ->
  seed_loop S0 data view clock = (view, clock).
Proof.
  induction data as [|pd data IH]; intros view clock H; cbn [seed_loop]; [reflexivity|].
  destruct (select_platform_by_slug (PlatformData.slug pd) view) eqn:Hs.
  - apply IH. intros pd' Hin. apply H. right. exact Hin.
  - exfalso. apply (H pd); [left; reflexivity|exact Hs].
Qed.

Lemma seed_loop_added S0 data : forall view clock p,
  In p (platforms (seed_loop S0 data view clock).1) ->
  In p (platforms view) \/
  (select_platform_by_slug (PlatformProvider.slug p) view = None /\
   exists pd, In pd data /\
     PlatformProvider.name p = PlatformData.name pd /\
     PlatformProvider.slug p = PlatformData.slug pd /\
     PlatformProvider.adapter_identifier p = PlatformData.adapter_identifier pd).
Proof.
  induction data as [|pd data IH]; intros view clock p; cbn [seed_loop]; [auto|].
  destruct (select_platform_by_slug (PlatformData.slug pd) view) eqn:Hs.
  - intros Hin. destruct (IH view clock p Hin) as [H|(Hn & pd' & Hpd' & H)]; [auto|].
    right. split; [exact Hn|]. exists pd'. split; [right; exact Hpd'|exact H].
  - intros Hin.
    match type of Hin with context [seed_loop S0 data ?v ?c] =>
      destruct (IH v c p Hin) as [H|(Hn & pd' & Hpd' & H)] end.
    + cbn [add_platform platforms] in H. apply in_app_or in H as [H|[<-|[]]]; [auto|].
      right. split; [exact Hs|]. exists pd. split; [left; reflexivity|]. auto.
    + right. split.
      * destruct (select_platform_by_slug (PlatformProvider.slug p) view) eqn:Hv;
          [|reflexivity].
        exfalso. revert Hn. apply (select_platform_by_slug_mono _ view).
        -- cbn [add_platform platforms]. apply prefix_app_r. reflexivity.
        -- congruence.
      * exists pd'. split; [right; exact Hpd'|exact H].
Qed.

Lemma seed_loop_unique S0 data : forall view clock,
  NoDup (map PlatformProvider.slug (platforms view)) ->
  NoDup (map PlatformProvider.id (platforms view)) ->
  NoDup (map PlatformProvider.slug (platforms (seed_loop S0 data view clock).1)) /\
  NoDup (map PlatformProvider.id (platforms (seed_loop S0 data view clock).1)).
Proof.
  induction data as [|pd data IH]; intros view clock Hs Hi; cbn [seed_loop]; [auto|].
  destruct (select_platform_by_slug (PlatformData.slug pd) view) eqn:Hsel;
    [apply IH; assumption|].
  apply IH; cbn [add_platform platforms]; rewrite map_app; cbn [map].
  - apply NoDup_app. split; [exact Hs|]. split; [|apply NoDup_singleton].
    intros x Hx Hn. apply list_elem_of_singleton in Hn. subst x.
    apply list_elem_of_In in Hx.
    exact (select_platform_by_slug_None _ _ Hsel Hx).
  - apply NoDup_snoc_next_id, Hi.
Qed.

(** X21: seeding is idempotent: once a run of the script has committed,
    another run, with whatever clock and whether or not its commit
    succeeds, leaves the database as the first run left it. *)
Theorem seed_platforms_is_idempotent (S1 S2 : seed_env) (d : database) :
  (seed_platforms S1 d).2 = Ok tt ->
  (seed_platforms S2 (seed_platforms S1 d).1).1 = (seed_platforms S1 d).1.
Proof.
  intros H.
  assert (Hd1 : (seed_platforms S1 d).1 = (seed_loop S1 PLATFORMS d 0).1).
  { unfold seed_platforms in *. cbv zeta in *.
    destruct (seed_commit_error S1 d _); [discriminate|reflexivity]. }
  rewrite Hd1. unfold seed_platforms. cbv zeta.
  rewrite (seed_loop_nothing_missing S2 PLATFORMS (seed_loop S1 PLATFORMS d 0).1 0).
  - cbn [fst]. destruct (seed_commit_error S2 _ _); reflexivity.
  - intros pd Hin. apply seed_loop_covers, Hin.
Qed.

Lemma seed_platforms_is_idempotent_witness :
  (seed_platforms Demo3.seed_env0
     (seed_platforms Demo3.seed_env0 Demo3.empty_db).1).1
    = (seed_platforms Demo3.seed_env0 Demo3.empty_db).1.
Proof.
  apply (seed_platforms_is_idempotent Demo3.seed_env0 Demo3.seed_env0 Demo3.empty_db).
  reflexivity.
Defined.

(** X22: the script adds the missing platforms and nothing else: a failed
    commit leaves the database as it was; users, credentials, history and
    rules are never touched and the platforms that were there stay, in
    place; after a commit every slug of [PLATFORMS] is present; a platform
    that was added has a slug the database did not have, carries the name,
    slug and adapter identifier of an entry of [PLATFORMS], and its adapter
    identifier is one the factory has registered; and slugs and ids that
    were unique stay unique. *)
Theorem seed_platforms_adds_the_missing_platforms_only
    (S0 : seed_env) (d : database) :
  let run := seed_platforms S0 d in
  (forall e, run.2 = Raise e -> run.1 = d) /\
  (users run.1 = users d /\ api_keys run.1 = api_keys d /\
   balance_logs run.1 = balance_logs d /\
   notification_rules run.1 = notification_rules d /\
   platforms d `prefix_of` platforms run.1) /\
  (run.2 = Ok tt ->
     forall pd, In pd PLATFORMS ->
       select_platform_by_slug (PlatformData.slug pd) run.1 <> None) /\
  (forall p, In p (platforms run.1) ->
     In p (platforms d) \/
     (select_platform_by_slug (PlatformProvider.slug p) d = None /\
      AdapterFactory._adapters !! PlatformProvider.adapter_identifier p <> None /\
      exists pd, In pd PLATFORMS /\
        PlatformProvider.name p = PlatformData.name pd /\
        PlatformProvider.slug p = PlatformData.slug pd /\
        PlatformProvider.adapter_identifier p = PlatformData.adapter_identifier pd)) /\
  (NoDup (map PlatformProvider.slug (platforms d)) ->
   NoDup (map PlatformProvider.id (platforms d)) ->
   NoDup (map PlatformProvider.slug (platforms run.1)) /\
   NoDup (map PlatformProvider.id (platforms run.1))).
Proof.
  intros run. subst run. unfold seed_platforms. cbv zeta.
  pose proof (seed_loop_frame S0 PLATFORMS d 0) as Hframe. cbv zeta in Hframe.
  pose proof (seed_loop_covers S0 PLATFORMS d 0) as Hcov.
  pose proof (seed_loop_added S0 PLATFORMS d 0) as Hadd.
  pose proof (seed_loop_unique S0 PLATFORMS d 0) as Huniq.
  destruct (seed_commit_error S0 d _) as [e|]; cbn [fst snd].
  - split; [reflexivity|]. split; [repeat split; reflexivity|].
    split; [discriminate|]. split; [auto|]. auto.
  - split; [discriminate|]. split; [exact Hframe|]. split; [intros _; exact Hcov|].
    split; [|exact Huniq].
    intros p Hin. destruct (Hadd p Hin) as [H|(Hn & pd & Hpd & Hname & Hslug & Had)];
      [left; exact H|].
    right. split; [exact Hn|]. split; [|eauto].
    rewrite Had. cbn in Hpd. destruct Hpd as [<-|[<-|[]]]; discriminate.
Qed.

Lemma seed_platforms_witness :
  (seed_platforms (mk_seed_env (fun n => 500 + Z.of_nat n)
                     (fun _ _ => Some SQLAlchemyError)) Demo.db0).1 = Demo.db0 /\
  (NoDup (map PlatformProvider.slug (platforms (seed_platforms Demo3.seed_env0 Demo.db0).1)) /\
   NoDup (map PlatformProvider.id (platforms (seed_platforms Demo3.seed_env0 Demo.db0).1))).
Proof.
  split.
  - apply (proj1 (seed_platforms_adds_the_missing_platforms_only
             (mk_seed_env (fun n => 500 + Z.of_nat n) (fun _ _ => Some SQLAlchemyError))
             Demo.db0) SQLAlchemyError).
    reflexivity.
  - apply (proj2 (proj2 (proj2 (proj2
             (seed_platforms_adds_the_missing_platforms_only Demo3.seed_env0 Demo.db0))))).
    + apply (@bool_decide_unpack _ (NoDup_dec _)). vm_compute. exact I.
    + apply (@bool_decide_unpack _ (NoDup_dec _)). vm_compute. exact I.
Defined.

(** ** Accounts and tokens *)

Lemma select_user_by_email_spec email d u :
  select_user_by_email email d = Some u -> In u (users d) /\ User.email u = email.
Proof.
  unfold select_user_by_email. intros H. apply find_some in H as [Hin H].
  apply String.eqb_eq in H. auto.
Qed.

Lemma select_user_by_email_None email d :
  select_user_by_email email d = None -> ~ In email (map User.email (users d)).
Proof.
  unfold select_user_by_email. intros H Hin.
  apply in_map_iff in Hin as (u & Hu & Hin).
  pose proof (find_none _ _ H u Hin) as Hf. cbn in Hf.
  rewrite Hu, String.eqb_refl in Hf. discriminate.
Qed.

Lemma register_run user_data E w :
  register user_data E w =
    match select_user_by_email (UserCreate.email user_data) (auth_db w) with
    | Some _ => (auth_set_pending [] w, Auth_Raise (Auth_HTTPException 400))
    | None =>
        match pwd_hash E (auth_salts w) (UserCreate.password user_data) with
        | Raise e =>
            (mk_auth_world (auth_db w) [] (auth_clock w) (S (auth_salts w)),
             Auth_Raise (Auth_exn e))
        | Ok hashed_password =>
            let new_user := fun pk =>
              User.mk pk (UserCreate.email user_data) hashed_password true
                      (auth_utcnow_at E (auth_clock w)) in
            match auth_commit_error E (auth_db w) [new_user] with
            | Some e =>
                (mk_auth_world (auth_db w) [] (S (auth_clock w)) (S (auth_salts w)),
                 Auth_Raise (Auth_exn e))
            | None =>
                (mk_auth_world (insert_user (auth_db w) new_user) []
                               (S (auth_clock w)) (S (auth_salts w)),
                 Auth_Ok (new_user (next_id (map User.id (users (auth_db w))))))
            end
        end
    end.
Proof.
  unfold register, auth_with_Session, auth_bind, auth_query, auth_raise,
    get_password_hash, auth_utcnow, auth_session_add, auth_session_commit,
    auth_session_refresh_new_user, auth_set_pending.
  cbn [auth_db auth_pending auth_clock auth_salts].
  destruct (select_user_by_email _ (auth_db w)); [reflexivity|].
  destruct (pwd_hash E _ _) as [h|e]; [|reflexivity].
  cbn [auth_db auth_pending auth_clock auth_salts app]. cbv zeta.
  destruct (auth_commit_error E _ _); [reflexivity|].
  cbn [fold_left auth_db insert_user users]. rewrite last_snoc. reflexivity.
Qed.

Lemma register_Ok_inv user_data E w u :
  (register user_data E w).2 = Auth_Ok u ->
  users (auth_db (register user_data E w).1) = users (auth_db w) ++ [u] /\
  ~ In (User.id u) (map User.id (users (auth_db w))) /\
  ~ In (User.email u) (map User.email (users (auth_db w))) /\
  User.email u = UserCreate.email user_data /\
  User.is_active u = true /\
  pwd_hash E (auth_salts w) (UserCreate.password user_data)
    = Ok (User.hashed_password u) /\
  select_user_by_email (UserCreate.email user_data)
    (auth_db (register user_data E w).1) = Some u /\
  platforms (auth_db (register user_data E w).1) = platforms (auth_db w) /\
  api_keys (auth_db (register user_data E w).1) = api_keys (auth_db w) /\
  balance_logs (auth_db (register user_data E w).1) = balance_logs (auth_db w) /\
  notification_rules (auth_db (register user_data E w).1)
    = notification_rules (auth_db w).
Proof.
  rewrite register_run.
  destruct (select_user_by_email _ (auth_db w)) as [u0|] eqn:Hsel; [discriminate|].
  destruct (pwd_hash E _ _) as [h|e0] eqn:Hh; [|discriminate].
  cbv zeta. destruct (auth_commit_error E _ _) as [e1|]; [discriminate|].
  cbn [fst snd auth_db insert_user users platforms api_keys balance_logs
       notification_rules].
  pose proof (select_user_by_email_None _ _ Hsel) as Hnew.
  intros [= <-]. cbn [User.id User.email User.is_active User.hashed_password].
  split; [reflexivity|]. split; [apply next_id_fresh|]. split; [exact Hnew|].
  do 3 (split; [reflexivity|]). split; [|auto].
  unfold select_user_by_email in *. cbn [users]. apply find_app_fresh.
  - intros y Hy. apply (find_none _ _ Hsel y Hy).
  - cbn. apply String.eqb_refl.
Qed.

(** X23: registration refuses a taken email and otherwise stores one active
    user: for an email some user has, the answer is 400, nothing is stored
    and the password is not hashed; any failure leaves the database as it
    was; on success the returned user is the one appended to the users,
    under an id no user had, active, with the submitted email, which no
    user had before, and with the hash passlib returned for the password;
    looking the email up finds this user, the other tables are untouched,
    and emails that were unique stay unique. *)
Theorem register_refuses_a_taken_email_and_stores_one_active_user
    (user_data : UserCreate.t) (E : auth_env) (w : auth_world) :
  let run := register user_data E w in
  (select_user_by_email (UserCreate.email user_data) (auth_db w) <> None ->
     run = (auth_set_pending [] w, Auth_Raise (Auth_HTTPException 400))) /\
  (forall e, run.2 = Auth_Raise e -> auth_db run.1 = auth_db w) /\
  (forall u, run.2 = Auth_Ok u ->
     users (auth_db run.1) = users (auth_db w) ++ [u] /\
     ~ In (User.id u) (map User.id (users (auth_db w))) /\
     ~ In (User.email u) (map User.email (users (auth_db w))) /\
     User.email u = UserCreate.email user_data /\
     User.is_active u = true /\
     pwd_hash E (auth_salts w) (UserCreate.password user_data)
       = Ok (User.hashed_password u) /\
     select_user_by_email (UserCreate.email user_data) (auth_db run.1) = Some u /\
     platforms (auth_db run.1) = platforms (auth_db w) /\
     api_keys (auth_db run.1) = api_keys (auth_db w) /\
     balance_logs (auth_db run.1) = balance_logs (auth_db w) /\
     notification_rules (auth_db run.1) = notification_rules (auth_db w)) /\
  (NoDup (map User.email (users (auth_db w))) ->
   NoDup (map User.email (users (auth_db run.1)))).
Proof.
  intros run. pose proof (register_run user_data E w) as Hrun.
  pose proof (register_Ok_inv user_data E w) as Hinv.
  fold run in Hrun, Hinv. clearbody run.
  destruct (select_user_by_email _ (auth_db w)) as [u0|] eqn:Hsel.
  { subst run. cbn. split; [reflexivity|]. split; [reflexivity|].
    split; [discriminate|]. auto. }
  destruct (pwd_hash E _ _) as [h|e0] eqn:Hh.
  2:{ subst run. cbn. split; [congruence|]. split; [reflexivity|].
      split; [discriminate|]. auto. }
  cbv zeta in Hrun. destruct (auth_commit_error E _ _) as [e1|] eqn:Hc; subst run.
  { cbn. split; [congruence|]. split; [reflexivity|]. split; [discriminate|]. auto. }
  cbn [fst snd auth_db insert_user users platforms api_keys balance_logs
       notification_rules].
  pose proof (select_user_by_email_None _ _ Hsel) as Hnew.
  split; [congruence|]. split; [discriminate|]. split.
  - intros u Hu. exact (Hinv u Hu).
  - intros Hnd. rewrite map_app. cbn [map User.email].
    apply NoDup_app. split; [exact Hnd|]. split; [|apply NoDup_singleton].
    intros x Hx Hn. apply list_elem_of_singleton in Hn. subst x.
    apply list_elem_of_In in Hx. exact (Hnew Hx).
Qed.

Lemma register_witness :
  register (UserCreate.mk "a@example.org" "other") Demo3.auth_env0 Demo3.auth_world0
    = (auth_set_pending [] Demo3.auth_world0, Auth_Raise (Auth_HTTPException 400)) /\
  select_user_by_email "new@example.org"
    (auth_db (register Demo3.new_user_request Demo3.auth_env0 Demo3.auth_world0).1)
    = Some Demo3.new_user.
Proof.
  split.
  - apply (proj1 (register_refuses_a_taken_email_and_stores_one_active_user
                    (UserCreate.mk "a@example.org" "other")
                    Demo3.auth_env0 Demo3.auth_world0)).
    discriminate.
  - apply (proj1 (proj2 (proj2
             (register_refuses_a_taken_email_and_stores_one_active_user
                Demo3.new_user_request Demo3.auth_env0 Demo3.auth_world0)))
             Demo3.new_user).
    reflexivity.
Defined.

(** The claims of the token [login] asks for. *)
Lemma create_access_token_run data delta E w :
  create_access_token data (Some (minutes delta)) E w =
    let now := auth_utcnow_at E (auth_clock w) in
    let w1 := mk_auth_world (auth_db w) (auth_pending w) (S (auth_clock w))
                            (auth_salts w) in
    let expire := if minutes delta =? 0
                  then now + minutes (ACCESS_TOKEN_EXPIRE_MINUTES E)
                  else now + minutes delta in
    match jwt_encode E (<["exp" := PInt expire]> data) with
    | Some t => (w1, Auth_Ok t)
    | None => (w1, Auth_Raise JWTError)
    end.
Proof.
  unfold create_access_token, auth_bind, auth_ask, auth_utcnow, auth_ret, auth_raise.
  cbv zeta. destruct (jwt_encode E _); reflexivity.
Qed.

Lemma login_run form_data E w :
  login form_data E w =
    match select_user_by_email (OAuth2PasswordRequestForm.username form_data)
            (auth_db w) with
    | None => (auth_set_pending [] w, Auth_Raise (Auth_HTTPException 401))
    | Some user =>
        match pwd_verify E (OAuth2PasswordRequestForm.password form_data)
                (User.hashed_password user) with
        | Raise e => (auth_set_pending [] w, Auth_Raise (Auth_exn e))
        | Ok false => (auth_set_pending [] w, Auth_Raise (Auth_HTTPException 401))
        | Ok true =>
            if User.is_active user then
              let w1 := mk_auth_world (auth_db w) [] (S (auth_clock w))
                                      (auth_salts w) in
              match jwt_encode E (login_claims E w (User.email user)) with
              | Some t => (w1, Auth_Ok (Token.mk t "bearer"))
              | None => (w1, Auth_Raise JWTError)
              end
            else (auth_set_pending [] w, Auth_Raise (Auth_HTTPException 403))
        end
    end.
Proof.
  unfold login, auth_with_Session. unfold auth_bind at 1. unfold auth_query.
  cbn [auth_db auth_set_pending].
  destruct (select_user_by_email _ (auth_db w)) as [user|]; [|reflexivity].
  unfold auth_bind at 1. unfold verify_password, auth_bind at 1, auth_ask, auth_lift.
  destruct (pwd_verify E _ _) as [[|]|e]; cbn [negb]; [|reflexivity|reflexivity].
  destruct (User.is_active user); cbn [negb]; [|reflexivity].
  unfold auth_bind at 1. unfold auth_bind at 1.
  rewrite create_access_token_run. cbv zeta. unfold login_claims.
  cbn [auth_clock auth_db auth_pending auth_salts auth_set_pending].
  assert (Hexp : (if minutes (ACCESS_TOKEN_EXPIRE_MINUTES E) =? 0
                  then auth_utcnow_at E (auth_clock w)
                       + minutes (ACCESS_TOKEN_EXPIRE_MINUTES E)
                  else auth_utcnow_at E (auth_clock w)
                       + minutes (ACCESS_TOKEN_EXPIRE_MINUTES E))
                 = auth_utcnow_at E (auth_clock w)
                   + minutes (ACCESS_TOKEN_EXPIRE_MINUTES E))
    by (destruct (_ =? 0); reflexivity).
  rewrite Hexp. destruct (jwt_encode E _); reflexivity.
Qed.

(** X24: login checks the password before the account and writes nothing:
    an unknown email and a wrong password get the same 401, also when the
    account is inactive; the 403 of an inactive account is given only after
    the password was verified; and a token is returned only for an active
    user whose password was verified, is of type [bearer], and is what
    python-jose made of the user's email as subject and an expiry
    [ACCESS_TOKEN_EXPIRE_MINUTES] after the clock reading. *)
Theorem login_checks_the_password_before_the_account
    (form_data : OAuth2PasswordRequestForm.t) (E : auth_env) (w : auth_world) :
  let run := login form_data E w in
  let found := select_user_by_email (OAuth2PasswordRequestForm.username form_data)
                 (auth_db w) in
  auth_db run.1 = auth_db w /\
  (found = None -> run.2 = Auth_Raise (Auth_HTTPException 401)) /\
  (forall user, found = Some user ->
     pwd_verify E (OAuth2PasswordRequestForm.password form_data)
       (User.hashed_password user) = Ok false ->
     run.2 = Auth_Raise (Auth_HTTPException 401)) /\
  (forall user, found = Some user ->
     pwd_verify E (OAuth2PasswordRequestForm.password form_data)
       (User.hashed_password user) = Ok true ->
     User.is_active user = false ->
     run.2 = Auth_Raise (Auth_HTTPException 403)) /\
  (forall tok, run.2 = Auth_Ok tok ->
     Token.token_type tok = "bearer"%string /\
     exists user,
       found = Some user /\ User.is_active user = true /\
       pwd_verify E (OAuth2PasswordRequestForm.password form_data)
         (User.hashed_password user) = Ok true /\
       jwt_encode E (login_claims E w (User.email user))
         = Some (Token.access_token tok)).
Proof.
  intros run found. pose proof (login_run form_data E w) as Hrun.
  fold run found in Hrun. clearbody run. subst found.
  destruct (select_user_by_email _ (auth_db w)) as [user|].
  2:{ subst run. cbn. split; [reflexivity|]. split; [reflexivity|].
      split; [discriminate|]. split; discriminate. }
  destruct (pwd_verify E _ _) as [[|]|e] eqn:Hv.
  - destruct (User.is_active user) eqn:Ha.
    + cbv zeta in Hrun. destruct (jwt_encode E _) as [t|] eqn:Ht; subst run; cbn.
      * split; [reflexivity|]. split; [discriminate|]. split.
        { intros u [= <-]. congruence. }
        split. { intros u [= <-]. congruence. }
        intros tok [= <-]. split; [reflexivity|]. exists user. auto.
      * split; [reflexivity|]. split; [discriminate|]. split.
        { intros u [= <-]. congruence. }
        split. { intros u [= <-]. congruence. }
        discriminate.
    + subst run. cbn. split; [reflexivity|]. split; [discriminate|]. split.
      { intros u [= <-]. congruence. }
      split; [reflexivity|discriminate].
  - subst run. cbn. split; [reflexivity|]. split; [discriminate|].
    split; [reflexivity|]. split; [|discriminate].
    intros u [= <-]. congruence.
  - subst run. cbn. split; [reflexivity|]. split; [discriminate|]. split.
    { intros u [= <-]. congruence. }
    split; [|discriminate]. intros u [= <-]. congruence.
Qed.

Lemma login_witness :
  (login (OAuth2PasswordRequestForm.mk "gone@example.org" "nope")
         Demo3.auth_env0 Demo3.auth_world0).2
    = Auth_Raise (Auth_HTTPException 401) /\
  (login (OAuth2PasswordRequestForm.mk "gone@example.org" "pw2")
         Demo3.auth_env0 Demo3.auth_world0).2
    = Auth_Raise (Auth_HTTPException 403).
Proof.
  split.
  - apply (proj1 (proj2 (proj2 (login_checks_the_password_before_the_account
             (OAuth2PasswordRequestForm.mk "gone@example.org" "nope")
             Demo3.auth_env0 Demo3.auth_world0))) Demo3.inactive);
      reflexivity.
  - apply (proj1 (proj2 (proj2 (proj2 (login_checks_the_password_before_the_account
             (OAuth2PasswordRequestForm.mk "gone@example.org" "pw2")
             Demo3.auth_env0 Demo3.auth_world0)))) Demo3.inactive);
      reflexivity.
Defined.

Lemma get_current_user_run token E w :
  get_current_user token E w =
    let w1 := mk_auth_world (auth_db w) [] (S (auth_clock w)) (auth_salts w) in
    match jwt_decode E (auth_utcnow_at E (auth_clock w)) token with
    | None => (w1, Auth_Raise (Auth_HTTPException 401))
    | Some payload =>
        match dict_get payload "sub" with
        | PStr email =>
            match select_user_by_email email (auth_db w) with
            | None => (w1, Auth_Raise (Auth_HTTPException 401))
            | Some user =>
                if User.is_active user then (w1, Auth_Ok user)
                else (w1, Auth_Raise (Auth_HTTPException 403))
            end
        | _ => (w1, Auth_Raise (Auth_HTTPException 401))
        end
    end.
Proof.
  unfold get_current_user, auth_with_Session, auth_bind, auth_ask, auth_utcnow,
    auth_query, auth_raise, auth_ret, auth_set_pending.
  cbn [auth_db auth_pending auth_clock auth_salts]. cbv zeta.
  destruct (jwt_decode E _ token) as [payload|]; [|reflexivity].
  destruct (dict_get payload "sub"); try reflexivity.
  cbn [auth_db auth_pending auth_clock auth_salts].
  destruct (select_user_by_email _ (auth_db w)) as [user|]; [|reflexivity].
  destruct (User.is_active user); reflexivity.
Qed.

(** X25: the user of a request is the active user the token names, or there
    is none: [get_current_user] writes nothing and fails with 401 or 403
    only; a token python-jose rejects gets 401; a user is returned only when
    the token decoded at the time of the request, its subject is the email
    of that user, the user is stored and is active; and 403 is given only
    to a valid token for a stored, inactive user. *)
Theorem get_current_user_returns_the_active_user_of_the_token
    (token : string) (E : auth_env) (w : auth_world) :
  let run := get_current_user token E w in
  let now := auth_utcnow_at E (auth_clock w) in
  auth_db run.1 = auth_db w /\
  (forall e, run.2 = Auth_Raise e ->
     e = Auth_HTTPException 401 \/ e = Auth_HTTPException 403) /\
  (jwt_decode E now token = None -> run.2 = Auth_Raise (Auth_HTTPException 401)) /\
  (forall user, run.2 = Auth_Ok user ->
     User.is_active user = true /\ In user (users (auth_db w)) /\
     exists payload,
       jwt_decode E now token = Some payload /\
       payload !! "sub" = Some (PStr (User.email user))) /\
  (run.2 = Auth_Raise (Auth_HTTPException 403) ->
   exists payload user,
     jwt_decode E now token = Some payload /\
     payload !! "sub" = Some (PStr (User.email user)) /\
     In user (users (auth_db w)) /\ User.is_active user = false).
Proof.
  intros run now. pose proof (get_current_user_run token E w) as Hrun.
  fold run now in Hrun. clearbody run. cbv zeta in Hrun. subst now.
  destruct (jwt_decode E _ token) as [payload|].
  2:{ subst run. cbn. split; [reflexivity|]. split; [intros e [= <-]; auto|].
      split; [reflexivity|]. split; discriminate. }
  unfold dict_get in Hrun.
  destruct (payload !! "sub") as [v|] eqn:Hsub; cbn [from_option id] in Hrun.
  2:{ subst run. cbn. split; [reflexivity|]. split; [intros e [= <-]; auto|].
      split; [discriminate|]. split; discriminate. }
  destruct v; try (subst run; cbn; split; [reflexivity|];
                   split; [intros e [= <-]; auto|];
                   split; [discriminate|]; split; discriminate).
  destruct (select_user_by_email s (auth_db w)) as [user|] eqn:Hsel.
  2:{ subst run. cbn. split; [reflexivity|]. split; [intros e [= <-]; auto|].
      split; [discriminate|]. split; discriminate. }
  apply select_user_by_email_spec in Hsel as [Hin <-].
  destruct (User.is_active user) eqn:Ha; subst run; cbn.
  - split; [reflexivity|]. split; [discriminate|]. split; [discriminate|].
    split; [|discriminate]. intros u [= <-]. eauto.
  - split; [reflexivity|]. split; [intros e [= <-]; auto|]. split; [discriminate|].
    split; [discriminate|]. intros _. eauto 6.
Qed.

Lemma get_current_user_witness :
  (get_current_user "garbage" Demo3.auth_env0 Demo3.auth_world0).2
    = Auth_Raise (Auth_HTTPException 401) /\
  (User.is_active Demo3.alice = true /\
   In Demo3.alice (users (auth_db Demo3.auth_world0)) /\
   exists payload,
     jwt_decode Demo3.auth_env0
       (auth_utcnow_at Demo3.auth_env0 (auth_clock Demo3.auth_world0))
       "t:a@example.org" = Some payload /\
     payload !! "sub" = Some (PStr (User.email Demo3.alice))).
Proof.
  split.
  - apply (proj1 (proj2 (proj2 (get_current_user_returns_the_active_user_of_the_token
             "garbage" Demo3.auth_env0 Demo3.auth_world0)))).
    reflexivity.
  - apply (proj1 (proj2 (proj2 (proj2
             (get_current_user_returns_the_active_user_of_the_token
                "t:a@example.org" Demo3.auth_env0 Demo3.auth_world0))))
             Demo3.alice).
    reflexivity.
Defined.

(** X26: a registered user can log in and is then recognised: if
    registration returned the user [u], passlib verifies the submitted
    password against the hash it stored, python-jose makes the token [t]
    from the claims of the login, and decodes [t] to those claims at the
    time of a later request, then logging in with the same email and
    password returns the bearer token [t], and a request carrying [t] is
    served as [u]. *)
Theorem registered_user_can_log_in_and_is_recognised
    (user_data : UserCreate.t) (E : auth_env) (w : auth_world)
    (u : User.t) (t : string) :
  let w1 := (register user_data E w).1 in
  let form_data := OAuth2PasswordRequestForm.mk (UserCreate.email user_data)
                     (UserCreate.password user_data) in
  let w2 := (login form_data E w1).1 in
  (register user_data E w).2 = Auth_Ok u ->
  pwd_verify E (UserCreate.password user_data) (User.hashed_password u) = Ok true ->
  jwt_encode E (login_claims E w1 (UserCreate.email user_data)) = Some t ->
  jwt_decode E (auth_utcnow_at E (auth_clock w2)) t
    = Some (login_claims E w1 (UserCreate.email user_data)) ->
  (login form_data E w1).2 = Auth_Ok (Token.mk t "bearer") /\
  (get_current_user t E w2).2 = Auth_Ok u.
Proof.
  intros w1 form_data w2 Hreg Hver Henc Hdec.
  destruct (register_Ok_inv user_data E w u Hreg)
    as (_ & _ & _ & Hemail & Hact & _ & Hsel & _).
  fold w1 in Hsel.
  assert (Hlogin : login form_data E w1 =
            (mk_auth_world (auth_db w1) [] (S (auth_clock w1)) (auth_salts w1),
             Auth_Ok (Token.mk t "bearer"))).
  { rewrite login_run. subst form_data.
    cbn [OAuth2PasswordRequestForm.username OAuth2PasswordRequestForm.password].
    rewrite Hsel, Hver, Hact. cbv zeta. rewrite Hemail, Henc. reflexivity. }
  split; [rewrite Hlogin; reflexivity|].
  rewrite get_current_user_run. cbv zeta. rewrite Hdec.
  unfold dict_get, login_claims. rewrite lookup_insert_ne by discriminate.
  rewrite lookup_singleton_eq. cbn [from_option id].
  subst w2. rewrite Hlogin. cbn [fst auth_db]. rewrite Hsel, Hact. reflexivity.
Qed.

Lemma registered_user_round_trip_witness :
  (login (OAuth2PasswordRequestForm.mk "new@example.org" "pw3") Demo3.auth_env0
         (register Demo3.new_user_request Demo3.auth_env0 Demo3.auth_world0).1).2
    = Auth_Ok (Token.mk "t:new@example.org" "bearer") /\
  (get_current_user "t:new@example.org" Demo3.auth_env0
     (login (OAuth2PasswordRequestForm.mk "new@example.org" "pw3") Demo3.auth_env0
            (register Demo3.new_user_request Demo3.auth_env0 Demo3.auth_world0).1).1).2
    = Auth_Ok Demo3.new_user.
Proof.
  apply (registered_user_can_log_in_and_is_recognised
           Demo3.new_user_request Demo3.auth_env0 Demo3.auth_world0
           Demo3.new_user "t:new@example.org");
    reflexivity.
Defined.

(** ** Who sees a credential, and what balance it shows *)

Lemma find_all_false {A} (f : A -> bool) l :
  (forall y, In y l -> f y = false) -> find f l = None.
Proof.
  intros H. induction l as [|y l IH]; cbn; [reflexivity|].
  rewrite (H y (or_introl eq_refl)). apply IH. intros z Hz. apply H. right. exact Hz.
Qed.

Lemma select_owned_key_new_row d d' row user_id :
  ManagedApiKey.id row = next_id (map ManagedApiKey.id (api_keys d)) ->
  api_keys d' = api_keys d ++ [row] ->
  select_owned_key (ManagedApiKey.id row) user_id d' =
    if ManagedApiKey.user_id row =? user_id then Some row else None.
Proof.
  intros Hid Hd'. unfold select_owned_key. rewrite Hd'.
  assert (Hold : forall y, In y (api_keys d) ->
            (ManagedApiKey.id y =? ManagedApiKey.id row)
            && (ManagedApiKey.user_id y =? user_id) = false).
  { intros y Hy. apply andb_false_iff. left. apply Z.eqb_neq. intros Heq.
    apply (next_id_fresh (map ManagedApiKey.id (api_keys d))).
    rewrite <- Hid, <- Heq. apply in_map, Hy. }
  destruct (ManagedApiKey.user_id row =? user_id) eqn:Hu.
  - apply find_app_fresh; [exact Hold|]. rewrite Z.eqb_refl, Hu. reflexivity.
  - apply find_all_false. intros y Hy. apply in_app_or in Hy as [Hy|[<-|[]]].
    + apply Hold, Hy.
    + rewrite Hu. apply andb_false_r.
Qed.

(** X27: a registered credential is visible to its owner only: after a
    registration by [current_user] returned [row], the owner finds it in
    the list of keys, can trigger its check (the only failure left is the
    500 of the queue) and is given its history; for any user with another
    id it is not in the list of keys, and triggering its check or asking
    for its history is answered 404. *)
Theorem registered_key_is_visible_to_its_owner_only
    (key_data : ApiKeyCreate.t) (current_user other : User.t) (E : env) (w : world)
    (row : ManagedApiKey.t) :
  (create_key key_data current_user E w).2 = Ok row ->
  let w1 := (create_key key_data current_user E w).1 in
  (forall E', exists keys,
     (list_keys current_user E' w1).2 = Ok keys /\ In row keys) /\
  (forall E' e, (trigger_check (ManagedApiKey.id row) current_user E' w1).2 = Raise e ->
     e = HTTPException 500) /\
  (forall E', exists logs,
     (get_balance_history (ManagedApiKey.id row) current_user E' w1).2 = Ok logs) /\
  (User.id other <> User.id current_user ->
   forall E',
     (forall keys, (list_keys other E' w1).2 = Ok keys -> ~ In row keys) /\
     (trigger_check (ManagedApiKey.id row) other E' w1).2 = Raise (HTTPException 404) /\
     (get_balance_history (ManagedApiKey.id row) other E' w1).2
       = Raise (HTTPException 404)).
Proof.
  intros Hok w1. subst w1.
  destruct (create_key_Ok_inv _ _ _ _ _ Hok) as (p & c & t1 & t2 & _ & _ & Hrow & Hdb).
  assert (Hid : ManagedApiKey.id row
                = next_id (map ManagedApiKey.id (api_keys (db w))))
    by (rewrite Hrow; reflexivity).
  assert (Huser : ManagedApiKey.user_id row = User.id current_user)
    by (rewrite Hrow; reflexivity).
  assert (Hkeys : api_keys (db (create_key key_data current_user E w).1)
                  = api_keys (db w) ++ [row]) by (rewrite Hdb; reflexivity).
  pose proof (select_owned_key_new_row (db w) _ row (User.id current_user) Hid Hkeys)
    as Hown.
  rewrite Huser, Z.eqb_refl in Hown.
  split; [|split; [|split]].
  - intros E'. unfold list_keys, with_Session, session_query.
    cbn [fst snd db set_pending]. eexists. split; [reflexivity|].
    unfold select_keys_of. rewrite Hkeys. apply filter_In. split.
    + apply in_or_app. right. left. reflexivity.
    + rewrite Huser. apply Z.eqb_refl.
  - intros E' e. rewrite trigger_check_run. cbv zeta. rewrite Hown.
    destruct (create_pool_error E'); [intros [= <-]; reflexivity|].
    destruct (enqueue_error E' _ _); [intros [= <-]; reflexivity|discriminate].
  - intros E'. rewrite get_balance_history_run, Hown. eexists. reflexivity.
  - intros Hother E'.
    pose proof (select_owned_key_new_row (db w) _ row (User.id other) Hid Hkeys)
      as Hnot.
    rewrite Huser in Hnot.
    destruct (Z.eqb_spec (User.id current_user) (User.id other)) as [Heq|_];
      [congruence|].
    split; [|split].
    + unfold list_keys, with_Session, session_query.
      cbn [fst snd db set_pending]. intros keys [= <-].
      unfold select_keys_of. rewrite filter_In, Huser, Z.eqb_eq. intros [_ H].
      congruence.
    + rewrite trigger_check_run. cbv zeta. rewrite Hnot. reflexivity.
    + rewrite get_balance_history_run, Hnot. reflexivity.
Qed.

Lemma registered_key_visibility_witness :
  (trigger_check 10 Demo2.user2 Demo.env_usage_3000
     (create_key Demo.new_key_request Demo.user1 Demo.env_usage_3000 Demo.world0).1).2
    = Raise (HTTPException 404).
Proof.
  apply (proj2 (proj2 (proj2 (registered_key_is_visible_to_its_owner_only
           Demo.new_key_request Demo.user1 Demo2.user2 Demo.env_usage_3000 Demo.world0
           (ManagedApiKey.mk 10 "fresh" Demo.token_A ∅ None None 1 1 1000 1001)
           eq_refl)))).
  discriminate.
Defined.

Lemma latest_record_snoc_same key_id d l (d' : database) :
  balance_logs d' = balance_logs d ++ [l] ->
  BalanceLog.key_id l = key_id ->
  latest_record key_id d' = Some l.
Proof.
  intros Hd' Hk. unfold latest_record. rewrite Hd', List.filter_app. cbn [List.filter].
  rewrite Hk, Z.eqb_refl. apply last_snoc.
Qed.

Lemma latest_record_snoc_other key_id d l (d' : database) :
  balance_logs d' = balance_logs d ++ [l] ->
  BalanceLog.key_id l <> key_id ->
  latest_record key_id d' = latest_record key_id d.
Proof.
  intros Hd' Hk. unfold latest_record. rewrite Hd', List.filter_app. cbn [List.filter].
  apply Z.eqb_neq in Hk. rewrite Hk, app_nil_r. reflexivity.
Qed.

Lemma balance_matches_history_registered d name metadata platform_id user_id c t1 t2 :
  balance_matches_history d ->
  balance_matches_history (registered d name metadata platform_id user_id c t1 t2).
Proof.
  intros H k b Hin Hb. unfold registered in Hin. cbn [api_keys] in Hin.
  apply in_app_or in Hin as [Hin|[<-|[]]]; [|discriminate].
  destruct (H k b Hin Hb) as (l & Hl & Hbal). exists l. split; [exact Hl|exact Hbal].
Qed.

Lemma balance_matches_history_persisted d key_id b t1 t2 :
  balance_matches_history d ->
  balance_matches_history (persisted d key_id b t1 t2).
Proof.
  intros H k b' Hin Hb. unfold persisted in Hin. cbn [api_keys] in Hin.
  apply in_map_iff in Hin as (k0 & Hk & Hin).
  set (l := BalanceLog.mk (next_id (map BalanceLog.id (balance_logs d))) t2 b key_id).
  assert (Hlogs : balance_logs (persisted d key_id b t1 t2) = balance_logs d ++ [l])
    by reflexivity.
  destruct (Z.eqb_spec (ManagedApiKey.id k0) key_id) as [Heq|Hne]; subst k.
  - cbn in Hb. injection Hb as <-. exists l. split; [|reflexivity].
    apply (latest_record_snoc_same _ d l _ Hlogs). cbn. symmetry. exact Heq.
  - destruct (H k0 b' Hin Hb) as (l0 & Hl0 & Hbal). exists l0. split; [|exact Hbal].
    rewrite (latest_record_snoc_other _ d l _ Hlogs); [exact Hl0|].
    cbn. congruence.
Qed.

(** X28: the balance a credential shows is the balance of its latest
    history record: if that holds of every credential that shows a balance,
    it still holds after any sequence of registrations and checks, whatever
    fails along the way. *)
Theorem shown_balance_is_the_latest_history_record
    (E : env) (ops : list store_op) (w : world) :
  balance_matches_history (db w) ->
  balance_matches_history (db (run_store_ops E ops w)).
Proof.
  revert w. induction ops as [|o ops IH]; intros w H; [exact H|].
  rewrite run_store_ops_cons. apply IH.
  destruct (run_store_op_db E w o)
    as [->|[(name & metadata & platform_id & user_id & c & t1 & t2 & ->)
           |(key_id & b & t1 & t2 & ->)]].
  - exact H.
  - apply balance_matches_history_registered, H.
  - apply balance_matches_history_persisted, H.
Qed.

Lemma shown_balance_witness :
  balance_matches_history
    (db (run_store_ops Demo.env_usage_3000
           [CheckSingleKey 7; CreateKey Demo.new_key_request Demo.user1;
            CheckSingleKey 7; CheckSingleKey 10]
           Demo.world0)).
Proof.
  apply (shown_balance_is_the_latest_history_record Demo.env_usage_3000
           [CheckSingleKey 7; CreateKey Demo.new_key_request Demo.user1;
            CheckSingleKey 7; CheckSingleKey 10]
           Demo.world0).
  intros k b Hin Hb. cbn in Hin.
  destruct Hin as [<-|[<-|[<-|[]]]]; discriminate.
Defined.

(** X29: decryption touches nothing and fails in three ways only: it leaves
    the world as it was, its outcome depends on the service and the token
    alone, and what it raises is [UnicodeEncodeError] (the token is no text
    UTF-8 can encode), [InvalidToken] (Fernet rejects it) or
    [UnicodeDecodeError] (the plaintext is not UTF-8). *)
Theorem decrypt_touches_nothing_and_fails_in_three_ways
    (svc : EncryptionService.t) (token : pystr) (E : env) (w : world) :
  (EncryptionService.decrypt svc token E w).1 = w /\
  (forall E' w',
     (EncryptionService.decrypt svc token E' w').2
       = (EncryptionService.decrypt svc token E w).2) /\
  (forall e, (EncryptionService.decrypt svc token E w).2 = Raise e ->
     e = UnicodeEncodeError /\ ~ Forall Utf8.is_scalar token
     \/ e = InvalidToken
     \/ e = UnicodeDecodeError).
Proof.
  split; [apply decrypt_world|]. split; [intros E' w'; apply decrypt_any_world|].
  intros e. unfold EncryptionService.decrypt, bind, lift, raise, str_encode, bytes_decode.
  destruct (Utf8.encode token) as [tok|] eqn:Henc.
  - destruct (Fernet_decrypt _ tok) as [plain|]; [|intros [= <-]; auto].
    destruct (Utf8.decode plain); [discriminate|intros [= <-]; auto].
  - intros [= <-]. left. split; [reflexivity|].
    intros Hs. destruct (Utf8Facts.encode_total token Hs) as [b Hb]. congruence.
Qed.

Lemma decrypt_fails_witness :
  InvalidToken = UnicodeEncodeError /\ ~ Forall Utf8.is_scalar Demo.token_A
  \/ InvalidToken = InvalidToken
  \/ InvalidToken = UnicodeDecodeError.
Proof.
  apply (proj2 (proj2 (decrypt_touches_nothing_and_fails_in_three_ways
           (encryption_service Demo.env_other_key) Demo.token_A
           Demo.env_other_key Demo.world0))).
  reflexivity.
Defined.
